(** * State recovery: signed, type-checked serialization of component state

    A shallow embedding of [reactpy/core/state_recovery.py]: the
    [StateRecoveryManager] (type registry, secrets, serializer factory) and
    the [StateRecoverySerializer] (serialize / sign / verify / reconstruct).

    Conventions of the embedding.
    - A Python [str] is a [string] and a Python [bytes] is a [list byte];
      a [str] is identified with its UTF-8 encoding, so [.encode("utf-8")]
      and [.decode("utf-8")] are the two conversions of the Standard Library.
    - A [dict] is an association list in insertion order; assignment
      [d[k] = v] overwrites in place or appends.
    - A call that may raise returns an [outcome]: [Ok v] or [Raise e].
    - The libraries the module imports (hashlib, base64, orjson, pyotp), the
      interpreter's classes (their [__mro__] and constructors), the clock and
      the file system are the fields of the interface [Runtime]; the code of
      the module is written once over that interface.  [Reference] below
      gives an executable instance (SHA-256, URL-safe base64 and a JSON codec
      computed in Rocq) on which concrete runs are evaluated.
    - Values of type [float] are outside the modelled universe of values (the
      type itself keeps its place in the registry). *)

From Stdlib Require Import ZArith NArith List String Ascii Strings.Byte Bool Lia.
From Stdlib Require Import Decimal DecimalString DecimalNat SpecFloat.
From Stdlib Require DecimalFacts DecimalN.
Import ListNotations.

Local Open Scope string_scope.
Local Open Scope list_scope.

(** ** Python data *)

Definition bytes := list byte.

Definition encode_utf8 (s : string) : bytes := list_byte_of_string s.
Definition decode_utf8 (b : bytes) : string := string_of_list_byte b.

Lemma encode_utf8_inj (a b : string) : encode_utf8 a = encode_utf8 b -> a = b.
Proof.
  unfold encode_utf8; intros E.
  apply (f_equal string_of_list_byte) in E.
  now rewrite !string_of_list_byte_of_string in E.
Qed.

Lemma decode_encode_utf8 (s : string) : decode_utf8 (encode_utf8 s) = s.
Proof. apply string_of_list_byte_of_string. Qed.

Lemma encode_decode_utf8 (b : bytes) : encode_utf8 (decode_utf8 b) = b.
Proof. apply list_byte_of_string_of_list_byte. Qed.

(** [str(idx)] for a non-negative integer. *)
Definition str_of_nat (n : nat) : string :=
  NilEmpty.string_of_uint (Nat.to_uint n).

(** [len(b)] *)
Definition len {A} (l : list A) : Z := Z.of_nat (List.length l).

(** The classes the module names, and user classes by name. *)
Inductive pytype :=
| T_object | T_NoneType
| T_str | T_int | T_float | T_bool | T_list | T_tuple | T_dict | T_UUID
| T_Decimal | T_datetime | T_date | T_time
| T_class (name : string).

#[local] Set Warnings "-register-all".

(** Values.  An instance of a class that is not a JSON-native container is
    [PyInstance cls state], [state] being its attributes. *)
Inductive pyobj :=
| PyNone
| PyBool (b : bool)
| PyInt (z : Z)
| PyStr (s : string)
| PyList (l : list pyobj)
| PyTuple (l : list pyobj)
| PyDict (d : list (string * pyobj))
| PyInstance (cls : pytype) (state : list (string * pyobj)).

(** [type(obj)] *)
Definition type_of (obj : pyobj) : pytype :=
  match obj with
  | PyNone => T_NoneType
  | PyBool _ => T_bool
  | PyInt _ => T_int
  | PyStr _ => T_str
  | PyList _ => T_list
  | PyTuple _ => T_tuple
  | PyDict _ => T_dict
  | PyInstance cls _ => cls
  end.

(** [obj is None] *)
Definition is_None (obj : pyobj) : bool :=
  match obj with PyNone => true | _ => false end.

(** Numbers accepted as a timestamp: [int] or [float]. *)
Inductive pynum :=
| PyI (z : Z)
| PyF (f : spec_float).

(** Truth value of a number: zero (of either sign) is false. *)
Definition num_truthy (x : pynum) : bool :=
  match x with
  | PyI z => negb (z =? 0)%Z
  | PyF (S754_zero _) => false
  | PyF _ => true
  end.

(** ** Exceptions *)

Inductive exn_class :=
| StateRecoveryFailureError
| ValueError
| TypeError
| KeyError
| OtherError (name : string).

(** The message of an exception; the four f-strings of the module keep their
    arguments. *)
Inductive message :=
| not_whitelisted (obj : pyobj)
    (* f"Object {obj} was not white-listed for serialization" *)
| too_long (obj : pyobj) (length : Z)
    (* f"Serialized object {obj} is too long (length: {len(result)})" *)
| unknown_type_id (type_id : bytes)
    (* f"Unknown type id {type_id}" *)
| signature_mismatch (type_id : bytes)
    (* f"Signature mismatch for type id {type_id}" *)
| Text (s : string).

Inductive exn := Exn (cls : exn_class) (msg : message).

Definition exn_cls (e : exn) : exn_class := let 'Exn c _ := e in c.
Definition exn_msg (e : exn) : message := let 'Exn _ m := e in m.

(** The failures the module raises itself, under the names the
    specification gives them.  Any other exception is one that a library or
    a constructor raised and the module let through. *)
Inductive failure :=
| WhitelistViolation
| PayloadTooLarge
| UnknownType
| SignatureMismatch.

Definition failure_of (e : exn) : option failure :=
  match e with
  | Exn ValueError (not_whitelisted _) => Some WhitelistViolation
  | Exn ValueError (too_long _ _) => Some PayloadTooLarge
  | Exn StateRecoveryFailureError (unknown_type_id _) => Some UnknownType
  | Exn StateRecoveryFailureError (signature_mismatch _) =>
      Some SignatureMismatch
  | _ => None
  end.

Inductive outcome (A : Type) :=
| Ok (a : A)
| Raise (e : exn).
Arguments Ok {A} a.
Arguments Raise {A} e.

Definition bind {A B} (r : outcome A) (k : A -> outcome B) : outcome B :=
  match r with
  | Ok a => k a
  | Raise e => Raise e
  end.

Declare Scope outcome_scope.
Delimit Scope outcome_scope with outcome.
Notation "x <- r ;; k" := (bind r (fun x => k))
  (at level 61, r at next level, right associativity) : outcome_scope.
Local Open Scope outcome_scope.

(** A Python callable of one argument. *)
Definition callback := pyobj -> outcome pyobj.

(** ** Equality tests and dictionaries *)

Class Eqb (A : Type) := {
  eqb : A -> A -> bool;
  eqb_spec : forall x y, reflect (x = y) (eqb x y)
}.

Lemma eqb_refl {A} `{Eqb A} (x : A) : eqb x x = true.
Proof. destruct (eqb_spec x x); congruence. Qed.

Lemma eqb_neq {A} `{Eqb A} (x y : A) : x <> y -> eqb x y = false.
Proof. destruct (eqb_spec x y); congruence. Qed.

Lemma eqb_eq {A} `{Eqb A} (x y : A) : eqb x y = true <-> x = y.
Proof. destruct (eqb_spec x y); split; congruence. Qed.

#[export] Instance Eqb_string : Eqb string :=
  {| eqb := String.eqb; eqb_spec := String.eqb_spec |}.

Fixpoint bytes_eqb (a b : bytes) : bool :=
  match a, b with
  | [], [] => true
  | x :: a', y :: b' => Byte.eqb x y && bytes_eqb a' b'
  | _, _ => false
  end.

Lemma bytes_eqb_spec (a b : bytes) : reflect (a = b) (bytes_eqb a b).
Proof.
  revert b; induction a as [|x a IH]; intros [|y b]; simpl;
    try (constructor; congruence).
  destruct (Byte.eqb x y) eqn:E; simpl.
  - apply Byte.byte_dec_bl in E; subst.
    destruct (IH b); constructor; congruence.
  - constructor; intros [= -> _].
    rewrite (Byte.byte_dec_lb eq_refl) in E; discriminate.
Qed.

#[export] Instance Eqb_bytes : Eqb bytes :=
  {| eqb := bytes_eqb; eqb_spec := bytes_eqb_spec |}.

Definition pytype_eqb (a b : pytype) : bool :=
  match a, b with
  | T_object, T_object | T_NoneType, T_NoneType
  | T_str, T_str | T_int, T_int | T_float, T_float | T_bool, T_bool
  | T_list, T_list | T_tuple, T_tuple | T_dict, T_dict | T_UUID, T_UUID
  | T_Decimal, T_Decimal | T_datetime, T_datetime | T_date, T_date
  | T_time, T_time => true
  | T_class n, T_class m => String.eqb n m
  | _, _ => false
  end.

Lemma pytype_eqb_spec (a b : pytype) : reflect (a = b) (pytype_eqb a b).
Proof.
  destruct a, b; simpl; try (constructor; congruence).
  destruct (String.eqb_spec name name0); constructor; congruence.
Qed.

#[export] Instance Eqb_pytype : Eqb pytype :=
  {| eqb := pytype_eqb; eqb_spec := pytype_eqb_spec |}.

(** Keys of the type registry: the object [None], or a class. *)
Definition regkey := option pytype.

Definition regkey_eqb (a b : regkey) : bool :=
  match a, b with
  | None, None => true
  | Some x, Some y => pytype_eqb x y
  | _, _ => false
  end.

Lemma regkey_eqb_spec (a b : regkey) : reflect (a = b) (regkey_eqb a b).
Proof.
  destruct a as [x|], b as [y|]; simpl; try (constructor; congruence).
  destruct (pytype_eqb_spec x y); constructor; congruence.
Qed.

#[export] Instance Eqb_regkey : Eqb regkey :=
  {| eqb := regkey_eqb; eqb_spec := regkey_eqb_spec |}.

Definition dict (K V : Type) := list (K * V).

(** [d.get(k)] *)
Fixpoint dict_get {K V} `{Eqb K} (k : K) (d : dict K V) : option V :=
  match d with
  | [] => None
  | (k', v) :: d' => if eqb k k' then Some v else dict_get k d'
  end.

(** [d[k] = v] *)
Fixpoint dict_set {K V} `{Eqb K} (k : K) (v : V) (d : dict K V) : dict K V :=
  match d with
  | [] => [(k, v)]
  | (k', v') :: d' =>
      if eqb k k' then (k', v) :: d' else (k', v') :: dict_set k v d'
  end.

(** [enumerate(l)] *)
Definition enumerate {A} (l : list A) : list (nat * A) :=
  combine (seq 0 (List.length l)) l.

(** ** The interface to the interpreter and the imported libraries *)

(** [pyotp.TOTP(secret, interval=...)] *)
Record TOTP := { totp_secret : bytes; totp_interval : Z }.

Class Runtime := {
  (** [typ.__mro__]; it starts with the class itself *)
  mro : pytype -> list pytype;
  mro_self : forall typ, exists ancestors, mro typ = typ :: ancestors;
  (** a call of the class [typ] with positional and keyword arguments *)
  py_call : pytype -> list pyobj -> dict string pyobj -> outcome pyobj;
  (** [hashlib.sha256(data).hexdigest()] *)
  sha256_hexdigest : bytes -> string;
  (** [base64.b32encode], [base64.urlsafe_b64encode], [base64.urlsafe_b64decode] *)
  b32encode : bytes -> bytes;
  urlsafe_b64encode : bytes -> bytes;
  urlsafe_b64decode : string -> outcome bytes;
  urlsafe_b64_roundtrip :
    forall b, urlsafe_b64decode (decode_utf8 (urlsafe_b64encode b)) = Ok b;
  (** [orjson.dumps(obj, default=...)], [orjson.loads(data)] *)
  orjson_dumps : option callback -> pyobj -> outcome bytes;
  orjson_loads : bytes -> outcome pyobj;
  (** [totp.at(for_time)] *)
  totp_at : TOTP -> pynum -> outcome string;
  (** [Path(__file__).parent.parent.parent.iterdir()]: for each entry its
      [name] and [str(stat().st_ctime)] *)
  parent_dir_of_root : list (string * string)
}.

(** [hashlib]: a hasher accumulates what it is fed; the digest is taken over
    the concatenation. *)
Module hashlib.
Definition hasher := bytes.
Definition sha256 : hasher := [].
Definition update (h : hasher) (data : bytes) : hasher := h ++ data.
Definition hexdigest `{Runtime} (h : hasher) : string := sha256_hexdigest h.
End hashlib.

(** ** [class StateRecoverySerializer] *)

Module StateRecoverySerializer.

Record t := {
  _otp_code : bytes;
  _pepper : bytes;
  _salt : bytes;
  _object_to_type_id : dict regkey bytes;
  _type_id_to_object : dict bytes regkey;
  _max_object_length : Z;
  _default_serializer : option callback;
  _deserializer_map : dict pytype callback
}.

(** [deserializer_map or {}]: [None] and the empty dictionary are false. *)
Definition or_empty {K V} (d : option (dict K V)) : dict K V :=
  match d with
  | Some ((_ :: _) as m) => m
  | _ => []
  end.

Definition __init__
    (otp_code pepper salt : string)
    (object_to_type_id : dict regkey bytes)
    (type_id_to_object : dict bytes regkey)
    (max_object_length : Z)
    (default_serializer : option callback)
    (deserializer_map : option (dict pytype callback)) : t :=
  {| _otp_code := encode_utf8 otp_code;
     _pepper := encode_utf8 pepper;
     _salt := encode_utf8 salt;
     _object_to_type_id := object_to_type_id;
     _type_id_to_object := type_id_to_object;
     _max_object_length := max_object_length;
     _default_serializer := default_serializer;
     _deserializer_map := or_empty deserializer_map |}.

(** [if type_id:] on the result of [dict.get]: [None] and the empty [bytes] are false. *)
Definition id_truthy (type_id : option bytes) : bool :=
  match type_id with
  | Some (_ :: _) => true
  | _ => false
  end.

(** The [for t in obj_type.__mro__: ... break ... else: raise] loop of
    [_serialize]: the identifier at the [break], or [None] when the loop
    runs to its [else]. *)
Fixpoint for_mro (self : t) (ts : list pytype) : option bytes :=
  match ts with
  | [] => None
  | t :: rest =>
      let type_id := dict_get (Some t) (_object_to_type_id self) in
      if id_truthy type_id then type_id else for_mro self rest
  end.

Section Methods.
Context {RT : Runtime}.

Definition _sign_serialization
    (self : t) (key : string) (type_id data : bytes) : string :=
  let hasher := hashlib.sha256 in
  let hasher := hashlib.update hasher type_id in
  let hasher := hashlib.update hasher data in
  let hasher := hashlib.update hasher (_pepper self) in
  let hasher := hashlib.update hasher (_otp_code self) in
  let hasher := hashlib.update hasher (_salt self) in
  let hasher := hashlib.update hasher (encode_utf8 key) in
  hashlib.hexdigest hasher.

Definition _serialize_object (self : t) (obj : pyobj) : outcome bytes :=
  orjson_dumps (_default_serializer self) obj.

Definition _deserialize_object
    (self : t) (typ : regkey) (data : bytes) : outcome pyobj :=
  match typ with
  | None => Ok PyNone
  | Some typ =>
      result <- orjson_loads data ;;
      match dict_get typ (_deserializer_map self) with
      | Some custom_deserializer => custom_deserializer result
      | None =>
          match result with
          | PyStr _ => py_call typ [result] []
          | PyDict kwargs => py_call typ [] kwargs
          | _ => Ok result
          end
      end
  end.

Definition _serialize
    (self : t) (key : string) (obj : pyobj)
  : outcome (string * string * string) :=
  if is_None obj then Ok ("0", EmptyString, EmptyString)
  else
    let obj_type := type_of obj in
    match for_mro self (mro obj_type) with
    | None => Raise (Exn ValueError (not_whitelisted obj))
    | Some type_id =>
        result <- _serialize_object self obj ;;
        if (len result >? _max_object_length self)%Z
        then Raise (Exn ValueError (too_long obj (len result)))
        else
          let signature := _sign_serialization self key type_id result in
          Ok (decode_utf8 type_id,
              decode_utf8 (urlsafe_b64encode result),
              signature)
    end.

(** [for key, value in state_vars.items(): result[key] = ...] *)
Fixpoint serialize_items
    (self : t) (items : dict string pyobj)
    (result : dict string (string * string * string))
  : outcome (dict string (string * string * string)) :=
  match items with
  | [] => Ok result
  | (key, value) :: rest =>
      token <- _serialize self key value ;;
      serialize_items self rest (dict_set key token result)
  end.

Definition serialize_state_vars
    (self : t) (state_vars : dict string pyobj)
  : outcome (dict string (string * string * string)) :=
  serialize_items self state_vars [].

Definition _deserialize
    (self : t) (key : string) (type_id : bytes) (data : string)
    (signature : string) : outcome pyobj :=
  if eqb type_id (encode_utf8 "0") then Ok PyNone
  else
    match dict_get type_id (_type_id_to_object self) with
    | None =>
        Raise (Exn StateRecoveryFailureError (unknown_type_id type_id))
    | Some typ =>
        result <- urlsafe_b64decode data ;;
        let expected_signature :=
          _sign_serialization self key type_id result in
        if negb (eqb expected_signature signature)
        then Raise (Exn StateRecoveryFailureError
                      (signature_mismatch type_id))
        else _deserialize_object self typ result
    end.

(** The dictionary comprehension of [deserialize_client_state]. *)
Fixpoint deserialize_items
    (self : t) (items : dict string (string * string * string))
    (result : dict string pyobj) : outcome (dict string pyobj) :=
  match items with
  | [] => Ok result
  | (key, (type_id, data, signature)) :: rest =>
      value <- _deserialize self key (encode_utf8 type_id) data signature ;;
      deserialize_items self rest (dict_set key value result)
  end.

Definition deserialize_client_state
    (self : t) (state_vars : dict string (string * string * string))
  : outcome (dict string pyobj) :=
  deserialize_items self state_vars [].

End Methods.

End StateRecoverySerializer.

(** ** [class StateRecoveryManager] *)

Module StateRecoveryManager.

Record t := {
  _pepper : string;
  _max_objects : Z;
  _max_object_length : Z;
  _otp_key : bytes;
  _totp : TOTP;
  _default_serializer : option callback;
  _deserializer_map : dict pytype callback;
  _object_to_type_id : dict regkey bytes;
  _type_id_to_object : dict bytes regkey
}.

(** Defaults of the keyword arguments of [__init__]. *)
Definition default_otp_interval : Z := 4 * 60 * 60.
Definition default_max_objects : Z := 256.
Definition default_max_object_length : Z := 40000.

(** The tuple [_map_objects_to_ids] enumerates. *)
Definition enumerated_types (serializable_objects : list pytype)
  : list regkey :=
  None :: Some T_str :: Some T_int :: Some T_float :: Some T_bool
    :: Some T_list :: Some T_tuple :: Some T_UUID
    :: map Some serializable_objects.

(** One iteration of the loop of [_map_objects_to_ids]. *)
Definition map_step
    (maps : dict regkey bytes * dict bytes regkey) (entry : nat * regkey)
  : dict regkey bytes * dict bytes regkey :=
  let '(object_to_type_id, type_id_to_object) := maps in
  let '(idx, typ) := entry in
  let idx_as_bytes := encode_utf8 (str_of_nat idx) in
  (dict_set typ idx_as_bytes object_to_type_id,
   dict_set idx_as_bytes typ type_id_to_object).

(** Returns the two dictionaries the method stores in [self]. *)
Definition _map_objects_to_ids (serializable_objects : list pytype)
  : dict regkey bytes * dict bytes regkey :=
  fold_left map_step
    (enumerate (enumerated_types serializable_objects)) ([], []).

(** [otp_key or discovered]: [None] and the empty [str] are false. *)
Definition otp_key_or (otp_key : option string) (discovered : string)
  : string :=
  match otp_key with
  | Some (String _ _ as key) => key
  | _ => discovered
  end.

Section Methods.
Context {RT : Runtime}.

Definition _discover_otp_key : string :=
  let hasher := hashlib.sha256 in
  let hasher :=
    fold_left
      (fun hasher thing =>
         hashlib.update hasher (encode_utf8 (fst thing ++ snd thing)))
      parent_dir_of_root hasher in
  hashlib.hexdigest hasher.

Definition __init__
    (serializable_objects : list pytype)
    (pepper : string)
    (otp_key : option string)
    (otp_interval : Z)
    (max_objects : Z)
    (max_object_length : Z)
    (default_serializer : option callback)
    (deserializer_map : option (dict pytype callback)) : outcome t :=
  let otp_key_bytes :=
    b32encode (encode_utf8 (otp_key_or otp_key _discover_otp_key)) in
  let '(object_to_type_id, type_id_to_object) :=
    _map_objects_to_ids
      (serializable_objects
         ++ [T_Decimal; T_datetime; T_date; T_time]) in
  Ok {| _pepper := pepper;
        _max_objects := max_objects;
        _max_object_length := max_object_length;
        _otp_key := otp_key_bytes;
        _totp := {| totp_secret := otp_key_bytes;
                    totp_interval := otp_interval |};
        _default_serializer := default_serializer;
        _deserializer_map :=
          StateRecoverySerializer.or_empty deserializer_map;
        _object_to_type_id := object_to_type_id;
        _type_id_to_object := type_id_to_object |}.

(** [target_time or time.time()]; [now] is what [time.time()] returns
    when it is called. *)
Definition target_time_or_now
    (target_time : option pynum) (now : spec_float) : pynum :=
  match target_time with
  | Some x => if num_truthy x then x else PyF now
  | None => PyF now
  end.

Definition create_serializer
    (self : t) (salt : string) (target_time : option pynum)
    (now : spec_float) : outcome StateRecoverySerializer.t :=
  otp_code <- totp_at (_totp self) (target_time_or_now target_time now) ;;
  Ok (StateRecoverySerializer.__init__
        otp_code
        (_pepper self)
        salt
        (_object_to_type_id self)
        (_type_id_to_object self)
        (_max_object_length self)
        (_default_serializer self)
        (Some (_deserializer_map self))).

End Methods.

End StateRecoveryManager.

(** * [reactpy/core/component.py] *)

Module component_py.

(** [inspect.Parameter.kind] *)
Inductive parameter_kind :=
| POSITIONAL_ONLY
| POSITIONAL_OR_KEYWORD
| VAR_POSITIONAL
| KEYWORD_ONLY
| VAR_KEYWORD.

(** [inspect.Signature.parameters]: the kind of each parameter, by name. *)
Definition Signature := dict string parameter_kind.

(** A render function: its [repr], what [inspect.signature] gives for it
    (it raises for a callable that has no signature), and what a call with
    positional and keyword arguments returns. *)
Record pyfunction := {
  function_repr : string;
  inspect_signature : outcome Signature;
  function_call : list pyobj -> dict string pyobj -> outcome pyobj
}.

Module Component.

Definition __slots__ : list string :=
  ["__weakref__"; "_func"; "_args"; "_kwargs"; "_sig"; "key"; "type"].

(** What [__init__] assigns. *)
Inductive attribute :=
| A_object (value : pyobj)
| A_function (function : pyfunction)
| A_tuple (args : list pyobj)
| A_dict (kwargs : dict string pyobj)
| A_signature (sig : Signature)
| A_int (n : Z).

(** An instance: the slots that hold a value.  The class has [__slots__],
    and no base class but [object], so its instances have no [__dict__]. *)
Definition t := dict string attribute.

(** [self.name = value].  A name outside [__slots__] cannot be assigned,
    the instance having no [__dict__]; the slot [__weakref__] is read-only.
    The texts are those of CPython 3.11. *)
Definition __setattr__ (self : t) (name : string) (value : attribute)
  : outcome t :=
  if String.eqb name "__weakref__"
  then Raise (Exn (OtherError "AttributeError")
                (Text "attribute '__weakref__' of 'Component' objects is not writable"))
  else if existsb (String.eqb name) __slots__
  then Ok (dict_set name value self)
  else Raise (Exn (OtherError "AttributeError")
                (Text ("'Component' object has no attribute '" ++ name
                         ++ "'")%string)).

Definition __init__
    (function : pyfunction) (key : pyobj) (args : list pyobj)
    (kwargs : dict string pyobj) (sig : Signature) (priority : Z)
  : outcome t :=
  let self : t := [] in
  self <- __setattr__ self "key" (A_object key) ;;
  self <- __setattr__ self "type" (A_function function) ;;
  self <- __setattr__ self "_args" (A_tuple args) ;;
  self <- __setattr__ self "_kwargs" (A_dict kwargs) ;;
  self <- __setattr__ self "_sig" (A_signature sig) ;;
  __setattr__ self "priority" (A_int priority).

End Component.

(** The inner function [constructor], whose parameters are the variadic
    [args], the keyword-only [key] of default [None], and the variadic
    [kwargs].  It is called with the positional arguments [args] and the
    keyword arguments [keywords]: the keyword [key] binds the parameter
    [key], the others make up [kwargs]. *)
Definition constructor
    (function : pyfunction) (sig : Signature) (priority : Z)
    (args : list pyobj) (keywords : dict string pyobj)
  : outcome Component.t :=
  let key :=
    match dict_get "key" keywords with
    | Some key => key
    | None => PyNone
    end in
  let kwargs :=
    filter (fun item => negb (String.eqb (fst item) "key")) keywords in
  Component.__init__ function key args kwargs sig priority.

(** What [component] returns: the constructor of a render function, or the
    decorator that awaits one. *)
Inductive decorated :=
| Constructor
    (call : list pyobj -> dict string pyobj -> outcome Component.t)
| Decorator
    (call : pyfunction ->
            outcome (list pyobj -> dict string pyobj -> outcome Component.t)).

(** The inner function [_component] of [component]. *)
Definition _component (priority : Z) (function : pyfunction)
  : outcome (list pyobj -> dict string pyobj -> outcome Component.t) :=
  sig <- inspect_signature function ;;
  match dict_get "key" sig with
  | Some (KEYWORD_ONLY | POSITIONAL_OR_KEYWORD) =>
      let msg :=
        ("Component render function " ++ function_repr function
           ++ " uses reserved parameter 'key'")%string in
      Raise (Exn TypeError (Text msg))
  | _ => Ok (constructor function sig priority)
  end.

(** [component], of parameters [function], [None] by default, and the
    keyword-only [priority]; a function object is true. *)
Definition component (function : option pyfunction) (priority : Z)
  : outcome decorated :=
  match function with
  | Some function =>
      constructor <- _component priority function ;;
      Ok (Constructor constructor)
  | None => Ok (Decorator (_component priority))
  end.

End component_py.

(** * A reference runtime

    Executable counterparts of the imported libraries, so that the code can
    be run on concrete inputs: SHA-256 and SHA-1 (FIPS 180-4), HMAC
    (RFC 2104), base32 and URL-safe base64 (RFC 4648, decoding as
    [binascii.a2b_base64] does it), HOTP/TOTP (RFC 4226, RFC 6238) and a JSON
    codec for the values of [pyobj]. *)

Module Reference.

Local Open Scope Z_scope.

Definition Z_of_byte (b : byte) : Z := Z.of_N (Byte.to_N b).
Definition byte_of_Z (z : Z) : byte :=
  match Byte.of_N (Z.to_N (z mod 256)) with
  | Some b => b
  | None => x00
  end.

(** *** 32-bit words *)

Definition wrap32 (x : Z) : Z := x mod 2 ^ 32.
Definition add32 (x y : Z) : Z := wrap32 (x + y).
Definition not32 (x : Z) : Z := Z.lxor x 0xffffffff.
Definition rotr32 (n x : Z) : Z :=
  Z.lor (Z.shiftr x n) (wrap32 (Z.shiftl x (32 - n))).
Definition rotl32 (n x : Z) : Z := rotr32 (32 - n) x.

(** Big-endian bytes of a number, [n] of them. *)
Fixpoint be_bytes (n : nat) (x : Z) : bytes :=
  match n with
  | O => []
  | S n' => be_bytes n' (Z.shiftr x 8) ++ [byte_of_Z x]
  end.

Definition be_word (bs : bytes) : Z :=
  fold_left (fun acc b => Z.lor (Z.shiftl acc 8) (Z_of_byte b)) bs 0.

(** Cut into pieces of [n] elements ([fuel] bounds the number of pieces). *)
Fixpoint chunks {A} (fuel n : nat) (l : list A) : list (list A) :=
  match fuel, l with
  | O, _ | _, [] => []
  | S fuel', _ => firstn n l :: chunks fuel' n (skipn n l)
  end.

(** Padding of FIPS 180-4, section 5.1.1: a one bit, zeros up to 56 modulo
    64 bytes, the length in bits on 8 bytes. *)
Definition md_pad (msg : bytes) : bytes :=
  let l := Z.of_nat (List.length msg) in
  let zeros := Z.to_nat ((55 - l) mod 64) in
  msg ++ [x80] ++ repeat x00 zeros ++ be_bytes 8 (8 * l).

Definition blocks (msg : bytes) : list (list Z) :=
  let padded := md_pad msg in
  map (fun blk => map be_word (chunks 16 4 blk))
      (chunks (List.length padded) 64 padded).

(** The message schedule, most recent word first: [extend f n w] adds [n]
    words, each computed by [f] from the words before it. *)
Fixpoint extend (f : list Z -> Z) (n : nat) (w : list Z) : list Z :=
  match n with
  | O => w
  | S n' => extend f n' (f w :: w)
  end.

Definition at_ (w : list Z) (i : nat) : Z := nth i w 0.

(** A table of words written in hexadecimal, a space after each but the
    last. *)
Definition hex_digit_value (c : ascii) : Z :=
  let n := Z.of_nat (nat_of_ascii c) in
  if n <? 58 then n - 48 else n - 87.

Fixpoint words_of_hex_from (s : string) (word : Z) : list Z :=
  match s with
  | EmptyString => [word]
  | String " " s' => word :: words_of_hex_from s' 0
  | String c s' => words_of_hex_from s' (16 * word + hex_digit_value c)
  end.

Definition words_of_hex (s : string) : list Z := words_of_hex_from s 0.

Module SHA256.

Definition Ch x y z := Z.lxor (Z.land x y) (Z.land (not32 x) z).
Definition Maj x y z :=
  Z.lxor (Z.lxor (Z.land x y) (Z.land x z)) (Z.land y z).
Definition Sigma0 x := Z.lxor (Z.lxor (rotr32 2 x) (rotr32 13 x)) (rotr32 22 x).
Definition Sigma1 x := Z.lxor (Z.lxor (rotr32 6 x) (rotr32 11 x)) (rotr32 25 x).
Definition sigma0 x := Z.lxor (Z.lxor (rotr32 7 x) (rotr32 18 x)) (Z.shiftr x 3).
Definition sigma1 x := Z.lxor (Z.lxor (rotr32 17 x) (rotr32 19 x)) (Z.shiftr x 10).

Definition K : list Z :=
  words_of_hex
    ("428a2f98 71374491 b5c0fbcf e9b5dba5 3956c25b 59f111f1 923f82a4 ab1c5ed5 "
     ++ "d807aa98 12835b01 243185be 550c7dc3 72be5d74 80deb1fe 9bdc06a7 c19bf174 "
     ++ "e49b69c1 efbe4786 0fc19dc6 240ca1cc 2de92c6f 4a7484aa 5cb0a9dc 76f988da "
     ++ "983e5152 a831c66d b00327c8 bf597fc7 c6e00bf3 d5a79147 06ca6351 14292967 "
     ++ "27b70a85 2e1b2138 4d2c6dfc 53380d13 650a7354 766a0abb 81c2c92e 92722c85 "
     ++ "a2bfe8a1 a81a664b c24b8b70 c76c51a3 d192e819 d6990624 f40e3585 106aa070 "
     ++ "19a4c116 1e376c08 2748774c 34b0bcb5 391c0cb3 4ed8aa4a 5b9cca4f 682e6ff3 "
     ++ "748f82ee 78a5636f 84c87814 8cc70208 90befffa a4506ceb bef9a3f7 c67178f2").

Definition H0 : list Z :=
  words_of_hex
    "6a09e667 bb67ae85 3c6ef372 a54ff53a 510e527f 9b05688c 1f83d9ab 5be0cd19".

(** W_t = sigma1(W_(t-2)) + W_(t-7) + sigma0(W_(t-15)) + W_(t-16) *)
Definition next_word (w : list Z) : Z :=
  add32 (add32 (sigma1 (at_ w 1)) (at_ w 6))
        (add32 (sigma0 (at_ w 14)) (at_ w 15)).

Definition schedule (block : list Z) : list Z :=
  List.rev (extend next_word 48 (List.rev block)).

Definition round (s : list Z) (kw : Z * Z) : list Z :=
  match s with
  | [a; b; c; d; e; f; g; h] =>
      let t1 :=
        add32 (add32 (add32 h (Sigma1 e)) (add32 (Ch e f g) (fst kw)))
              (snd kw) in
      let t2 := add32 (Sigma0 a) (Maj a b c) in
      [add32 t1 t2; a; b; c; add32 d t1; e; f; g]
  | _ => s
  end.

Definition compress (h : list Z) (block : list Z) : list Z :=
  let s := fold_left round (combine K (schedule block)) h in
  map (fun p => add32 (fst p) (snd p)) (combine h s).

Definition digest (msg : bytes) : bytes :=
  flat_map (be_bytes 4) (fold_left compress (blocks msg) H0).

End SHA256.

Module SHA1.

Definition f (t : nat) (b c d : Z) : Z :=
  if (t <? 20)%nat then Z.lor (Z.land b c) (Z.land (not32 b) d)
  else if (t <? 40)%nat then Z.lxor (Z.lxor b c) d
  else if (t <? 60)%nat
       then Z.lor (Z.lor (Z.land b c) (Z.land b d)) (Z.land c d)
  else Z.lxor (Z.lxor b c) d.

Definition K (t : nat) : Z :=
  if (t <? 20)%nat then 0x5a827999
  else if (t <? 40)%nat then 0x6ed9eba1
  else if (t <? 60)%nat then 0x8f1bbcdc
  else 0xca62c1d6.

Definition H0 : list Z :=
  words_of_hex "67452301 efcdab89 98badcfe 10325476 c3d2e1f0".

(** W_t = ROTL1(W_(t-3) xor W_(t-8) xor W_(t-14) xor W_(t-16)) *)
Definition next_word (w : list Z) : Z :=
  rotl32 1 (Z.lxor (Z.lxor (at_ w 2) (at_ w 7))
                   (Z.lxor (at_ w 13) (at_ w 15))).

Definition schedule (block : list Z) : list Z :=
  List.rev (extend next_word 64 (List.rev block)).

Definition round (s : list Z) (tw : nat * Z) : list Z :=
  match s with
  | [a; b; c; d; e] =>
      let temp :=
        add32 (add32 (add32 (rotl32 5 a) (f (fst tw) b c d))
                     (add32 e (snd tw)))
              (K (fst tw)) in
      [temp; a; rotl32 30 b; c; d]
  | _ => s
  end.

Definition compress (h : list Z) (block : list Z) : list Z :=
  let s := fold_left round (enumerate (schedule block)) h in
  map (fun p => add32 (fst p) (snd p)) (combine h s).

Definition digest (msg : bytes) : bytes :=
  flat_map (be_bytes 4) (fold_left compress (blocks msg) H0).

End SHA1.

(** *** Hexadecimal text of a digest *)

Definition hex_digit (n : Z) : ascii :=
  nth (Z.to_nat n)
      (list_ascii_of_string "0123456789abcdef"%string) "0"%char.

Fixpoint hex (bs : bytes) : string :=
  match bs with
  | [] => EmptyString
  | b :: bs' =>
      String (hex_digit (Z.shiftr (Z_of_byte b) 4))
        (String (hex_digit (Z.land (Z_of_byte b) 15)) (hex bs'))
  end.

Definition sha256_hexdigest (msg : bytes) : string :=
  hex (SHA256.digest msg).

(** *** HMAC (RFC 2104) over SHA-1 *)

Definition xor_pad (pad : Z) (key : bytes) : bytes :=
  map (fun b => byte_of_Z (Z.lxor (Z_of_byte b) pad)) key.

Definition hmac_sha1 (key msg : bytes) : bytes :=
  let key := if (64 <? len key) then SHA1.digest key else key in
  let key := key ++ repeat x00 (64 - List.length key) in
  SHA1.digest (xor_pad 0x5c key ++ SHA1.digest (xor_pad 0x36 key ++ msg)).

(** *** base32 (RFC 4648) *)

Definition bits_of_byte (b : byte) : list bool :=
  map (fun i => Z.testbit (Z_of_byte b) i) [7; 6; 5; 4; 3; 2; 1; 0].

Definition Z_of_bits (bits : list bool) : Z :=
  fold_left (fun acc (b : bool) => 2 * acc + (if b then 1 else 0)) bits 0.

Definition b32_alphabet : bytes :=
  list_byte_of_string "ABCDEFGHIJKLMNOPQRSTUVWXYZ234567"%string.

Definition pad_to {A} (n : nat) (x : A) (l : list A) : list A :=
  l ++ repeat x (n - List.length l).

Definition b32encode (s : bytes) : bytes :=
  let bits := flat_map bits_of_byte s in
  let groups := chunks (List.length bits) 5 bits in
  let digits :=
    map (fun g => nth (Z.to_nat (Z_of_bits (pad_to 5 false g)))
                      b32_alphabet x00) groups in
  let quanta := ((List.length digits + 7) / 8)%nat in
  pad_to (8 * quanta) "="%byte digits.

Fixpoint index_of (c : byte) (l : bytes) : option Z :=
  match l with
  | [] => None
  | x :: l' =>
      if Byte.eqb c x then Some 0
      else option_map Z.succ (index_of c l')
  end.

Fixpoint traverse {A B} (f : A -> option B) (l : list A) : option (list B) :=
  match l with
  | [] => Some []
  | a :: l' =>
      match f a, traverse f l' with
      | Some b, Some bs => Some (b :: bs)
      | _, _ => None
      end
  end.

Definition binascii_Error (msg : string) : exn :=
  Exn (OtherError "binascii.Error") (Text msg).

(** [base64.b32decode(s)] on upper-case input. *)
Definition b32decode (s : bytes) : outcome bytes :=
  if negb (Nat.eqb (List.length s mod 8) 0)
  then Raise (binascii_Error "Incorrect padding")
  else
    let digits := filter (fun c => negb (Byte.eqb c "="%byte)) s in
    match traverse (fun c => index_of c b32_alphabet) digits with
    | None => Raise (binascii_Error "Non-base32 digit found")
    | Some vs =>
        let bits :=
          flat_map (fun v => map (Z.testbit v) [4; 3; 2; 1; 0]) vs in
        let groups := chunks (List.length bits) 8 bits in
        Ok (map (fun g => byte_of_Z (Z_of_bits g))
                (filter (fun g => Nat.eqb (List.length g) 8) groups))
    end.

(** *** HOTP and TOTP as pyotp computes them (six digits, SHA-1) *)

Definition str_of_Z (z : Z) : string :=
  NilEmpty.string_of_uint (N.to_uint (Z.to_N z)).

Fixpoint string_skipn (n : nat) (s : string) : string :=
  match n, s with
  | S n', String _ s' => string_skipn n' s'
  | _, _ => s
  end.

(** [OTP.generate_otp(input)] *)
Definition generate_otp (secret : bytes) (input : Z) : outcome string :=
  if input <? 0
  then Raise (Exn ValueError (Text "input must be positive integer"))
  else
    byte_secret <- b32decode secret ;;
    let hmac_hash := map Z_of_byte (hmac_sha1 byte_secret (be_bytes 8 input)) in
    let offset := Z.to_nat (Z.land (at_ hmac_hash 19) 0xf) in
    let code :=
      Z.lor (Z.lor (Z.shiftl (Z.land (at_ hmac_hash offset) 0x7f) 24)
                   (Z.shiftl (Z.land (at_ hmac_hash (offset + 1)) 0xff) 16))
            (Z.lor (Z.shiftl (Z.land (at_ hmac_hash (offset + 2)) 0xff) 8)
                   (Z.land (at_ hmac_hash (offset + 3)) 0xff)) in
    let str_code := str_of_Z (10000000000 + code mod 10 ^ 6) in
    Ok (string_skipn (String.length str_code - 6) str_code).

(** [int(x)] for a timestamp: truncation towards zero. *)
Definition int_of_num (x : pynum) : outcome Z :=
  match x with
  | PyI z => Ok z
  | PyF (S754_zero _) => Ok 0
  | PyF (S754_finite s m e) =>
      let mag :=
        if 0 <=? e then Z.shiftl (Z.pos m) e else Z.shiftr (Z.pos m) (- e) in
      Ok (if s then - mag else mag)
  | PyF (S754_infinity _) =>
      Raise (Exn (OtherError "OverflowError")
                 (Text "cannot convert float infinity to integer"))
  | PyF S754_nan =>
      Raise (Exn ValueError (Text "cannot convert float NaN to integer"))
  end.

(** [TOTP.at(for_time)]: the counter is [int(int(for_time) / interval)]. *)
Definition totp_at (totp : TOTP) (for_time : pynum) : outcome string :=
  seconds <- int_of_num for_time ;;
  if totp_interval totp =? 0
  then Raise (Exn (OtherError "ZeroDivisionError") (Text "division by zero"))
  else generate_otp (totp_secret totp) (Z.quot seconds (totp_interval totp)).

(** *** URL-safe base64 *)

Definition b64_alphabet : bytes :=
  list_byte_of_string
    "ABCDEFGHIJKLMNOPQRSTUVWXYZabcdefghijklmnopqrstuvwxyz0123456789-_"%string.

Definition b2a (v : Z) : byte := nth (Z.to_nat v) b64_alphabet "="%byte.

(** The four digits of a group of three bytes. *)
Definition sextet1 (b0 : byte) : Z := Z.shiftr (Z_of_byte b0) 2.
Definition sextet2 (b0 b1 : byte) : Z :=
  Z.lor (Z.shiftl (Z.land (Z_of_byte b0) 3) 4) (Z.shiftr (Z_of_byte b1) 4).
Definition sextet3 (b1 b2 : byte) : Z :=
  Z.lor (Z.shiftl (Z.land (Z_of_byte b1) 15) 2) (Z.shiftr (Z_of_byte b2) 6).
Definition sextet4 (b2 : byte) : Z := Z.land (Z_of_byte b2) 63.

(** [base64.urlsafe_b64encode(s)] *)
Fixpoint urlsafe_b64encode (s : bytes) : bytes :=
  match s with
  | [] => []
  | [b0] =>
      [b2a (sextet1 b0); b2a (sextet2 b0 x00); "="%byte; "="%byte]
  | [b0; b1] =>
      [b2a (sextet1 b0); b2a (sextet2 b0 b1); b2a (sextet3 b1 x00);
       "="%byte]
  | b0 :: b1 :: b2 :: rest =>
      b2a (sextet1 b0) :: b2a (sextet2 b0 b1) :: b2a (sextet3 b1 b2)
        :: b2a (sextet4 b2) :: urlsafe_b64encode rest
  end.

(** [binascii.a2b_base64], after [urlsafe_b64decode] has mapped [-] and
    [_] to [+] and [/]: both spellings of the digits 62 and 63 are read. *)
Definition table_a2b_base64 (c : byte) : option Z :=
  let n := Z_of_byte c in
  if (65 <=? n) && (n <=? 90) then Some (n - 65)
  else if (97 <=? n) && (n <=? 122) then Some (n - 71)
  else if (48 <=? n) && (n <=? 57) then Some (n + 4)
  else if (n =? 43) || (n =? 45) then Some 62
  else if (n =? 47) || (n =? 95) then Some 63
  else None.

Inductive a2b_class := Pad | Digit (v : Z) | Skip.

Definition classify (this_ch : byte) : a2b_class :=
  if Byte.eqb this_ch "="%byte then Pad
  else match table_a2b_base64 this_ch with
       | Some v => Digit v
       | None => Skip
       end.

Record a2b_state := {
  quad_pos : Z;
  leftchar : Z;
  pads : Z;
  bin_data : bytes
}.

(** The [switch (quad_pos)] of the decoder. *)
Definition a2b_digit (st : a2b_state) (this_ch : Z) : a2b_state :=
  if quad_pos st =? 0 then
    {| quad_pos := 1; leftchar := this_ch; pads := 0;
       bin_data := bin_data st |}
  else if quad_pos st =? 1 then
    {| quad_pos := 2; leftchar := Z.land this_ch 0x0f; pads := 0;
       bin_data :=
         bin_data st
           ++ [byte_of_Z (Z.lor (Z.shiftl (leftchar st) 2)
                                (Z.shiftr this_ch 4))] |}
  else if quad_pos st =? 2 then
    {| quad_pos := 3; leftchar := Z.land this_ch 0x03; pads := 0;
       bin_data :=
         bin_data st
           ++ [byte_of_Z (Z.lor (Z.shiftl (leftchar st) 4)
                                (Z.shiftr this_ch 2))] |}
  else
    {| quad_pos := 0; leftchar := 0; pads := 0;
       bin_data :=
         bin_data st
           ++ [byte_of_Z (Z.lor (Z.shiftl (leftchar st) 6) this_ch)] |}.

Fixpoint a2b_base64 (ascii_data : bytes) (st : a2b_state) : outcome bytes :=
  match ascii_data with
  | [] =>
      if quad_pos st =? 0 then Ok (bin_data st)
      else if quad_pos st =? 1
      then Raise (binascii_Error
                    "Invalid base64-encoded string: number of data characters cannot be 1 more than a multiple of 4")
      else Raise (binascii_Error "Incorrect padding")
  | this_ch :: rest =>
      match classify this_ch with
      | Pad =>
          if 2 <=? quad_pos st then
            if 4 <=? quad_pos st + (pads st + 1) then Ok (bin_data st)
            else a2b_base64 rest
                   {| quad_pos := quad_pos st; leftchar := leftchar st;
                      pads := pads st + 1; bin_data := bin_data st |}
          else a2b_base64 rest st
      | Skip => a2b_base64 rest st
      | Digit v => a2b_base64 rest (a2b_digit st v)
      end
  end.

Definition a2b_init : a2b_state :=
  {| quad_pos := 0; leftchar := 0; pads := 0; bin_data := [] |}.

Definition is_ascii (c : byte) : bool := Z_of_byte c <? 128.

(** [base64.urlsafe_b64decode(s)] for a [str] argument. *)
Definition urlsafe_b64decode (s : string) : outcome bytes :=
  let data := encode_utf8 s in
  if forallb is_ascii data then a2b_base64 data a2b_init
  else Raise (Exn ValueError
                (Text "string argument should contain only ASCII characters")).

(** Decoding undoes encoding. *)

Definition all_bytes : bytes :=
  map (fun n => byte_of_Z (Z.of_nat n)) (seq 0 256).

Lemma all_bytes_complete (b : byte) : In b all_bytes.
Proof.
  unfold all_bytes. apply in_map_iff. exists (Byte.to_nat b). split.
  - destruct b; reflexivity.
  - apply in_seq. pose proof (Byte.to_nat_bounded b). lia.
Qed.

Lemma byte_forall (P : byte -> bool) :
  forallb P all_bytes = true -> forall b, P b = true.
Proof.
  intros H b. rewrite forallb_forall in H. apply H, all_bytes_complete.
Qed.

Lemma byte_forall2 (P : byte -> byte -> bool) :
  forallb (fun a => forallb (P a) all_bytes) all_bytes = true ->
  forall a b, P a b = true.
Proof.
  intros H a b. apply byte_forall. revert a. now apply byte_forall.
Qed.

Definition classified_as (c : byte) (v : Z) : bool :=
  match classify c with
  | Digit v' => (v' =? v) && is_ascii c
  | _ => false
  end.

Lemma classified_as_spec c v :
  classified_as c v = true -> classify c = Digit v /\ is_ascii c = true.
Proof.
  unfold classified_as. destruct (classify c); try discriminate.
  intros H. apply andb_prop in H as [H1 H2].
  apply Z.eqb_eq in H1. now subst.
Qed.

Definition group_ok_1 (b0 : byte) : bool :=
  classified_as (b2a (sextet1 b0)) (sextet1 b0)
  && classified_as (b2a (sextet4 b0)) (sextet4 b0)
  && Byte.eqb
       (byte_of_Z (Z.lor (Z.shiftl (Z.shiftr (Z_of_byte b0) 6) 6)
                         (sextet4 b0))) b0.

Definition group_ok_2 (b0 b1 : byte) : bool :=
  classified_as (b2a (sextet2 b0 b1)) (sextet2 b0 b1)
  && classified_as (b2a (sextet3 b0 b1)) (sextet3 b0 b1)
  && Byte.eqb
       (byte_of_Z (Z.lor (Z.shiftl (sextet1 b0) 2)
                         (Z.shiftr (sextet2 b0 b1) 4))) b0
  && (Z.land (sextet2 b0 b1) 0x0f =? Z.shiftr (Z_of_byte b1) 4)
  && Byte.eqb
       (byte_of_Z (Z.lor (Z.shiftl (Z.shiftr (Z_of_byte b0) 4) 4)
                         (Z.shiftr (sextet3 b0 b1) 2))) b0
  && (Z.land (sextet3 b0 b1) 0x03 =? Z.shiftr (Z_of_byte b1) 6).

Lemma group_ok_1_all b0 : group_ok_1 b0 = true.
Proof. revert b0. apply byte_forall. vm_compute. reflexivity. Qed.

Lemma group_ok_2_all b0 b1 : group_ok_2 b0 b1 = true.
Proof. revert b0 b1. apply byte_forall2. vm_compute. reflexivity. Qed.

Ltac split_andb H :=
  repeat match type of H with
         | (_ && _)%bool = true =>
             let H1 := fresh H in
             apply andb_prop in H as [H H1]
         end.

Lemma byte_eqb_eq (a b : byte) : Byte.eqb a b = true -> a = b.
Proof. apply Byte.byte_dec_bl. Qed.

Section Group.
Variables b0 b1 b2 : byte.

Lemma digit1 : classify (b2a (sextet1 b0)) = Digit (sextet1 b0).
Proof.
  pose proof (group_ok_1_all b0) as H. unfold group_ok_1 in H.
  split_andb H. now apply classified_as_spec in H.
Qed.

Lemma digit2 : classify (b2a (sextet2 b0 b1)) = Digit (sextet2 b0 b1).
Proof.
  pose proof (group_ok_2_all b0 b1) as H. unfold group_ok_2 in H.
  split_andb H. now apply classified_as_spec in H.
Qed.

Lemma digit3 : classify (b2a (sextet3 b1 b2)) = Digit (sextet3 b1 b2).
Proof.
  pose proof (group_ok_2_all b1 b2) as H. unfold group_ok_2 in H.
  split_andb H. now apply classified_as_spec in H4.
Qed.

Lemma digit4 : classify (b2a (sextet4 b2)) = Digit (sextet4 b2).
Proof.
  pose proof (group_ok_1_all b2) as H. unfold group_ok_1 in H.
  split_andb H. now apply classified_as_spec in H1.
Qed.

Lemma out1 :
  byte_of_Z (Z.lor (Z.shiftl (sextet1 b0) 2) (Z.shiftr (sextet2 b0 b1) 4))
  = b0.
Proof.
  pose proof (group_ok_2_all b0 b1) as H. unfold group_ok_2 in H.
  split_andb H. now apply byte_eqb_eq.
Qed.

Lemma left2 : Z.land (sextet2 b0 b1) 0x0f = Z.shiftr (Z_of_byte b1) 4.
Proof.
  pose proof (group_ok_2_all b0 b1) as H. unfold group_ok_2 in H.
  split_andb H. now apply Z.eqb_eq.
Qed.

Lemma out2 :
  byte_of_Z (Z.lor (Z.shiftl (Z.shiftr (Z_of_byte b1) 4) 4)
                   (Z.shiftr (sextet3 b1 b2) 2)) = b1.
Proof.
  pose proof (group_ok_2_all b1 b2) as H. unfold group_ok_2 in H.
  split_andb H. now apply byte_eqb_eq.
Qed.

Lemma left3 : Z.land (sextet3 b1 b2) 0x03 = Z.shiftr (Z_of_byte b2) 6.
Proof.
  pose proof (group_ok_2_all b1 b2) as H. unfold group_ok_2 in H.
  split_andb H. now apply Z.eqb_eq.
Qed.

Lemma out3 :
  byte_of_Z (Z.lor (Z.shiftl (Z.shiftr (Z_of_byte b2) 6) 6) (sextet4 b2))
  = b2.
Proof.
  pose proof (group_ok_1_all b2) as H. unfold group_ok_1 in H.
  split_andb H. now apply byte_eqb_eq.
Qed.
End Group.

Lemma list_ind3 {A} (P : list A -> Prop) :
  P [] -> (forall a, P [a]) -> (forall a b, P [a; b]) ->
  (forall a b c l, P l -> P (a :: b :: c :: l)) ->
  forall l, P l.
Proof.
  intros H0 H1 H2 H3 l.
  enough (P l /\ (forall a, P (a :: l)) /\ (forall a b, P (a :: b :: l)))
    by tauto.
  induction l as [|x l (IH0 & IH1 & IH2)]; repeat split; auto.
Qed.

Lemma a2b_digit_0 l p out v :
  a2b_digit {| quad_pos := 0; leftchar := l; pads := p; bin_data := out |} v
  = {| quad_pos := 1; leftchar := v; pads := 0; bin_data := out |}.
Proof. reflexivity. Qed.

Lemma a2b_digit_1 l p out v :
  a2b_digit {| quad_pos := 1; leftchar := l; pads := p; bin_data := out |} v
  = {| quad_pos := 2; leftchar := Z.land v 0x0f; pads := 0;
       bin_data :=
         out ++ [byte_of_Z (Z.lor (Z.shiftl l 2) (Z.shiftr v 4))] |}.
Proof. reflexivity. Qed.

Lemma a2b_digit_2 l p out v :
  a2b_digit {| quad_pos := 2; leftchar := l; pads := p; bin_data := out |} v
  = {| quad_pos := 3; leftchar := Z.land v 0x03; pads := 0;
       bin_data :=
         out ++ [byte_of_Z (Z.lor (Z.shiftl l 4) (Z.shiftr v 2))] |}.
Proof. reflexivity. Qed.

Lemma a2b_digit_3 l p out v :
  a2b_digit {| quad_pos := 3; leftchar := l; pads := p; bin_data := out |} v
  = {| quad_pos := 0; leftchar := 0; pads := 0;
       bin_data := out ++ [byte_of_Z (Z.lor (Z.shiftl l 6) v)] |}.
Proof. reflexivity. Qed.

Lemma a2b_cons_digit c v rest st :
  classify c = Digit v ->
  a2b_base64 (c :: rest) st = a2b_base64 rest (a2b_digit st v).
Proof. intros H. cbn [a2b_base64]. now rewrite H. Qed.

Lemma a2b_group b0 b1 b2 rest l p out :
  a2b_base64
    (b2a (sextet1 b0) :: b2a (sextet2 b0 b1) :: b2a (sextet3 b1 b2)
       :: b2a (sextet4 b2) :: rest)
    {| quad_pos := 0; leftchar := l; pads := p; bin_data := out |}
  = a2b_base64 rest
      {| quad_pos := 0; leftchar := 0; pads := 0;
         bin_data := out ++ [b0; b1; b2] |}.
Proof.
  rewrite (a2b_cons_digit _ _ _ _ (digit1 b0)), a2b_digit_0.
  rewrite (a2b_cons_digit _ _ _ _ (digit2 b0 b1)), a2b_digit_1.
  rewrite out1, left2.
  rewrite (a2b_cons_digit _ _ _ _ (digit3 b1 b2)), a2b_digit_2.
  rewrite out2, left3.
  rewrite (a2b_cons_digit _ _ _ _ (digit4 b2)), a2b_digit_3.
  rewrite out3. now rewrite <- !app_assoc.
Qed.

Lemma a2b_encoded (s out : bytes) (l p : Z) :
  a2b_base64 (urlsafe_b64encode s)
    {| quad_pos := 0; leftchar := l; pads := p; bin_data := out |}
  = Ok (out ++ s).
Proof.
  revert out l p. induction s as [|b0|b0 b1|b0 b1 b2 rest IH] using list_ind3;
    intros out l p.
  - cbn. now rewrite app_nil_r.
  - cbn [urlsafe_b64encode].
    rewrite (a2b_cons_digit _ _ _ _ (digit1 b0)), a2b_digit_0.
    rewrite (a2b_cons_digit _ _ _ _ (digit2 b0 x00)), a2b_digit_1.
    rewrite out1. reflexivity.
  - cbn [urlsafe_b64encode].
    rewrite (a2b_cons_digit _ _ _ _ (digit1 b0)), a2b_digit_0.
    rewrite (a2b_cons_digit _ _ _ _ (digit2 b0 b1)), a2b_digit_1.
    rewrite out1, left2.
    rewrite (a2b_cons_digit _ _ _ _ (digit3 b1 x00)), a2b_digit_2.
    rewrite out2. cbn. now rewrite <- !app_assoc.
  - cbn [urlsafe_b64encode]. rewrite a2b_group, IH.
    now rewrite <- !app_assoc.
Qed.

Lemma encoded_is_ascii (s : bytes) :
  forallb is_ascii (urlsafe_b64encode s) = true.
Proof.
  assert (A1 : forall b, is_ascii (b2a (sextet1 b)) = true).
  { intros b. pose proof (group_ok_1_all b) as H. unfold group_ok_1 in H.
    split_andb H. now apply classified_as_spec in H. }
  assert (A4 : forall b, is_ascii (b2a (sextet4 b)) = true).
  { intros b. pose proof (group_ok_1_all b) as H. unfold group_ok_1 in H.
    split_andb H. now apply classified_as_spec in H1. }
  assert (A2 : forall a b, is_ascii (b2a (sextet2 a b)) = true).
  { intros a b. pose proof (group_ok_2_all a b) as H. unfold group_ok_2 in H.
    split_andb H. now apply classified_as_spec in H. }
  assert (A3 : forall a b, is_ascii (b2a (sextet3 a b)) = true).
  { intros a b. pose proof (group_ok_2_all a b) as H. unfold group_ok_2 in H.
    split_andb H. now apply classified_as_spec in H4. }
  induction s as [|b0|b0 b1|b0 b1 b2 rest IH] using list_ind3;
    cbn [urlsafe_b64encode forallb];
    rewrite ?A1, ?A2, ?A3, ?A4, ?IH; reflexivity.
Qed.

Lemma decoding_undoes_encoding (b : bytes) :
  urlsafe_b64decode (decode_utf8 (urlsafe_b64encode b)) = Ok b.
Proof.
  unfold urlsafe_b64decode.
  rewrite encode_decode_utf8, encoded_is_ascii.
  apply (a2b_encoded b [] 0 0).
Qed.

(** *** Text of numbers *)

Definition text_of_Z (z : Z) : bytes :=
  encode_utf8 (if z <? 0 then "-"%string ++ str_of_Z (- z) else str_of_Z z).

(** Decimal text on at least [width] digits, as [%04d] does for [z >= 0]. *)
Definition zfill (width : nat) (z : Z) : bytes :=
  let digits := text_of_Z z in
  repeat "0"%byte (width - List.length digits) ++ digits.

Definition hex_byte (n : Z) : byte := byte_of_ascii (hex_digit n).

(** [value] in hexadecimal on [width] digits. *)
Fixpoint hex_fixed (width : nat) (value : Z) : bytes :=
  match width with
  | O => []
  | S w => hex_fixed w (Z.shiftr value 4) ++ [hex_byte (Z.land value 15)]
  end.

Definition hex_value (c : byte) : option Z :=
  let n := Z_of_byte c in
  if (48 <=? n) && (n <=? 57) then Some (n - 48)
  else if (97 <=? n) && (n <=? 102) then Some (n - 87)
  else if (65 <=? n) && (n <=? 70) then Some (n - 55)
  else None.

Definition is_digit (c : byte) : bool :=
  (48 <=? Z_of_byte c) && (Z_of_byte c <=? 57).

Definition Z_of_digits (ds : bytes) : Z :=
  fold_left (fun acc d => 10 * acc + (Z_of_byte d - 48)) ds 0.

Definition Z_of_hex (ds : list Z) : Z :=
  fold_left (fun acc d => 16 * acc + d) ds 0.

(** *** Exceptions of the libraries *)

Definition JSONEncodeError (msg : string) : exn :=
  Exn (OtherError "orjson.JSONEncodeError") (Text msg).
Definition JSONDecodeError (msg : string) : exn :=
  Exn (OtherError "orjson.JSONDecodeError") (Text msg).
(** Raised where this reference leaves the behaviour of the interpreter or
    of a library unmodelled; no run evaluated below reaches it. *)
Definition NotModelled (what : string) : exn :=
  Exn (OtherError "NotModelled") (Text what).

(** *** Classes *)

(** A user class: a dataclass without defaults.  [cls_ancestors] is its
    [__mro__] after the class itself; [cls_fields] are its fields, the
    inherited ones first. *)
Record pyclass := {
  cls_name : string;
  cls_ancestors : list pytype;
  cls_fields : list string
}.

Definition find_class (classes : list pyclass) (name : string)
  : option pyclass :=
  find (fun c => String.eqb (cls_name c) name) classes.

Definition mro (classes : list pyclass) (typ : pytype) : list pytype :=
  match typ with
  | T_object => [T_object]
  | T_bool => [T_bool; T_int; T_object]
  | T_datetime => [T_datetime; T_date; T_object]
  | T_class name =>
      match find_class classes name with
      | Some c => typ :: cls_ancestors c
      | None => [typ; T_object]
      end
  | _ => [typ; T_object]
  end.

(** *** [orjson.dumps] *)

Definition mapM {A B} (f : A -> outcome B) : list A -> outcome (list B) :=
  fix go l :=
    match l with
    | [] => Ok []
    | a :: l' => b <- f a ;; bs <- go l' ;; Ok (b :: bs)
    end.

Definition escape_byte (c : byte) : bytes :=
  let n := Z_of_byte c in
  if n =? 0x22 then [x5c; x22]
  else if n =? 0x5c then [x5c; x5c]
  else if n =? 0x08 then [x5c; "b"%byte]
  else if n =? 0x09 then [x5c; "t"%byte]
  else if n =? 0x0a then [x5c; "n"%byte]
  else if n =? 0x0c then [x5c; "f"%byte]
  else if n =? 0x0d then [x5c; "r"%byte]
  else if n <? 0x20 then [x5c; "u"%byte] ++ hex_fixed 4 n
  else [c].

Definition json_string (s : string) : bytes :=
  [x22] ++ flat_map escape_byte (encode_utf8 s) ++ [x22].

Fixpoint join (sep : bytes) (parts : list bytes) : bytes :=
  match parts with
  | [] => []
  | [p] => p
  | p :: ps => p ++ sep ++ join sep ps
  end.

Definition int_field (state : dict string pyobj) (name : string)
  : option Z :=
  match dict_get name state with
  | Some (PyInt z) => Some z
  | _ => None
  end.

(** [YYYY-MM-DD] *)
Definition date_text (state : dict string pyobj) : option bytes :=
  match int_field state "year", int_field state "month",
        int_field state "day" with
  | Some y, Some m, Some d =>
      Some (zfill 4 y ++ encode_utf8 "-" ++ zfill 2 m
              ++ encode_utf8 "-" ++ zfill 2 d)
  | _, _, _ => None
  end.

(** [HH:MM:SS], with [.ffffff] when the microseconds are not zero *)
Definition time_text (state : dict string pyobj) : option bytes :=
  match int_field state "hour", int_field state "minute",
        int_field state "second", int_field state "microsecond" with
  | Some h, Some m, Some s, Some us =>
      Some (zfill 2 h ++ encode_utf8 ":" ++ zfill 2 m
              ++ encode_utf8 ":" ++ zfill 2 s
              ++ (if us =? 0 then [] else encode_utf8 "." ++ zfill 6 us))
  | _, _, _, _ => None
  end.

(** [str(uuid)]: 8-4-4-4-12 hexadecimal digits *)
Definition uuid_text (state : dict string pyobj) : option bytes :=
  match int_field state "int" with
  | Some n =>
      let h := hex_fixed 32 n in
      Some (firstn 8 h ++ encode_utf8 "-"
              ++ firstn 4 (skipn 8 h) ++ encode_utf8 "-"
              ++ firstn 4 (skipn 12 h) ++ encode_utf8 "-"
              ++ firstn 4 (skipn 16 h) ++ encode_utf8 "-"
              ++ skipn 20 h)
  | None => None
  end.

Definition quoted (text : option bytes) : outcome bytes :=
  match text with
  | Some t => Ok ([x22] ++ t ++ [x22])
  | None => Raise (NotModelled "instance state")
  end.

(** [fuel] bounds the nesting of containers and of calls of [default]
    together (orjson bounds each by 254). *)
Fixpoint dumps_value
    (classes : list pyclass) (default : option callback)
    (fuel : nat) (obj : pyobj) : outcome bytes :=
  match fuel with
  | O => Raise (JSONEncodeError "Recursion limit reached")
  | S fuel' =>
      let go := dumps_value classes default fuel' in
      let members (d : dict string pyobj) : outcome bytes :=
        parts <-
          mapM (fun kv =>
                  v <- go (snd kv) ;;
                  Ok (json_string (fst kv) ++ encode_utf8 ":" ++ v)) d ;;
        Ok (encode_utf8 "{" ++ join (encode_utf8 ",") parts
              ++ encode_utf8 "}") in
      let elements (l : list pyobj) : outcome bytes :=
        parts <- mapM go l ;;
        Ok (encode_utf8 "[" ++ join (encode_utf8 ",") parts
              ++ encode_utf8 "]") in
      match obj with
      | PyNone => Ok (encode_utf8 "null")
      | PyBool true => Ok (encode_utf8 "true")
      | PyBool false => Ok (encode_utf8 "false")
      | PyInt z =>
          if (- 2 ^ 63 <=? z) && (z <? 2 ^ 64) then Ok (text_of_Z z)
          else Raise (JSONEncodeError "Integer exceeds 64-bit range")
      | PyStr s => Ok (json_string s)
      | PyList l => elements l
      | PyTuple l => elements l
      | PyDict d => members d
      | PyInstance T_UUID state => quoted (uuid_text state)
      | PyInstance T_datetime state =>
          match date_text state, time_text state with
          | Some d, Some t => quoted (Some (d ++ encode_utf8 "T" ++ t))
          | _, _ => quoted None
          end
      | PyInstance T_date state => quoted (date_text state)
      | PyInstance T_time state => quoted (time_text state)
      | PyInstance (T_class name) state =>
          match find_class classes name with
          | Some _ => members state
          | None => Raise (NotModelled "class")
          end
      | PyInstance _ _ =>
          match default with
          | Some f => replacement <- f obj ;; go replacement
          | None =>
              Raise (JSONEncodeError "Type is not JSON serializable")
          end
      end
  end.

Definition orjson_dumps
    (classes : list pyclass) (default : option callback) (obj : pyobj)
  : outcome bytes :=
  dumps_value classes default 255 obj.

(** *** [orjson.loads] *)

Definition is_ws (c : byte) : bool :=
  let n := Z_of_byte c in
  (n =? 0x20) || (n =? 0x09) || (n =? 0x0a) || (n =? 0x0d).

Fixpoint skip_ws (s : bytes) : bytes :=
  match s with
  | c :: rest => if is_ws c then skip_ws rest else s
  | [] => []
  end.

(** UTF-8 of a code point of the basic plane. *)
Definition utf8 (cp : Z) : bytes :=
  if cp <? 0x80 then [byte_of_Z cp]
  else if cp <? 0x800
  then [byte_of_Z (Z.lor 0xc0 (Z.shiftr cp 6));
        byte_of_Z (Z.lor 0x80 (Z.land cp 0x3f))]
  else [byte_of_Z (Z.lor 0xe0 (Z.shiftr cp 12));
        byte_of_Z (Z.lor 0x80 (Z.land (Z.shiftr cp 6) 0x3f));
        byte_of_Z (Z.lor 0x80 (Z.land cp 0x3f))].

(** The characters of a string after its opening quote. *)
Fixpoint parse_string (s : bytes) (acc : bytes) : outcome (bytes * bytes) :=
  match s with
  | [] => Raise (JSONDecodeError "unexpected end of data")
  | x22 :: rest => Ok (acc, rest)
  | x5c :: rest =>
      match rest with
      | x22 :: rest' => parse_string rest' (acc ++ [x22])
      | x5c :: rest' => parse_string rest' (acc ++ [x5c])
      | "/"%byte :: rest' => parse_string rest' (acc ++ ["/"%byte])
      | "b"%byte :: rest' => parse_string rest' (acc ++ [x08])
      | "f"%byte :: rest' => parse_string rest' (acc ++ [x0c])
      | "n"%byte :: rest' => parse_string rest' (acc ++ [x0a])
      | "r"%byte :: rest' => parse_string rest' (acc ++ [x0d])
      | "t"%byte :: rest' => parse_string rest' (acc ++ [x09])
      | "u"%byte :: h1 :: h2 :: h3 :: h4 :: rest' =>
          match traverse hex_value [h1; h2; h3; h4] with
          | Some ds =>
              let cp := Z_of_hex ds in
              if (0xd800 <=? cp) && (cp <=? 0xdfff)
              then Raise (NotModelled "surrogate escape")
              else parse_string rest' (acc ++ utf8 cp)
          | None => Raise (JSONDecodeError "invalid escaped sequence in string")
          end
      | _ => Raise (JSONDecodeError "invalid escaped sequence in string")
      end
  | c :: rest =>
      if Z_of_byte c <? 0x20
      then Raise (JSONDecodeError "control character in string")
      else parse_string rest (acc ++ [c])
  end.

Fixpoint span (p : byte -> bool) (s : bytes) : bytes * bytes :=
  match s with
  | c :: rest =>
      if p c then let '(a, b) := span p rest in (c :: a, b) else ([], s)
  | [] => ([], [])
  end.

Definition starts_fraction (s : bytes) : bool :=
  match s with
  | c :: _ =>
      let n := Z_of_byte c in (n =? 0x2e) || (n =? 0x65) || (n =? 0x45)
  | [] => false
  end.

(** An integer in the signed or unsigned 64-bit range; what orjson reads as
    a [float] is left unmodelled. *)
Definition parse_number (s : bytes) : outcome (pyobj * bytes) :=
  let '(negative, s1) :=
    match s with
    | "-"%byte :: rest => (true, rest)
    | _ => (false, s)
    end in
  let '(digits, rest) := span is_digit s1 in
  match digits with
  | [] => Raise (JSONDecodeError "unexpected character")
  | d :: ds =>
      if Byte.eqb d "0"%byte && negb (Nat.eqb (List.length ds) 0)
      then Raise (JSONDecodeError "number with leading zero is not allowed")
      else if starts_fraction rest then Raise (NotModelled "float")
      else
        let magnitude := Z_of_digits digits in
        if negative && (magnitude =? 0) then Raise (NotModelled "float")
        else
          let z := if negative then - magnitude else magnitude in
          if (- 2 ^ 63 <=? z) && (z <? 2 ^ 64) then Ok (PyInt z, rest)
          else Raise (NotModelled "float")
  end.

(** [fuel] bounds the calls; the length of the input is enough. *)
Fixpoint parse_value (fuel : nat) (s : bytes) {struct fuel}
  : outcome (pyobj * bytes) :=
  match fuel with
  | O => Raise (NotModelled "fuel")
  | S fuel' =>
      match skip_ws s with
      | [] => Raise (JSONDecodeError "unexpected end of data")
      | "n"%byte :: "u"%byte :: "l"%byte :: "l"%byte :: rest =>
          Ok (PyNone, rest)
      | "t"%byte :: "r"%byte :: "u"%byte :: "e"%byte :: rest =>
          Ok (PyBool true, rest)
      | "f"%byte :: "a"%byte :: "l"%byte :: "s"%byte :: "e"%byte :: rest =>
          Ok (PyBool false, rest)
      | x22 :: rest =>
          r <- parse_string rest [] ;;
          Ok (PyStr (decode_utf8 (fst r)), snd r)
      | "["%byte :: rest =>
          match skip_ws rest with
          | "]"%byte :: rest' => Ok (PyList [], rest')
          | _ =>
              r <- parse_elements fuel' rest [] ;;
              Ok (PyList (fst r), snd r)
          end
      | "{"%byte :: rest =>
          match skip_ws rest with
          | "}"%byte :: rest' => Ok (PyDict [], rest')
          | _ =>
              r <- parse_members fuel' rest [] ;;
              Ok (PyDict (fst r), snd r)
          end
      | c :: rest =>
          if is_digit c || Byte.eqb c "-"%byte then parse_number (c :: rest)
          else Raise (JSONDecodeError "unexpected character")
      end
  end

with parse_elements (fuel : nat) (s : bytes) (acc : list pyobj)
       {struct fuel} : outcome (list pyobj * bytes) :=
  match fuel with
  | O => Raise (NotModelled "fuel")
  | S fuel' =>
      r <- parse_value fuel' s ;;
      match skip_ws (snd r) with
      | ","%byte :: rest => parse_elements fuel' rest (acc ++ [fst r])
      | "]"%byte :: rest => Ok (acc ++ [fst r], rest)
      | _ => Raise (JSONDecodeError "unexpected character")
      end
  end

with parse_members (fuel : nat) (s : bytes) (acc : dict string pyobj)
       {struct fuel} : outcome (dict string pyobj * bytes) :=
  match fuel with
  | O => Raise (NotModelled "fuel")
  | S fuel' =>
      match skip_ws s with
      | x22 :: rest =>
          k <- parse_string rest [] ;;
          match skip_ws (snd k) with
          | ":"%byte :: rest' =>
              r <- parse_value fuel' rest' ;;
              let acc' := dict_set (decode_utf8 (fst k)) (fst r) acc in
              match skip_ws (snd r) with
              | ","%byte :: rest'' => parse_members fuel' rest'' acc'
              | "}"%byte :: rest'' => Ok (acc', rest'')
              | _ => Raise (JSONDecodeError "unexpected character")
              end
          | _ => Raise (JSONDecodeError "unexpected character")
          end
      | _ => Raise (JSONDecodeError "unexpected character")
      end
  end.

Definition orjson_loads (data : bytes) : outcome pyobj :=
  r <- parse_value (2 * List.length data + 2) data ;;
  match skip_ws (snd r) with
  | [] => Ok (fst r)
  | _ => Raise (JSONDecodeError "trailing characters")
  end.

(** *** Calls of classes *)

(** The call of a dataclass: the positional arguments fill
    the first fields, the keywords the others. *)
Definition too_many_arguments : exn :=
  Exn TypeError (Text "__init__() takes fewer positional arguments").
Definition multiple_values : exn :=
  Exn TypeError (Text "__init__() got multiple values for argument").
Definition missing_argument : exn :=
  Exn TypeError (Text "__init__() missing required argument").
Definition unexpected_keyword : exn :=
  Exn TypeError (Text "__init__() got an unexpected keyword argument").

Fixpoint bind_fields
    (fields : list string) (args : list pyobj) (kwargs : dict string pyobj)
  : outcome (dict string pyobj) :=
  match fields, args with
  | [], [] => Ok []
  | [], _ :: _ => Raise too_many_arguments
  | f :: fields', a :: args' =>
      match dict_get f kwargs with
      | Some _ => Raise multiple_values
      | None =>
          rest <- bind_fields fields' args' kwargs ;;
          Ok ((f, a) :: rest)
      end
  | f :: fields', [] =>
      match dict_get f kwargs with
      | Some v =>
          rest <- bind_fields fields' [] kwargs ;;
          Ok ((f, v) :: rest)
      | None => Raise missing_argument
      end
  end.

Definition dataclass_init
    (c : pyclass) (args : list pyobj) (kwargs : dict string pyobj)
  : outcome pyobj :=
  if negb (forallb (fun kv => existsb (String.eqb (fst kv)) (cls_fields c))
                   kwargs)
  then Raise unexpected_keyword
  else
    state <- bind_fields (cls_fields c) args kwargs ;;
    Ok (PyInstance (T_class (cls_name c)) state).

(** Drops every occurrence of [pat], scanning from the left:
    [s.replace(pat, EmptyString)].  [skip] counts the bytes of an
    occurrence still to drop. *)
Fixpoint is_prefix (pat s : bytes) : bool :=
  match pat, s with
  | [], _ => true
  | p :: pat', c :: s' => Byte.eqb p c && is_prefix pat' s'
  | _ :: _, [] => false
  end.

Fixpoint remove_all (pat s : bytes) (skip : nat) : bytes :=
  match s with
  | [] => []
  | c :: rest =>
      match skip with
      | S k => remove_all pat rest k
      | O =>
          if is_prefix pat s
          then remove_all pat rest (List.length pat - 1)
          else c :: remove_all pat rest 0
      end
  end.

Definition is_brace (c : byte) : bool :=
  Byte.eqb c "{"%byte || Byte.eqb c "}"%byte.

Fixpoint lstrip (p : byte -> bool) (s : bytes) : bytes :=
  match s with
  | c :: rest => if p c then lstrip p rest else s
  | [] => []
  end.

Definition strip (p : byte -> bool) (s : bytes) : bytes :=
  List.rev (lstrip p (List.rev (lstrip p s))).

(** Characters with which [int(text, 16)] may still accept a text that is
    not made of hexadecimal digits only. *)
Definition int_quirk (c : byte) : bool :=
  is_ws c || Byte.eqb c "_"%byte || Byte.eqb c "+"%byte
  || Byte.eqb c "x"%byte || Byte.eqb c "X"%byte
  || (Z_of_byte c <? 0x20).

(** [uuid.UUID(s)] *)
Definition UUID_init (s : string) : outcome pyobj :=
  let text := encode_utf8 s in
  if negb (forallb is_ascii text) then Raise (NotModelled "non-ASCII text")
  else
    let text := remove_all (encode_utf8 "urn:") text 0 in
    let text := remove_all (encode_utf8 "uuid:") text 0 in
    let text := remove_all (encode_utf8 "-") (strip is_brace text) 0 in
    if negb (Nat.eqb (List.length text) 32)
    then Raise (Exn ValueError (Text "badly formed hexadecimal UUID string"))
    else
      match traverse hex_value text with
      | Some ds =>
          Ok (PyInstance T_UUID [("int"%string, PyInt (Z_of_hex ds))])
      | None =>
          if existsb int_quirk text then Raise (NotModelled "int literal")
          else Raise (Exn ValueError
                        (Text "invalid literal for int() with base 16"))
      end.

(** [datetime.datetime(s)], [datetime.date(s)], [datetime.time(s)] for a
    [str]: the constructors take integers.  A text of the length of a
    pickled state ([pickled] bytes) is read as one and is left unmodelled. *)
Definition calendar_init (pickled : nat) (s : string) : outcome pyobj :=
  let text := encode_utf8 s in
  if negb (forallb is_ascii text) || Nat.eqb (List.length text) pickled
  then Raise (NotModelled "pickled state")
  else Raise (Exn TypeError
                (Text "'str' object cannot be interpreted as an integer")).

Definition py_call
    (classes : list pyclass) (typ : pytype)
    (args : list pyobj) (kwargs : dict string pyobj) : outcome pyobj :=
  match typ, args, kwargs with
  | T_class name, _, _ =>
      match find_class classes name with
      | Some c => dataclass_init c args kwargs
      | None => Raise (NotModelled "class")
      end
  | T_str, [PyStr s], [] => Ok (PyStr s)
  | T_bool, [PyStr s], [] =>
      Ok (PyBool (negb (String.eqb s EmptyString)))
  | T_UUID, [PyStr s], [] => UUID_init s
  | T_datetime, [PyStr s], [] => calendar_init 10 s
  | T_date, [PyStr s], [] => calendar_init 4 s
  | T_time, [PyStr s], [] => calendar_init 6 s
  | _, _, _ => Raise (NotModelled "call")
  end.

(** *** The instance *)

Lemma mro_starts_with_the_class (classes : list pyclass) (typ : pytype) :
  exists ancestors, mro classes typ = typ :: ancestors.
Proof.
  destruct typ; simpl; eauto.
  destruct (find_class classes name); eauto.
Qed.

Definition runtime
    (classes : list pyclass) (listing : list (string * string)) : Runtime :=
  Build_Runtime
    (mro classes)
    (mro_starts_with_the_class classes)
    (py_call classes)
    sha256_hexdigest
    b32encode
    urlsafe_b64encode
    urlsafe_b64decode
    decoding_undoes_encoding
    (orjson_dumps classes)
    orjson_loads
    totp_at
    listing.

(** Timestamps of the same interval have the same code. *)
Lemma totp_at_same_interval (totp : TOTP) (t t' : Z) :
  Z.quot t (totp_interval totp) = Z.quot t' (totp_interval totp) ->
  totp_at totp (PyI t) = totp_at totp (PyI t').
Proof. unfold totp_at. cbn [int_of_num bind]. now intros ->. Qed.

(** *** Published test vectors *)

Section Vectors.

Let ascii_bytes := encode_utf8.

(** FIPS 180-4, SHA-256 and SHA-1 of the message abc, of the empty message,
    and SHA-256 of a message of two blocks. *)
Example sha256_abc :
  sha256_hexdigest (ascii_bytes "abc")
  = "ba7816bf8f01cfea414140de5dae2223b00361a396177a9cb410ff61f20015ad"%string.
Proof. vm_compute. reflexivity. Qed.

Example sha256_empty :
  sha256_hexdigest []
  = "e3b0c44298fc1c149afbf4c8996fb92427ae41e4649b934ca495991b7852b855"%string.
Proof. vm_compute. reflexivity. Qed.

Example sha256_two_blocks :
  sha256_hexdigest
    (ascii_bytes "abcdbcdecdefdefgefghfghighijhijkijkljklmklmnlmnomnopnopq")
  = "248d6a61d20638b8e5c026930c3e6039a33ce45964ff2167f6ecedd419db06c1"%string.
Proof. vm_compute. reflexivity. Qed.

Example sha1_abc :
  hex (SHA1.digest (ascii_bytes "abc"))
  = "a9993e364706816aba3e25717850c26c9cd0d89d"%string.
Proof. vm_compute. reflexivity. Qed.

(** RFC 2202, HMAC-SHA-1, test case 2. *)
Example hmac_sha1_jefe :
  hex (hmac_sha1 (ascii_bytes "Jefe")
         (ascii_bytes "what do ya want for nothing?"))
  = "effcdf6ae5eb2fa2d27416d5f184df9c259a7c79"%string.
Proof. vm_compute. reflexivity. Qed.

(** RFC 4648, section 10. *)
Example base32_foobar :
  map (fun s => decode_utf8 (b32encode (ascii_bytes s)))
      ["f"; "fo"; "foo"; "foob"; "fooba"; "foobar"]%string
  = ["MY======"; "MZXQ===="; "MZXW6==="; "MZXW6YQ="; "MZXW6YTB";
     "MZXW6YTBOI======"]%string
  /\ b32decode (b32encode (ascii_bytes "foobar")) = Ok (ascii_bytes "foobar").
Proof. split; vm_compute; reflexivity. Qed.

Example base64_foobar :
  map (fun s => decode_utf8 (urlsafe_b64encode (ascii_bytes s)))
      ["f"; "fo"; "foo"; "foob"; "fooba"; "foobar"; "???>>>"]%string
  = ["Zg=="; "Zm8="; "Zm9v"; "Zm9vYg=="; "Zm9vYmE="; "Zm9vYmFy";
     "Pz8_Pj4-"]%string.
Proof. vm_compute. reflexivity. Qed.

(** What [base64.urlsafe_b64decode] of CPython 3.11 returns: characters
    outside the alphabet are skipped, the bits left over in the last digit
    and whatever follows the padding are dropped. *)
Example base64_lenient :
  map urlsafe_b64decode ["MQ=="; "MR=="; "M Q=="; "MQ==Zm9v"; "+/-_"]%string
  = [Ok (ascii_bytes "1"); Ok (ascii_bytes "1"); Ok (ascii_bytes "1");
     Ok (ascii_bytes "1"); Ok [xfb; xff; xbf]]
  /\ urlsafe_b64decode "MQ" = Raise (binascii_Error "Incorrect padding").
Proof. split; vm_compute; reflexivity. Qed.

(** RFC 4226, appendix D: the secret 12345678901234567890, counters 0 to 9;
    RFC 6238, appendix B: time 59 with a step of 30 seconds (last six
    digits). *)
Example hotp_rfc4226 :
  map (generate_otp (b32encode (ascii_bytes "12345678901234567890")))
      [0; 1; 2; 3; 4; 5; 6; 7; 8; 9]
  = map Ok ["755224"; "287082"; "359152"; "969429"; "338314";
            "254676"; "287922"; "162583"; "399871"; "520489"]%string.
Proof. vm_compute. reflexivity. Qed.

Example totp_rfc6238 :
  totp_at {| totp_secret := b32encode (ascii_bytes "12345678901234567890");
             totp_interval := 30 |} (PyI 59)
  = Ok "287082"%string.
Proof. vm_compute. reflexivity. Qed.

(** The JSON codec on a nested value, and on text with blanks and a
    repeated key. *)
Example json_nested :
  (data <- orjson_dumps [] None
             (PyList [PyDict [("a", PyTuple [PyNone; PyBool false])]%string;
                      PyInt (-7); PyStr "x"]) ;;
   orjson_loads data)
  = Ok (PyList [PyDict [("a", PyList [PyNone; PyBool false])]%string;
                PyInt (-7); PyStr "x"])
  /\ orjson_loads
       ([x7b; x22; x61; x22; x3a; x31; x2c; x20; x22; x62; x22; x3a; x5b;
         x5d; x2c; x22; x61; x22; x3a; x6e; x75; x6c; x6c; x20; x7d])
     = Ok (PyDict [("a", PyNone); ("b", PyList [])]%string).
Proof. split; vm_compute; reflexivity. Qed.

End Vectors.

End Reference.
Module Import SR := StateRecoverySerializer.
Module SM := StateRecoveryManager.

(** ** A concrete deployment *)

Module Scenario.

(** [@dataclass class Point: x: int; y: int], a subclass of it that adds
    nothing, and a class that no whitelist below names. *)
Definition Point : Reference.pyclass :=
  {| Reference.cls_name := "Point";
     Reference.cls_ancestors := [T_object];
     Reference.cls_fields := ["x"; "y"] |}.

Definition PinnedPoint : Reference.pyclass :=
  {| Reference.cls_name := "PinnedPoint";
     Reference.cls_ancestors := [T_class "Point"; T_object];
     Reference.cls_fields := ["x"; "y"] |}.

Definition Session : Reference.pyclass :=
  {| Reference.cls_name := "Session";
     Reference.cls_ancestors := [T_object];
     Reference.cls_fields := ["user"] |}.

#[local] Instance rt : Runtime :=
  Reference.runtime [Point; PinnedPoint; Session] [].

(** [StateRecoveryManager([Point], "p3pp3r", otp_key="k")] *)
Definition manager : outcome SM.t :=
  SM.__init__ [T_class "Point"] "p3pp3r" (Some "k")
    SM.default_otp_interval SM.default_max_objects
    SM.default_max_object_length None None.

(** [manager.create_serializer(salt, target_time)] *)
Definition serializer_at (salt : string) (target_time : Z)
  : outcome SR.t :=
  m <- manager ;;
  SM.create_serializer m salt (Some (PyI target_time)) (S754_zero false).

(** The manager, and its serializers for the session [session-1] (and for
    another session) at time 1000. *)
Definition the_manager : SM.t :=
  ltac:(let r := eval vm_compute in manager in
        match r with Ok ?m => exact m end).

Definition the_serializer : SR.t :=
  ltac:(let r := eval vm_compute in (serializer_at "session-1" 1000) in
        match r with Ok ?s => exact s end).

Definition other_session : SR.t :=
  ltac:(let r := eval vm_compute in (serializer_at "session-2" 1000) in
        match r with Ok ?s => exact s end).

Definition point (x y : Z) : pyobj :=
  PyInstance (T_class "Point") [("x", PyInt x); ("y", PyInt y)].

Definition pinned_point (x y : Z) : pyobj :=
  PyInstance (T_class "PinnedPoint") [("x", PyInt x); ("y", PyInt y)].

Definition session (user : string) : pyobj :=
  PyInstance (T_class "Session") [("user", PyStr user)].

(** [datetime.datetime(2024, 2, 29, 12, 30, 0)] *)
Definition leap_noon : pyobj :=
  PyInstance T_datetime
    [("year", PyInt 2024); ("month", PyInt 2); ("day", PyInt 29);
     ("hour", PyInt 12); ("minute", PyInt 30); ("second", PyInt 0);
     ("microsecond", PyInt 0)].

(** [serializer.serialize_state_vars(state_vars)] *)
Definition serialize_at
    (salt : string) (target_time : Z) (state_vars : dict string pyobj)
  : outcome (dict string (string * string * string)) :=
  self <- serializer_at salt target_time ;;
  serialize_state_vars self state_vars.

(** [serializer.deserialize_client_state(tokens)] *)
Definition deserialize_at
    (salt : string) (target_time : Z)
    (tokens : dict string (string * string * string))
  : outcome (dict string pyobj) :=
  self <- serializer_at salt target_time ;;
  deserialize_client_state self tokens.

(** Serialize at one time, deserialize at another, same salt. *)
Definition round_trip
    (salt : string) (sent received : Z) (state_vars : dict string pyobj)
  : outcome (dict string pyobj) :=
  writer <- serializer_at salt sent ;;
  tokens <- serialize_state_vars writer state_vars ;;
  reader <- serializer_at salt received ;;
  deserialize_client_state reader tokens.

(** A batch of [n] integers under the names [0], [1], ... *)
Definition batch (n : nat) : dict string pyobj :=
  map (fun i => (str_of_nat i, PyInt (Z.of_nat i))) (seq 0 n).

(** The same manager with [max_object_length=16], and its serializer. *)
Definition tight_manager : outcome SM.t :=
  SM.__init__ [T_class "Point"] "p3pp3r" (Some "k")
    SM.default_otp_interval SM.default_max_objects 16 None None.

Definition tight_serialize_at
    (salt : string) (target_time : Z) (state_vars : dict string pyobj)
  : outcome (dict string (string * string * string)) :=
  m <- tight_manager ;;
  self <- SM.create_serializer m salt (Some (PyI target_time))
            (S754_zero false) ;;
  serialize_state_vars self state_vars.

(** The JSON text of [point 1 2]. *)
Definition point_json : bytes :=
  [x7b; x22] ++ encode_utf8 "x" ++ [x22] ++ encode_utf8 ":1,"
    ++ [x22] ++ encode_utf8 "y" ++ [x22] ++ encode_utf8 ":2}".

End Scenario.

(** * Properties *)

(** ** Dictionaries *)

Section DictFacts.
Context {K V : Type} `{Eqb K}.

Lemma dict_get_set_eq (k : K) (v : V) (d : dict K V) :
  dict_get k (dict_set k v d) = Some v.
Proof.
  induction d as [|[k' v'] d IH]; simpl.
  - now rewrite eqb_refl.
  - destruct (eqb_spec k k') as [->|Hne]; simpl.
    + now rewrite eqb_refl.
    + now rewrite (eqb_neq _ _ Hne).
Qed.

Lemma dict_get_set_neq (k k0 : K) (v : V) (d : dict K V) :
  k0 <> k -> dict_get k0 (dict_set k v d) = dict_get k0 d.
Proof.
  intros Hne; induction d as [|[k' v'] d IH]; simpl.
  - now rewrite (eqb_neq _ _ Hne).
  - destruct (eqb_spec k k') as [->|Hne']; simpl.
    + now rewrite (eqb_neq _ _ Hne).
    + now rewrite IH.
Qed.

End DictFacts.

(** ** Text of identifiers *)

Lemma str_of_nat_inj (n m : nat) : str_of_nat n = str_of_nat m -> n = m.
Proof.
  unfold str_of_nat; intros E.
  apply (f_equal NilEmpty.uint_of_string) in E.
  rewrite !NilEmpty.usu in E.
  injection E as E. now apply DecimalNat.Unsigned.to_uint_inj.
Qed.

Definition type_id_of_nat (idx : nat) : bytes := encode_utf8 (str_of_nat idx).

Lemma type_id_of_nat_inj (n m : nat) :
  type_id_of_nat n = type_id_of_nat m -> n = m.
Proof. intros E; now apply str_of_nat_inj, encode_utf8_inj. Qed.

Lemma type_id_of_nat_nonempty (n : nat) : type_id_of_nat n <> [].
Proof.
  intros E. change (@nil byte) with (encode_utf8 EmptyString) in E.
  apply encode_utf8_inj in E. unfold str_of_nat in E.
  apply (f_equal NilEmpty.uint_of_string) in E.
  rewrite NilEmpty.usu in E. simpl in E. injection E as E.
  assert (n = 0) as ->
    by (rewrite <- (DecimalNat.Unsigned.of_to n), E; reflexivity).
  discriminate E.
Qed.

(** ** The type registry built by [_map_objects_to_ids] *)

Section Registry.

(** The two dictionaries after the loop has run over [l]. *)
Definition maps_of (l : list regkey) : dict regkey bytes * dict bytes regkey :=
  fold_left SM.map_step (enumerate l) ([], []).

Lemma combine_seq_snoc {A} (l : list A) (x : A) (start : nat) :
  combine (seq start (S (List.length l))) (l ++ [x]) =
  combine (seq start (List.length l)) l ++ [(start + List.length l, x)].
Proof.
  revert start; induction l as [|a l IH]; intros start.
  - simpl. now rewrite Nat.add_0_r.
  - change (combine (seq start (S (List.length (a :: l)))) ((a :: l) ++ [x]))
      with ((start, a)
              :: combine (seq (S start) (S (List.length l))) (l ++ [x])).
    rewrite IH. simpl. now rewrite Nat.add_succ_r.
Qed.

Lemma enumerate_snoc {A} (l : list A) (x : A) :
  enumerate (l ++ [x]) = enumerate l ++ [(List.length l, x)].
Proof.
  unfold enumerate. rewrite length_app, Nat.add_1_r.
  apply (combine_seq_snoc l x 0).
Qed.

Lemma maps_of_snoc (l : list regkey) (x : regkey) :
  maps_of (l ++ [x]) = SM.map_step (maps_of l) (List.length l, x).
Proof.
  unfold maps_of. now rewrite enumerate_snoc, fold_left_app.
Qed.

Lemma map_objects_to_ids_eq (ts : list pytype) :
  SM._map_objects_to_ids ts = maps_of (SM.enumerated_types ts).
Proof. reflexivity. Qed.

Lemma fst_map_step maps idx typ :
  fst (SM.map_step maps (idx, typ)) =
  dict_set typ (type_id_of_nat idx) (fst maps).
Proof. now destruct maps. Qed.

Lemma snd_map_step maps idx typ :
  snd (SM.map_step maps (idx, typ)) =
  dict_set (type_id_of_nat idx) typ (snd maps).
Proof. now destruct maps. Qed.

(** identifier -> type: position [n] of the list, under the text of [n]. *)
Lemma id_to_object_nth (l : list regkey) (n : nat) :
  dict_get (type_id_of_nat n) (snd (maps_of l)) = nth_error l n.
Proof.
  induction l as [|x l IH] using rev_ind.
  - now destruct n.
  - rewrite maps_of_snoc, snd_map_step.
    destruct (Nat.eq_dec n (List.length l)) as [->|Hne].
    + rewrite dict_get_set_eq, nth_error_app2, Nat.sub_diag by lia.
      reflexivity.
    + rewrite dict_get_set_neq
        by (intros E; apply type_id_of_nat_inj in E; contradiction).
      rewrite IH.
      destruct (Nat.lt_ge_cases n (List.length l)) as [Hlt|Hge].
      * now rewrite nth_error_app1.
      * rewrite (proj2 (nth_error_None _ _)) by lia.
        symmetry; apply nth_error_None. rewrite length_app; simpl; lia.
Qed.

Lemma id_to_object_some (l : list regkey) (type_id : bytes) (k : regkey) :
  dict_get type_id (snd (maps_of l)) = Some k ->
  exists n, type_id = type_id_of_nat n /\ nth_error l n = Some k.
Proof.
  induction l as [|x l IH] using rev_ind; [discriminate|].
  rewrite maps_of_snoc, snd_map_step.
  destruct (eqb_spec type_id (type_id_of_nat (List.length l))) as [->|Hne].
  - rewrite dict_get_set_eq; intros [= <-].
    exists (List.length l); split; [reflexivity|].
    now rewrite nth_error_app2, Nat.sub_diag by lia.
  - rewrite dict_get_set_neq by assumption. intros Hg.
    destruct (IH Hg) as (n & -> & Hn). exists n; split; [reflexivity|].
    rewrite nth_error_app1; [assumption|].
    apply nth_error_Some; congruence.
Qed.

(** type -> identifier: the text of the last position that holds the type. *)
Lemma object_to_id_some (l : list regkey) (k : regkey) (type_id : bytes) :
  dict_get k (fst (maps_of l)) = Some type_id ->
  exists n, type_id = type_id_of_nat n /\ nth_error l n = Some k /\
            forall m, nth_error l m = Some k -> m <= n.
Proof.
  induction l as [|x l IH] using rev_ind; [discriminate|].
  rewrite maps_of_snoc, fst_map_step.
  destruct (eqb_spec k x) as [->|Hne].
  - rewrite dict_get_set_eq; intros [= <-].
    exists (List.length l); repeat split.
    + now rewrite nth_error_app2, Nat.sub_diag by lia.
    + intros m Hm. assert (m < List.length (l ++ [x]))
        by (apply nth_error_Some; congruence).
      rewrite length_app in *; simpl in *; lia.
  - rewrite dict_get_set_neq by assumption. intros Hg.
    destruct (IH Hg) as (n & -> & Hn & Hmax).
    assert (n < List.length l) by (apply nth_error_Some; congruence).
    exists n; repeat split.
    + now rewrite nth_error_app1.
    + intros m Hm.
      destruct (Nat.lt_ge_cases m (List.length l)) as [Hlt|Hge].
      * rewrite nth_error_app1 in Hm by assumption. now apply Hmax.
      * assert (m < List.length (l ++ [x]))
          by (apply nth_error_Some; congruence).
        rewrite length_app in *; simpl in *.
        assert (m = List.length l) as -> by lia.
        rewrite nth_error_app2, Nat.sub_diag in Hm by lia.
        simpl in Hm. congruence.
Qed.

Lemma object_to_id_none (l : list regkey) (k : regkey) :
  dict_get k (fst (maps_of l)) = None <-> ~ In k l.
Proof.
  induction l as [|x l IH] using rev_ind; [simpl; tauto|].
  rewrite maps_of_snoc, fst_map_step, in_app_iff.
  destruct (eqb_spec k x) as [->|Hne].
  - rewrite dict_get_set_eq. split; [discriminate|].
    intros Hn; exfalso; apply Hn; right; now left.
  - rewrite dict_get_set_neq by assumption. rewrite IH. simpl.
    split; [intros Hn [Hi|[E|[]]]; [tauto|congruence] | tauto].
Qed.

(** What serialization looks up, deserialization resolves back. *)
Lemma registry_consistent (l : list regkey) (k : regkey) (type_id : bytes) :
  dict_get k (fst (maps_of l)) = Some type_id ->
  dict_get type_id (snd (maps_of l)) = Some k.
Proof.
  intros Hg. destruct (object_to_id_some _ _ _ Hg) as (n & -> & Hn & _).
  now rewrite id_to_object_nth.
Qed.

End Registry.

(** ** Managers and the serializers they create *)

Section Created.
Context {RT : Runtime}.

(** The types added to every whitelist by [__init__]. *)
Definition appended_types : list pytype :=
  [T_Decimal; T_datetime; T_date; T_time].

(** The list whose positions are the identifiers of a manager. *)
Definition positions (whitelist : list pytype) : list regkey :=
  SM.enumerated_types (whitelist ++ appended_types).

(** [t] has an identifier in a manager built from [whitelist]. *)
Definition registered (whitelist : list pytype) (t : pytype) : Prop :=
  In (Some t) (positions whitelist).

(** The serializer [create_serializer] builds once the code is known. *)
Definition serializer_with_code
    (m : SM.t) (salt : string) (otp_code : outcome string)
  : outcome SR.t :=
  otp_code <- otp_code ;;
  Ok (SR.__init__ otp_code (SM._pepper m) salt
        (SM._object_to_type_id m) (SM._type_id_to_object m)
        (SM._max_object_length m) (SM._default_serializer m)
        (Some (SM._deserializer_map m))).

Lemma create_serializer_eq m salt target_time now :
  SM.create_serializer m salt target_time now =
  serializer_with_code m salt
    (totp_at (SM._totp m) (SM.target_time_or_now target_time now)).
Proof. reflexivity. Qed.

Section Init.
Variables (whitelist : list pytype) (pepper : string)
          (otp_key : option string)
          (otp_interval max_objects max_object_length : Z)
          (default_serializer : option callback)
          (deserializer_map : option (dict pytype callback)).
Variable m : SM.t.
Hypothesis Hm :
  SM.__init__ whitelist pepper otp_key otp_interval max_objects
    max_object_length default_serializer deserializer_map = Ok m.

Lemma init_registry :
  SM._object_to_type_id m = fst (maps_of (positions whitelist)) /\
  SM._type_id_to_object m = snd (maps_of (positions whitelist)).
Proof.
  unfold SM.__init__ in Hm. rewrite map_objects_to_ids_eq in Hm.
  fold appended_types in Hm. fold (positions whitelist) in Hm.
  destruct (maps_of (positions whitelist)) as [o2i i2o].
  injection Hm as <-. now split.
Qed.

Lemma init_limits :
  SM._pepper m = pepper /\ SM._max_objects m = max_objects /\
  SM._max_object_length m = max_object_length /\
  SM._default_serializer m = default_serializer /\
  SM._deserializer_map m = SR.or_empty deserializer_map.
Proof.
  unfold SM.__init__ in Hm.
  destruct (SM._map_objects_to_ids _) as [o2i i2o].
  injection Hm as <-. now repeat split.
Qed.

Variables (salt : string) (target_time : option pynum) (now : spec_float).
Variable self : SR.t.
Hypothesis Hself : SM.create_serializer m salt target_time now = Ok self.

Lemma created_registry :
  SR._object_to_type_id self = fst (maps_of (positions whitelist)) /\
  SR._type_id_to_object self = snd (maps_of (positions whitelist)).
Proof.
  destruct init_registry as [<- <-].
  unfold SM.create_serializer in Hself.
  destruct (totp_at _ _); [|discriminate].
  injection Hself as <-. now split.
Qed.

Lemma created_secrets :
  SR._pepper self = encode_utf8 pepper /\
  SR._salt self = encode_utf8 salt /\
  SR._max_object_length self = max_object_length /\
  SR._default_serializer self = default_serializer /\
  SR._deserializer_map self = SR.or_empty deserializer_map.
Proof.
  destruct init_limits as (<- & _ & <- & <- & Hd).
  unfold SM.create_serializer in Hself.
  destruct (totp_at _ _); [|discriminate].
  injection Hself as <-. cbn. repeat split.
  rewrite Hd. now destruct deserializer_map as [[|? ?]|].
Qed.

(** An identifier the loop over the MRO stops at resolves back to the
    type it stopped at, and is not the identifier of [None]. *)
Lemma created_resolves (t : pytype) (type_id : bytes) :
  dict_get (Some t) (SR._object_to_type_id self) = Some type_id ->
  dict_get type_id (SR._type_id_to_object self) = Some (Some t) /\
  type_id <> encode_utf8 "0" /\ type_id <> [].
Proof.
  destruct created_registry as [-> ->]. intros Hg. split.
  - now apply registry_consistent.
  - destruct (object_to_id_some _ _ _ Hg) as (n & -> & Hn & _). split.
    + change (encode_utf8 "0") with (type_id_of_nat 0).
      intros E. apply type_id_of_nat_inj in E. subst n. discriminate Hn.
    + apply type_id_of_nat_nonempty.
Qed.

Lemma created_registered (t : pytype) :
  registered whitelist t ->
  exists type_id,
    dict_get (Some t) (SR._object_to_type_id self) = Some type_id /\
    SR.id_truthy (Some type_id) = true.
Proof.
  intros Hr. destruct created_registry as [E _].
  destruct (dict_get (Some t) (SR._object_to_type_id self))
    as [type_id|] eqn:Hg.
  - exists type_id; split; [reflexivity|].
    destruct (created_resolves _ _ Hg) as (_ & _ & Hne).
    now destruct type_id.
  - rewrite E in Hg. apply object_to_id_none in Hg. contradiction.
Qed.

Lemma created_unregistered (t : pytype) :
  ~ registered whitelist t ->
  dict_get (Some t) (SR._object_to_type_id self) = None.
Proof.
  intros Hr. destruct created_registry as [-> _].
  now apply object_to_id_none.
Qed.

(** The loop stops at the first registered type of the list. *)
Lemma for_mro_first (pre post : list pytype) (t : pytype) :
  (forall u, In u pre -> ~ registered whitelist u) ->
  registered whitelist t ->
  for_mro self (pre ++ t :: post) =
  dict_get (Some t) (SR._object_to_type_id self).
Proof.
  intros Hpre Ht. induction pre as [|u pre IH]; simpl.
  - destruct (created_registered t Ht) as (type_id & -> & ->).
    reflexivity.
  - rewrite (created_unregistered u) by (apply Hpre; now left).
    simpl. apply IH. intros v Hv. apply Hpre. now right.
Qed.

Lemma for_mro_unregistered (ts : list pytype) :
  (forall u, In u ts -> ~ registered whitelist u) ->
  for_mro self ts = None.
Proof.
  intros Hts. induction ts as [|u ts IH]; simpl; [reflexivity|].
  rewrite (created_unregistered u) by (apply Hts; now left).
  simpl. apply IH. intros v Hv. apply Hts. now right.
Qed.

End Init.

(** Whatever the registry, an identifier the loop returns is that of a
    type of the list. *)
Lemma for_mro_some (self : SR.t) (ts : list pytype) (type_id : bytes) :
  for_mro self ts = Some type_id ->
  exists t, In t ts /\
            dict_get (Some t) (SR._object_to_type_id self) = Some type_id.
Proof.
  induction ts as [|u ts IH]; simpl; [discriminate|].
  destruct (SR.id_truthy _) eqn:E.
  - intros Hg. exists u. split; [now left | assumption].
  - intros Hg. destruct (IH Hg) as (t & Hin & Ht).
    exists t. split; [now right | assumption].
Qed.

End Created.


(** ** The sentinel of [None] *)

Section Sentinel.
Context {RT : Runtime}.

(** C8.  Serializing [None] yields the triple ["0"], empty payload, empty
    signature, whatever the secrets of the serializer; a token whose type
    identifier is ["0"] deserializes to [None] whatever its payload and
    signature are, the signature being neither computed nor compared.  The
    same holds through the two batch operations. *)
Theorem none_is_the_unsigned_sentinel
    (self : SR.t) (key data signature : string) :
  _serialize self key PyNone = Ok ("0", EmptyString, EmptyString) /\
  _deserialize self key (encode_utf8 "0") data signature = Ok PyNone /\
  serialize_state_vars self [(key, PyNone)]
    = Ok [(key, ("0", EmptyString, EmptyString))] /\
  deserialize_client_state self [(key, ("0", data, signature))]
    = Ok [(key, PyNone)].
Proof. repeat split. Qed.

End Sentinel.

(** ** Batches *)

Section Batches.
Context {RT : Runtime}.

(** A token of the list deserializes, or fails, under the serializer. *)
Definition token_result
    (self : SR.t) (item : string * (string * string * string))
  : outcome pyobj :=
  let '(key, (type_id, data, signature)) := item in
  _deserialize self key (encode_utf8 type_id) data signature.

(** With a failing token in the list, the loop raises the exception of the
    first token that fails; the tokens before it had deserialized. *)
Lemma deserialize_items_first_failure
    (self : SR.t) (items : dict string (string * string * string))
    (acc : dict string pyobj) item e :
  In item items ->
  token_result self item = Raise e ->
  exists before failing after e',
    items = before ++ failing :: after /\
    (forall ok, In ok before -> exists value, token_result self ok = Ok value) /\
    token_result self failing = Raise e' /\
    deserialize_items self items acc = Raise e'.
Proof.
  revert acc. induction items as [|[k [[t d] s]] items IH]; intros acc Hin He.
  - contradiction.
  - destruct (token_result self (k, (t, d, s))) as [v|e0] eqn:Hk.
    + destruct Hin as [<-|Hin]; [congruence|].
      destruct (IH (dict_set k v acc) Hin He)
        as (before & failing & after & e' & -> & Hbefore & Hfail & Hrun).
      exists ((k, (t, d, s)) :: before), failing, after, e'.
      repeat split; try assumption.
      * intros ok [<-|Hok]; [now exists v|now apply Hbefore].
      * cbn [deserialize_items]. cbn in Hk. rewrite Hk. exact Hrun.
    + exists [], (k, (t, d, s)), items, e0.
      repeat split; try assumption.
      * intros ok [].
      * cbn [deserialize_items]. cbn in Hk. now rewrite Hk.
Qed.

Lemma deserialize_items_raise
    (self : SR.t) (items : dict string (string * string * string))
    (acc : dict string pyobj) key type_id data signature e :
  In (key, (type_id, data, signature)) items ->
  _deserialize self key (encode_utf8 type_id) data signature = Raise e ->
  exists e', deserialize_items self items acc = Raise e'.
Proof.
  intros Hin He.
  destruct (deserialize_items_first_failure self items acc _ e Hin He)
    as (_ & _ & _ & e' & _ & _ & _ & Hrun).
  now exists e'.
Qed.

(** A mapping is returned only when every token deserializes. *)
Lemma deserialize_items_ok
    (self : SR.t) (items : dict string (string * string * string))
    (acc result : dict string pyobj) :
  deserialize_items self items acc = Ok result ->
  forall item, In item items ->
  exists value, token_result self item = Ok value.
Proof.
  intros Hok [key [[type_id data] signature]] Hin.
  destruct (token_result self (key, (type_id, data, signature)))
    as [v|e] eqn:E; [now exists v|].
  destruct (deserialize_items_raise _ _ acc _ _ _ _ _ Hin E) as [e' He'].
  congruence.
Qed.

(** C9.  If one token of the batch fails to deserialize, the call raises
    and returns no mapping, whatever the other tokens are and wherever the
    failing one stands: the exception is that of the first token that
    fails, and the values of the tokens before it, which had deserialized,
    are not returned. *)
Theorem deserialization_is_all_or_nothing
    (self : SR.t) (state_vars : dict string (string * string * string))
    key type_id data signature e :
  In (key, (type_id, data, signature)) state_vars ->
  _deserialize self key (encode_utf8 type_id) data signature = Raise e ->
  (exists before failing after e',
      state_vars = before ++ failing :: after /\
      (forall ok, In ok before ->
                  exists value, token_result self ok = Ok value) /\
      token_result self failing = Raise e' /\
      deserialize_client_state self state_vars = Raise e') /\
  (forall result, deserialize_client_state self state_vars <> Ok result).
Proof.
  intros Hin He.
  destruct (deserialize_items_first_failure self state_vars [] _ e Hin He)
    as (before & failing & after & e' & Hsplit & Hbefore & Hfail & Hrun).
  split.
  - now exists before, failing, after, e'.
  - unfold deserialize_client_state. intros result. congruence.
Qed.

End Batches.

(** ** The timestamp of a serializer *)

Section TargetTime.
Context {RT : Runtime}.

(** C10.  [create_serializer] with [target_time] equal to [0], [0.0] or
    [-0.0] behaves as with [target_time] omitted: the code is that of the
    clock reading [now].  With any other [target_time], the code is that of
    [target_time]. *)
Theorem zero_target_time_falls_back_to_the_clock
    (m : SM.t) (salt : string) (now : spec_float) :
  SM.create_serializer m salt None now
    = serializer_with_code m salt (totp_at (SM._totp m) (PyF now)) /\
  SM.create_serializer m salt (Some (PyI 0)) now
    = serializer_with_code m salt (totp_at (SM._totp m) (PyF now)) /\
  (forall sign,
      SM.create_serializer m salt (Some (PyF (S754_zero sign))) now
      = serializer_with_code m salt (totp_at (SM._totp m) (PyF now))) /\
  (forall t,
      t <> PyI 0 -> (forall sign, t <> PyF (S754_zero sign)) ->
      SM.create_serializer m salt (Some t) now
      = serializer_with_code m salt (totp_at (SM._totp m) t)).
Proof.
  repeat split.
  intros t Hi Hf. rewrite create_serializer_eq. f_equal. f_equal.
  unfold SM.target_time_or_now.
  destruct t as [z|[sign|sign| |sign mant e]]; cbn; try reflexivity.
  - destruct (Z.eqb_spec z 0); [subst; contradiction|reflexivity].
  - now contradiction (Hf sign).
Qed.

End TargetTime.

(** ** The bound on the number of values *)

Section MaxObjects.
Context {RT : Runtime}.

(** Two managers that differ in [max_objects] only create the same
    serializers: the bound does not reach the code that serializes. *)
Lemma max_objects_does_not_reach_the_serializer
    (whitelist : list pytype) (pepper : string) (otp_key : option string)
    (otp_interval max_objects max_objects' max_object_length : Z)
    (default_serializer : option callback)
    (deserializer_map : option (dict pytype callback))
    (m m' : SM.t) (salt : string) (target_time : option pynum)
    (now : spec_float) :
  SM.__init__ whitelist pepper otp_key otp_interval max_objects
    max_object_length default_serializer deserializer_map = Ok m ->
  SM.__init__ whitelist pepper otp_key otp_interval max_objects'
    max_object_length default_serializer deserializer_map = Ok m' ->
  SM.create_serializer m salt target_time now
  = SM.create_serializer m' salt target_time now.
Proof.
  unfold SM.__init__.
  destruct (SM._map_objects_to_ids _) as [o2i i2o].
  now intros [= <-] [= <-].
Qed.

End MaxObjects.

(** ** Resolution of the type identifier *)

Section Whitelist.
Context {RT : Runtime}.

(** What [_serialize] does once the identifier is known. *)
Definition serialize_as
    (self : SR.t) (key : string) (obj : pyobj) (type_id : bytes)
  : outcome (string * string * string) :=
  result <- _serialize_object self obj ;;
  if (len result >? SR._max_object_length self)%Z
  then Raise (Exn ValueError (too_long obj (len result)))
  else Ok (decode_utf8 type_id,
           decode_utf8 (urlsafe_b64encode result),
           _sign_serialization self key type_id result).

Lemma serialize_as_type_id (self : SR.t) key obj type_id token :
  serialize_as self key obj type_id = Ok token ->
  fst (fst token) = decode_utf8 type_id.
Proof.
  unfold serialize_as. destruct (_serialize_object self obj); [|discriminate].
  cbn [bind]. destruct (_ >? _)%Z; [discriminate|]. now intros [= <-].
Qed.

Lemma serialize_resolved (self : SR.t) key obj :
  is_None obj = false ->
  _serialize self key obj =
  match for_mro self (mro (type_of obj)) with
  | Some type_id => serialize_as self key obj type_id
  | None => Raise (Exn ValueError (not_whitelisted obj))
  end.
Proof. intros H. unfold _serialize. now rewrite H. Qed.

(** C3.  For a serializer created by a manager built from [whitelist], and
    a value other than [None]: when [t] is the first registered class of
    the MRO of the value's type (the classes before it, the type itself
    included, being unregistered), serialization proceeds under the
    identifier of [t]; when no class of the MRO is registered, it raises
    the [ValueError] of a value that is not white-listed. *)
Theorem nearest_registered_ancestor
    (whitelist : list pytype) (pepper : string) (otp_key : option string)
    (otp_interval max_objects max_object_length : Z)
    (default_serializer : option callback)
    (deserializer_map : option (dict pytype callback))
    (m : SM.t) (salt : string) (target_time : option pynum)
    (now : spec_float) (self : SR.t) (key : string) (obj : pyobj) :
  SM.__init__ whitelist pepper otp_key otp_interval max_objects
    max_object_length default_serializer deserializer_map = Ok m ->
  SM.create_serializer m salt target_time now = Ok self ->
  is_None obj = false ->
  (forall pre t post,
      mro (type_of obj) = pre ++ t :: post ->
      (forall u, In u pre -> ~ registered whitelist u) ->
      registered whitelist t ->
      exists type_id,
        dict_get (Some t) (SR._object_to_type_id self) = Some type_id /\
        for_mro self (mro (type_of obj)) = Some type_id /\
        _serialize self key obj = serialize_as self key obj type_id /\
        forall token,
          _serialize self key obj = Ok token ->
          fst (fst token) = decode_utf8 type_id) /\
  ((forall u, In u (mro (type_of obj)) -> ~ registered whitelist u) ->
   _serialize self key obj = Raise (Exn ValueError (not_whitelisted obj)) /\
   failure_of (Exn ValueError (not_whitelisted obj))
   = Some WhitelistViolation).
Proof.
  intros Hm Hself Hobj. split.
  - intros pre t post Hmro Hpre Ht.
    destruct (created_registered _ _ _ _ _ _ _ _ _ Hm _ _ _ _ Hself t Ht)
      as (type_id & Hg & _).
    exists type_id. split; [assumption|].
    assert (Hfor : for_mro self (mro (type_of obj)) = Some type_id).
    { rewrite Hmro, <- Hg.
      eapply for_mro_first; eauto. }
    split; [assumption|].
    assert (Hs : _serialize self key obj = serialize_as self key obj type_id)
      by now rewrite serialize_resolved, Hfor.
    split; [assumption|].
    intros token Htoken. rewrite Hs in Htoken.
    now apply serialize_as_type_id in Htoken.
  - intros Hnone. split; [|reflexivity].
    rewrite serialize_resolved by assumption.
    erewrite for_mro_unregistered; eauto.
Qed.

End Whitelist.

(** ** Signatures *)

Section Signature.
Context {RT : Runtime}.

(** What the hasher of [_sign_serialization] is fed, in order. *)
Definition signed_bytes
    (self : SR.t) (key : string) (type_id data : bytes) : bytes :=
  type_id ++ data ++ SR._pepper self ++ SR._otp_code self
    ++ SR._salt self ++ encode_utf8 key.

Lemma sign_serialization_eq (self : SR.t) key type_id data :
  _sign_serialization self key type_id data
  = sha256_hexdigest (signed_bytes self key type_id data).
Proof.
  unfold _sign_serialization, hashlib.hexdigest, hashlib.update,
    hashlib.sha256, signed_bytes.
  now rewrite <- !app_assoc.
Qed.

(** The token reaches the comparison of signatures once its identifier is
    known to the registry and its payload decodes. *)
Lemma deserialize_checked (self : SR.t) key type_id data signature typ payload :
  type_id <> encode_utf8 "0" ->
  dict_get type_id (SR._type_id_to_object self) = Some typ ->
  urlsafe_b64decode data = Ok payload ->
  _deserialize self key type_id data signature =
  if eqb (sha256_hexdigest (signed_bytes self key type_id payload)) signature
  then _deserialize_object self typ payload
  else Raise (Exn StateRecoveryFailureError (signature_mismatch type_id)).
Proof.
  intros H0 Hreg Hdec. unfold _deserialize.
  rewrite (eqb_neq _ _ H0), Hreg, Hdec. cbn [bind].
  rewrite sign_serialization_eq.
  now destruct (eqb _ signature).
Qed.

(** The signed bytes determine each of the payload, the name, the salt and
    the code, the other fields being the same. *)
Definition one_field_changed
    (self self' : SR.t) (key key' : string) (payload payload' : bytes)
  : Prop :=
  SR._pepper self' = SR._pepper self /\
  ((payload' <> payload /\ key' = key /\
    SR._salt self' = SR._salt self /\
    SR._otp_code self' = SR._otp_code self) \/
   (payload' = payload /\ key' <> key /\
    SR._salt self' = SR._salt self /\
    SR._otp_code self' = SR._otp_code self) \/
   (payload' = payload /\ key' = key /\
    SR._salt self' <> SR._salt self /\
    SR._otp_code self' = SR._otp_code self) \/
   (payload' = payload /\ key' = key /\
    SR._salt self' = SR._salt self /\
    SR._otp_code self' <> SR._otp_code self)).

Lemma signed_bytes_changed self self' key key' type_id payload payload' :
  one_field_changed self self' key key' payload payload' ->
  signed_bytes self' key' type_id payload'
  <> signed_bytes self key type_id payload.
Proof.
  unfold one_field_changed, signed_bytes.
  intros (-> & [(Hne & -> & -> & ->)|[(-> & Hne & -> & ->)
               |[(-> & -> & Hne & ->)|(-> & -> & -> & Hne)]]]) E;
    apply Hne; clear Hne.
  - apply app_inv_head in E. now apply app_inv_tail in E.
  - do 5 apply app_inv_head in E. now apply encode_utf8_inj.
  - do 4 apply app_inv_head in E. now apply app_inv_tail in E.
  - do 3 apply app_inv_head in E. now apply app_inv_tail in E.
Qed.

(** C2, as the code has it.  For a token whose identifier is not ["0"], is
    known to the registry, and whose payload decodes: the comparison of
    signatures succeeds, and the value is then reconstructed, exactly when
    the supplied signature is the SHA-256 hex digest of identifier, decoded
    payload, pepper, code, salt and name, concatenated in that order, all
    secrets being the serializer's own; otherwise the failure is the
    signature mismatch.  Replacing exactly one of decoded payload, name,
    salt and code changes the signed bytes, so a signature valid before the
    change is refused after it unless SHA-256 gives both byte strings the
    same digest. *)
Theorem signature_decides_acceptance
    (self : SR.t) (key : string) (type_id : bytes) (data signature : string)
    (typ : regkey) (payload : bytes) :
  type_id <> encode_utf8 "0" ->
  dict_get type_id (SR._type_id_to_object self) = Some typ ->
  urlsafe_b64decode data = Ok payload ->
  (signature = sha256_hexdigest (signed_bytes self key type_id payload) ->
   _deserialize self key type_id data signature
   = _deserialize_object self typ payload) /\
  (signature <> sha256_hexdigest (signed_bytes self key type_id payload) ->
   _deserialize self key type_id data signature
   = Raise (Exn StateRecoveryFailureError (signature_mismatch type_id))) /\
  (forall (self' : SR.t) (key' data' : string) (payload' : bytes),
      signature = sha256_hexdigest (signed_bytes self key type_id payload) ->
      dict_get type_id (SR._type_id_to_object self') = Some typ ->
      urlsafe_b64decode data' = Ok payload' ->
      one_field_changed self self' key key' payload payload' ->
      signed_bytes self' key' type_id payload'
      <> signed_bytes self key type_id payload /\
      (sha256_hexdigest (signed_bytes self' key' type_id payload')
       <> sha256_hexdigest (signed_bytes self key type_id payload) ->
       _deserialize self' key' type_id data' signature
       = Raise (Exn StateRecoveryFailureError (signature_mismatch type_id)))).
Proof.
  intros H0 Hreg Hdec. repeat split.
  - intros ->. rewrite (deserialize_checked _ _ _ _ _ _ _ H0 Hreg Hdec).
    now rewrite eqb_refl.
  - intros Hne. rewrite (deserialize_checked _ _ _ _ _ _ _ H0 Hreg Hdec).
    rewrite eqb_neq; [reflexivity|congruence].
  - now apply signed_bytes_changed.
  - intros Hcoll.
    rewrite (deserialize_checked _ _ _ _ _ _ _ H0 H1 H2).
    rewrite eqb_neq; [reflexivity|congruence].
Qed.

(** C6, as the code has it.  When the signature of a token is the expected
    one, no custom deserializer is registered for its type, and the call of
    the type on the parsed payload (one positional argument for a string,
    keyword arguments for a mapping) raises [e], deserialization raises
    that same [e]: the exception of the constructor reaches the caller as
    it is, in no class of the module's own. *)
Theorem constructor_failure_propagates_unchanged
    (self : SR.t) (key : string) (type_id : bytes) (data signature : string)
    (typ : pytype) (payload : bytes) (parsed : pyobj) (e : exn) :
  type_id <> encode_utf8 "0" ->
  dict_get type_id (SR._type_id_to_object self) = Some (Some typ) ->
  urlsafe_b64decode data = Ok payload ->
  signature = sha256_hexdigest (signed_bytes self key type_id payload) ->
  orjson_loads payload = Ok parsed ->
  dict_get typ (SR._deserializer_map self) = None ->
  ((exists s, parsed = PyStr s) /\ py_call typ [parsed] [] = Raise e) \/
  (exists kwargs, parsed = PyDict kwargs /\ py_call typ [] kwargs = Raise e) ->
  _deserialize self key type_id data signature = Raise e /\
  forall state_vars,
    In (key, (decode_utf8 type_id, data, signature)) state_vars ->
    exists e', deserialize_client_state self state_vars = Raise e'.
Proof.
  intros H0 Hreg Hdec -> Hload Hmap Hcall.
  assert (Hd : _deserialize self key type_id data
                 (sha256_hexdigest (signed_bytes self key type_id payload))
               = Raise e).
  { rewrite (deserialize_checked _ _ _ _ _ _ _ H0 Hreg Hdec), eqb_refl.
    unfold _deserialize_object. rewrite Hload. cbn [bind]. rewrite Hmap.
    destruct Hcall as [[[s ->] Hc]|(kwargs & -> & Hc)]; exact Hc. }
  split; [exact Hd|].
  intros state_vars Hin.
  eapply deserialize_items_raise; [exact Hin|].
  rewrite encode_decode_utf8. exact Hd.
Qed.

End Signature.

(** ** Round trip *)

Section RoundTrip.
Context {RT : Runtime}.

(** The class at which the loop of [_serialize] over the MRO stops. *)
Fixpoint resolved_type (self : SR.t) (ts : list pytype) : option pytype :=
  match ts with
  | [] => None
  | t :: rest =>
      if SR.id_truthy (dict_get (Some t) (SR._object_to_type_id self))
      then Some t
      else resolved_type self rest
  end.

Lemma for_mro_resolved (self : SR.t) (ts : list pytype) (t : pytype) :
  resolved_type self ts = Some t ->
  exists type_id,
    for_mro self ts = Some type_id /\
    dict_get (Some t) (SR._object_to_type_id self) = Some type_id.
Proof.
  induction ts as [|u ts IH]; simpl; [discriminate|].
  destruct (dict_get (Some u) (SR._object_to_type_id self))
    as [[|b type_id]|] eqn:E; simpl; auto.
  intros [= <-]. now exists (b :: type_id).
Qed.

(** Writer and reader are created by the same manager with the same salt
    and hold the same code.  A value other than [None] whose type resolves
    to the registered class [t], whose encoding is within
    [max_object_length], and which the reconstruction step gives back from
    that encoding for [t], serializes in a batch of its own to tokens that
    deserialize to the same batch. *)
Lemma round_trip_once_reconstructed
    (whitelist : list pytype) (pepper : string) (otp_key : option string)
    (otp_interval max_objects max_object_length : Z)
    (default_serializer : option callback)
    (deserializer_map : option (dict pytype callback))
    (m : SM.t) (salt : string) (sent received : option pynum)
    (now now' : spec_float) (writer reader : SR.t)
    (key : string) (value : pyobj) (t : pytype) (encoded : bytes) :
  SM.__init__ whitelist pepper otp_key otp_interval max_objects
    max_object_length default_serializer deserializer_map = Ok m ->
  SM.create_serializer m salt sent now = Ok writer ->
  SM.create_serializer m salt received now' = Ok reader ->
  SR._otp_code reader = SR._otp_code writer ->
  is_None value = false ->
  resolved_type writer (mro (type_of value)) = Some t ->
  _serialize_object writer value = Ok encoded ->
  (len encoded <= max_object_length)%Z ->
  _deserialize_object reader (Some t) encoded = Ok value ->
  exists tokens,
    serialize_state_vars writer [(key, value)] = Ok tokens /\
    deserialize_client_state reader tokens = Ok [(key, value)].
Proof.
  intros Hm Hw Hr Hcode Hval Ht Henc Hlen Hrec.
  destruct (for_mro_resolved _ _ _ Ht) as (type_id & Hfor & Hid).
  destruct (created_resolves _ _ _ _ _ _ _ _ _ Hm _ _ _ _ Hw _ _ Hid)
    as (Hback & Hnot0 & _).
  destruct (created_registry _ _ _ _ _ _ _ _ _ Hm _ _ _ _ Hw) as [_ Hiw].
  destruct (created_registry _ _ _ _ _ _ _ _ _ Hm _ _ _ _ Hr) as [_ Hir].
  destruct (created_secrets _ _ _ _ _ _ _ _ _ Hm _ _ _ _ Hw)
    as (Hpw & Hsw & Hmw & _).
  destruct (created_secrets _ _ _ _ _ _ _ _ _ Hm _ _ _ _ Hr)
    as (Hpr & Hsr & _).
  assert (Hser :
    _serialize writer key value
    = Ok (decode_utf8 type_id, decode_utf8 (urlsafe_b64encode encoded),
          _sign_serialization writer key type_id encoded)).
  { rewrite serialize_resolved, Hfor by assumption.
    unfold serialize_as. rewrite Henc. cbn [bind]. rewrite Hmw.
    destruct (Z.gtb_spec (len encoded) max_object_length);
      [lia|reflexivity]. }
  eexists. split.
  - unfold serialize_state_vars. cbn [serialize_items].
    rewrite Hser. reflexivity.
  - unfold deserialize_client_state.
    cbn [dict_set deserialize_items]. rewrite encode_decode_utf8.
    rewrite (deserialize_checked reader key type_id _ _ (Some t) encoded).
    + rewrite sign_serialization_eq.
      replace (signed_bytes reader key type_id encoded)
        with (signed_bytes writer key type_id encoded)
        by (unfold signed_bytes; congruence).
      rewrite eqb_refl, Hrec. reflexivity.
    + assumption.
    + rewrite Hir, <- Hiw. exact Hback.
    + apply urlsafe_b64_roundtrip.
Qed.

(** *** JSON values *)

(** No name occurs twice, as in the keys of a [dict]. *)
Fixpoint distinct (names : list string) : bool :=
  match names with
  | [] => true
  | name :: rest => negb (existsb (String.eqb name) rest) && distinct rest
  end.

(** The values that JSON has: [None], [bool], [int], [str], and the lists
    and the [dict]s with [str] keys that are made of such values.  A tuple
    is not one of them, nor an instance of another class. *)
Fixpoint json_value (obj : pyobj) : bool :=
  match obj with
  | PyNone | PyBool _ | PyInt _ | PyStr _ => true
  | PyList l => forallb json_value l
  | PyDict d =>
      distinct (map fst d) && forallb (fun item => json_value (snd item)) d
  | PyTuple _ | PyInstance _ _ => false
  end.

(** [uuid.UUID(int=n)] *)
Definition uuid_value (n : Z) : pyobj :=
  PyInstance T_UUID [("int", PyInt n)].

(** The types whose JSON values come back as they are parsed, or through
    [str(text)]. *)
Definition json_types : list pytype := [T_bool; T_int; T_str; T_list].

(** The values for which the round trip is stated: the JSON values of
    these four types, and the UUIDs. *)
Definition json_or_uuid (value : pyobj) : Prop :=
  (In (type_of value) json_types /\ json_value value = true) \/
  (exists n, (0 <= n < 2 ^ 128)%Z /\ value = uuid_value n).

(** What the documentation of the libraries promises, and the round trip
    relies on: [orjson.loads] reads back the JSON value that [orjson.dumps]
    wrote; [str(text)] is [text]; a UUID is written as a JSON string from
    which [uuid.UUID] builds the same UUID. *)
Definition libraries_as_documented : Prop :=
  (forall default obj data,
      json_value obj = true ->
      orjson_dumps default obj = Ok data ->
      orjson_loads data = Ok obj) /\
  (forall text, py_call T_str [PyStr text] [] = Ok (PyStr text)) /\
  (forall default n data,
      (0 <= n < 2 ^ 128)%Z ->
      orjson_dumps default (uuid_value n) = Ok data ->
      exists text,
        orjson_loads data = Ok (PyStr text) /\
        py_call T_UUID [PyStr text] [] = Ok (uuid_value n)).

Lemma json_or_uuid_registered (whitelist : list pytype) (value : pyobj) :
  json_or_uuid value ->
  is_None value = false /\ registered whitelist (type_of value).
Proof.
  unfold registered, positions, SM.enumerated_types.
  intros [[Htype _]|(n & _ & ->)].
  - split.
    + destruct value; try reflexivity. cbn in Htype. intuition discriminate.
    + destruct Htype as [<-|[<-|[<-|[<-|[]]]]]; cbn; auto 10.
  - split; [reflexivity|]. cbn. auto 10.
Qed.

(** The reconstruction step gives such a value back from its encoding,
    when no deserializer of its own is registered for the type. *)
Lemma reconstructed_as_sent
    (self : SR.t) (default : option callback) (value : pyobj)
    (encoded : bytes) :
  libraries_as_documented ->
  json_or_uuid value ->
  dict_get (type_of value) (SR._deserializer_map self) = None ->
  orjson_dumps default value = Ok encoded ->
  _deserialize_object self (Some (type_of value)) encoded = Ok value.
Proof.
  intros (Hcodec & Hstr & Huuid) Hvalue Hmap Hdumps.
  unfold _deserialize_object.
  destruct Hvalue as [[Htype Hjson]|(n & Hn & ->)].
  - rewrite (Hcodec _ _ _ Hjson Hdumps). cbn [bind]. rewrite Hmap.
    destruct value; try reflexivity.
    + apply Hstr.
    + cbn in Htype. intuition discriminate.
  - destruct (Huuid _ _ _ Hn Hdumps) as (text & -> & Hcall).
    cbn [bind type_of uuid_value] in *. now rewrite Hmap.
Qed.


End RoundTrip.

(** ** Identifiers of a whitelist *)

Section Identifiers.
Context {RT : Runtime}.

(** C7, as the code has it.  With a whitelist of exactly one user class,
    that class has the identifier ["8"]: positions are counted from zero
    and the eight built-in entries take 0 to 7.  Serializing an instance of
    exactly that class proceeds under ["8"]. *)
Theorem first_domain_type_has_identifier_8
    (name : string) (pepper : string) (otp_key : option string)
    (otp_interval max_objects max_object_length : Z)
    (default_serializer : option callback)
    (deserializer_map : option (dict pytype callback))
    (m : SM.t) (salt : string) (target_time : option pynum)
    (now : spec_float) (self : SR.t)
    (key : string) (state : dict string pyobj) :
  SM.__init__ [T_class name] pepper otp_key otp_interval max_objects
    max_object_length default_serializer deserializer_map = Ok m ->
  SM.create_serializer m salt target_time now = Ok self ->
  dict_get (Some (T_class name)) (SR._object_to_type_id self)
    = Some (encode_utf8 "8") /\
  dict_get (encode_utf8 "8") (SR._type_id_to_object self)
    = Some (Some (T_class name)) /\
  _serialize self key (PyInstance (T_class name) state)
    = serialize_as self key (PyInstance (T_class name) state)
        (encode_utf8 "8") /\
  forall token,
    _serialize self key (PyInstance (T_class name) state) = Ok token ->
    fst (fst token) = "8".
Proof.
  intros Hm Hself.
  destruct (created_registry _ _ _ _ _ _ _ _ _ Hm _ _ _ _ Hself)
    as [Ho Hi].
  assert (H8 : dict_get (Some (T_class name)) (SR._object_to_type_id self)
               = Some (encode_utf8 "8")).
  { rewrite Ho. cbn. now rewrite String.eqb_refl. }
  assert (Hs : _serialize self key (PyInstance (T_class name) state)
               = serialize_as self key (PyInstance (T_class name) state)
                   (encode_utf8 "8")).
  { rewrite serialize_resolved by reflexivity. cbn [type_of].
    destruct (mro_self (T_class name)) as [ancestors ->].
    cbn [for_mro]. now rewrite H8. }
  split; [exact H8|]. split; [|split; [exact Hs|]].
  - rewrite Hi. change (encode_utf8 "8") with (type_id_of_nat 8).
    now rewrite id_to_object_nth.
  - intros token Htoken. rewrite Hs in Htoken.
    now apply serialize_as_type_id in Htoken.
Qed.

(** C5, as the code has it.  Construction succeeds for every whitelist,
    colliding with the built-in entries or not.  Each position of the
    enumerated list resolves, under its text, to the entry at that
    position; each whitelisted class maps to the text of the last position
    that holds it. *)
Theorem construction_accepts_every_whitelist
    (whitelist : list pytype) (pepper : string) (otp_key : option string)
    (otp_interval max_objects max_object_length : Z)
    (default_serializer : option callback)
    (deserializer_map : option (dict pytype callback)) :
  exists m,
    SM.__init__ whitelist pepper otp_key otp_interval max_objects
      max_object_length default_serializer deserializer_map = Ok m /\
    (forall n k,
        nth_error (positions whitelist) n = Some k ->
        dict_get (type_id_of_nat n) (SM._type_id_to_object m) = Some k) /\
    (forall t,
        In t whitelist ->
        exists n,
          dict_get (Some t) (SM._object_to_type_id m)
            = Some (type_id_of_nat n) /\
          nth_error (positions whitelist) n = Some (Some t) /\
          forall n', nth_error (positions whitelist) n' = Some (Some t) ->
                     n' <= n).
Proof.
  destruct (SM.__init__ whitelist pepper otp_key otp_interval max_objects
              max_object_length default_serializer deserializer_map)
    as [m|e] eqn:Hm.
  2:{ unfold SM.__init__ in Hm.
      destruct (SM._map_objects_to_ids _); discriminate. }
  exists m. split; [reflexivity|].
  destruct (init_registry _ _ _ _ _ _ _ _ _ Hm) as [Ho Hi]. split.
  - intros n k Hn. now rewrite Hi, id_to_object_nth.
  - intros t Ht.
    destruct (dict_get (Some t) (SM._object_to_type_id m))
      as [type_id|] eqn:Hg.
    + rewrite Ho in Hg.
      destruct (object_to_id_some _ _ _ Hg) as (n & -> & Hn & Hmax).
      now exists n.
    + rewrite Ho in Hg. apply object_to_id_none in Hg.
      exfalso. apply Hg. unfold positions, SM.enumerated_types.
      do 8 right. apply in_map, in_or_app. now left.
Qed.

End Identifiers.

(** ** The properties on the concrete deployment *)

Section Concrete.
Import Scenario.

Let zero : spec_float := S754_zero false.

Lemma manager_built :
  SM.__init__ (RT := rt) [T_class "Point"] "p3pp3r" (Some "k")
    SM.default_otp_interval SM.default_max_objects
    SM.default_max_object_length None None = Ok the_manager.
Proof. vm_compute. reflexivity. Qed.

Lemma serializer_created :
  SM.create_serializer (RT := rt) the_manager "session-1"
    (Some (PyI 1000)) zero = Ok the_serializer.
Proof. vm_compute. reflexivity. Qed.

Lemma other_session_created :
  SM.create_serializer (RT := rt) the_manager "session-2"
    (Some (PyI 1000)) zero = Ok other_session.
Proof. vm_compute. reflexivity. Qed.

Lemma same_bucket_created :
  SM.create_serializer (RT := rt) the_manager "session-1"
    (Some (PyI 2000)) zero = Ok the_serializer.
Proof. vm_compute. reflexivity. Qed.

Ltac by_computation := vm_compute; reflexivity.
Ltac differ := let E := fresh in intros E; vm_compute in E; discriminate E.

(** The scenario of the specification: at [t = 1000] the token of
    [Point(x=1, y=2)] carries the identifier ["8"] and the payload of
    [{"x":1,"y":2}]; it deserializes to the point within the interval and
    is refused in the next one. *)
Example scenario_of_the_specification :
  serialize_at "session-1" 1000 [("pos", point 1 2)]
  = Ok [("pos",
         ("8", "eyJ4IjoxLCJ5IjoyfQ==",
          "e8fe4f2d164d1700e03ebfcf165c67281ad2e0520928549f9be06b81a6e0ee70"))]
  /\ Reference.urlsafe_b64decode "eyJ4IjoxLCJ5IjoyfQ==" = Ok point_json
  /\ Reference.orjson_loads point_json
     = Ok (PyDict [("x", PyInt 1); ("y", PyInt 2)])
  /\ round_trip "session-1" 1000 1000 [("pos", point 1 2)]
     = Ok [("pos", point 1 2)]
  /\ round_trip "session-1" 1000 (1000 + 14400) [("pos", point 1 2)]
     = Raise (Exn StateRecoveryFailureError
                (signature_mismatch (encode_utf8 "8"))).
Proof.
  split; [by_computation|]. split; [by_computation|].
  split; [by_computation|]. split; by_computation.
Qed.

(** Values that do come back: a UUID through [UUID(text)], a string through
    [str(text)], integers, booleans and lists as they are parsed, and
    [None]. *)
Example values_that_round_trip :
  round_trip "session-1" 1000 1000
    [("id", PyInstance T_UUID [("int", PyInt 0x12345678123456781234567812345678)]);
     ("name", PyStr "Ada");
     ("count", PyInt (-3));
     ("flags", PyList [PyBool true; PyBool false; PyNone]);
     ("nothing", PyNone)]
  = Ok [("id", PyInstance T_UUID [("int", PyInt 0x12345678123456781234567812345678)]);
        ("name", PyStr "Ada");
        ("count", PyInt (-3));
        ("flags", PyList [PyBool true; PyBool false; PyNone]);
        ("nothing", PyNone)].
Proof. by_computation. Qed.


(** A dataclass comes back through its constructor: the round trip of
    [Point(x=1, y=2)], written at 1000 and read at 2000, in the same
    interval. *)
Example round_trip_of_a_point :
  exists tokens,
    serialize_state_vars (RT := rt) the_serializer [("pos", point 1 2)]
    = Ok tokens /\
    deserialize_client_state (RT := rt) the_serializer tokens
    = Ok [("pos", point 1 2)].
Proof.
  apply (round_trip_once_reconstructed (RT := rt)
           [T_class "Point"] "p3pp3r" (Some "k")
           SM.default_otp_interval SM.default_max_objects
           SM.default_max_object_length None None
           the_manager "session-1" (Some (PyI 1000)) (Some (PyI 2000))
           zero zero the_serializer the_serializer
           "pos" (point 1 2) (T_class "Point")
           point_json).
  - exact manager_built.
  - exact serializer_created.
  - exact same_bucket_created.
  - reflexivity.
  - reflexivity.
  - vm_compute; reflexivity.
  - vm_compute; reflexivity.
  - vm_compute; discriminate.
  - vm_compute; reflexivity.
Qed.

(** C2, refuted as stated, three times.  A token whose identifier the
    registry does not know is refused although its signature is the digest
    of the six fields.  A token whose payload text is changed from [MQ==] to
    [MR==], which decode to the same byte, is still accepted.  And the token
    made for the name [n] under the salt [session-1] is accepted for the
    name [1n] under the salt [session-]: the six fields are concatenated
    without separators, so the two pairs sign the same bytes. *)
Lemma acceptance_is_not_the_signature_alone :
  (_deserialize (RT := rt) the_serializer "n" (encode_utf8 "99") "MQ=="
     (sha256_hexdigest (Runtime := rt)
        (encode_utf8 "99" ++ encode_utf8 "1" ++ SR._pepper the_serializer
           ++ SR._otp_code the_serializer ++ SR._salt the_serializer
           ++ encode_utf8 "n"))
   = Raise (Exn StateRecoveryFailureError
              (unknown_type_id (encode_utf8 "99"))))
  /\ serialize_at "session-1" 1000 [("n", PyInt 1)]
     = Ok [("n",
            ("2", "MQ==",
             "0efb84af64c56335cf6f65f95f330eb21c29bdd182b1b1c552c3d037d57fdccd"))]
  /\ deserialize_at "session-1" 1000
       [("n",
         ("2", "MR==",
          "0efb84af64c56335cf6f65f95f330eb21c29bdd182b1b1c552c3d037d57fdccd"))]
     = Ok [("n", PyInt 1)]
  /\ "MR==" <> "MQ=="
  /\ deserialize_at "session-" 1000
       [("1n",
         ("2", "MQ==",
          "0efb84af64c56335cf6f65f95f330eb21c29bdd182b1b1c552c3d037d57fdccd"))]
     = Ok [("1n", PyInt 1)].
Proof.
  split; [by_computation|]. split; [by_computation|].
  split; [by_computation|]. split; [discriminate|by_computation].
Qed.

(** C2: the token of the integer [1] under the name [n]; the same token
    presented to the serializer of another session is refused. *)
Lemma signature_decides_acceptance_witness :
  _deserialize (RT := rt) the_serializer "n" (encode_utf8 "2") "MQ=="
    "0efb84af64c56335cf6f65f95f330eb21c29bdd182b1b1c552c3d037d57fdccd"
  = _deserialize_object (RT := rt) the_serializer (Some T_int)
      (encode_utf8 "1")
  /\ _deserialize (RT := rt) other_session "n" (encode_utf8 "2") "MQ=="
       "0efb84af64c56335cf6f65f95f330eb21c29bdd182b1b1c552c3d037d57fdccd"
     = Raise (Exn StateRecoveryFailureError
                (signature_mismatch (encode_utf8 "2"))).
Proof.
  assert (H0 : encode_utf8 "2" <> encode_utf8 "0") by discriminate.
  assert (Hreg : dict_get (encode_utf8 "2")
                   (SR._type_id_to_object the_serializer)
                 = Some (Some T_int)) by reflexivity.
  assert (Hdec : urlsafe_b64decode (Runtime := rt) "MQ=="
                 = Ok (encode_utf8 "1")) by by_computation.
  destruct (signature_decides_acceptance (RT := rt) the_serializer "n"
              (encode_utf8 "2") "MQ=="
              "0efb84af64c56335cf6f65f95f330eb21c29bdd182b1b1c552c3d037d57fdccd"
              (Some T_int) (encode_utf8 "1") H0 Hreg Hdec)
    as (Haccept & _ & Hchange).
  split.
  - apply Haccept. by_computation.
  - apply (Hchange other_session "n" "MQ==" (encode_utf8 "1")).
    + by_computation.
    + reflexivity.
    + exact Hdec.
    + split; [reflexivity|]. right; right; left.
      repeat split; try reflexivity. differ.
    + differ.
Defined.

(** C3: an instance of [PinnedPoint], a subclass of the whitelisted
    [Point] that is not itself whitelisted, serializes under the identifier
    of [Point]; an instance of [Session], of which no ancestor is
    whitelisted, is refused. *)
Lemma nearest_registered_ancestor_witness :
  (exists type_id,
      dict_get (Some (T_class "Point"))
        (SR._object_to_type_id the_serializer) = Some type_id /\
      for_mro the_serializer
        (mro (Runtime := rt) (type_of (pinned_point 1 2))) = Some type_id /\
      _serialize (RT := rt) the_serializer "pin" (pinned_point 1 2)
      = serialize_as (RT := rt) the_serializer "pin" (pinned_point 1 2)
          type_id /\
      forall token,
        _serialize (RT := rt) the_serializer "pin" (pinned_point 1 2)
        = Ok token ->
        fst (fst token) = decode_utf8 type_id)
  /\ _serialize (RT := rt) the_serializer "who" (session "ada")
     = Raise (Exn ValueError (not_whitelisted (session "ada")))
  /\ failure_of (Exn ValueError (not_whitelisted (session "ada")))
     = Some WhitelistViolation.
Proof.
  assert (Hun : forall name,
             name <> "Point" -> ~ registered [T_class "Point"] (T_class name)).
  { intros name Hne Hr. unfold registered in Hr. cbn in Hr.
    repeat (destruct Hr as [Hr|Hr]; [try discriminate Hr|]); try contradiction.
    injection Hr as <-. now apply Hne. }
  assert (Hobj : ~ registered [T_class "Point"] T_object).
  { intros Hr. unfold registered in Hr. cbn in Hr.
    repeat (destruct Hr as [Hr|Hr]; [discriminate Hr|]). contradiction. }
  split.
  - apply (proj1 (nearest_registered_ancestor (RT := rt)
             [T_class "Point"] "p3pp3r" (Some "k")
             SM.default_otp_interval SM.default_max_objects
             SM.default_max_object_length None None
             the_manager "session-1" (Some (PyI 1000)) zero the_serializer
             "pin" (pinned_point 1 2)
             manager_built serializer_created eq_refl)
           [T_class "PinnedPoint"] (T_class "Point") [T_object]).
    + reflexivity.
    + intros u [<-|[]]. apply Hun. discriminate.
    + unfold registered. cbn. tauto.
  - apply (proj2 (nearest_registered_ancestor (RT := rt)
             [T_class "Point"] "p3pp3r" (Some "k")
             SM.default_otp_interval SM.default_max_objects
             SM.default_max_object_length None None
             the_manager "session-1" (Some (PyI 1000)) zero the_serializer
             "who" (session "ada")
             manager_built serializer_created eq_refl)).
    intros u [<-|[<-|[]]]; [apply Hun; discriminate|exact Hobj].
Defined.

(** C4: the manager is built with [max_objects = 256]; a batch of 257
    integers serializes to 257 tokens.  The bound is stored by the manager
    and never compared with anything. *)
Theorem a_batch_beyond_max_objects_is_serialized :
  SM._max_objects the_manager = 256%Z /\
  List.length (batch 257) = 257 /\
  exists tokens,
    serialize_state_vars (RT := rt) the_serializer (batch 257) = Ok tokens /\
    List.length tokens = 257.
Proof.
  split; [reflexivity|]. split; [reflexivity|].
  assert (H : match serialize_state_vars (RT := rt) the_serializer
                      (batch 257) with
              | Ok tokens => Some (List.length tokens)
              | Raise _ => None
              end = Some 257) by by_computation.
  destruct (serialize_state_vars (RT := rt) the_serializer (batch 257))
    as [tokens|e]; [|discriminate H].
  exists tokens. split; [reflexivity|]. now injection H.
Qed.

(** C5, refuted as stated: a whitelist that names [str], one of the
    built-in entries, is accepted.  [str] is then serialized under ["8"],
    and both ["1"] and ["8"] resolve to it. *)
Lemma a_colliding_whitelist_is_accepted :
  exists m,
    SM.__init__ (RT := rt) [T_str; T_class "Point"] "p3pp3r" (Some "k")
      SM.default_otp_interval SM.default_max_objects
      SM.default_max_object_length None None = Ok m /\
    dict_get (Some T_str) (SM._object_to_type_id m)
      = Some (encode_utf8 "8") /\
    dict_get (encode_utf8 "1") (SM._type_id_to_object m)
      = Some (Some T_str) /\
    dict_get (encode_utf8 "8") (SM._type_id_to_object m)
      = Some (Some T_str).
Proof.
  eexists. split; [by_computation|]. split; [by_computation|].
  split; by_computation.
Qed.

(** C5: the same whitelist, through the theorem. *)
Lemma construction_accepts_every_whitelist_witness :
  exists m,
    SM.__init__ (RT := rt) [T_str; T_class "Point"] "p3pp3r" (Some "k")
      SM.default_otp_interval SM.default_max_objects
      SM.default_max_object_length None None = Ok m /\
    (forall n k,
        nth_error (positions [T_str; T_class "Point"]) n = Some k ->
        dict_get (type_id_of_nat n) (SM._type_id_to_object m) = Some k) /\
    (forall t,
        In t [T_str; T_class "Point"] ->
        exists n,
          dict_get (Some t) (SM._object_to_type_id m)
            = Some (type_id_of_nat n) /\
          nth_error (positions [T_str; T_class "Point"]) n = Some (Some t) /\
          forall n',
            nth_error (positions [T_str; T_class "Point"]) n'
              = Some (Some t) -> n' <= n).
Proof.
  exact (construction_accepts_every_whitelist (RT := rt)
           [T_str; T_class "Point"] "p3pp3r" (Some "k")
           SM.default_otp_interval SM.default_max_objects
           SM.default_max_object_length None None).
Defined.

(** C6, refuted as stated: the token the serializer itself produces for
    [datetime(2024, 2, 29, 12, 30)] fails to deserialize with the
    [TypeError] of the constructor of [datetime], which is not a
    [StateRecoveryFailureError]. *)
Lemma a_constructor_failure_is_a_bare_TypeError :
  exists msg,
    round_trip "session-1" 1000 1000 [("when", leap_noon)]
    = Raise (Exn TypeError msg)
    /\ exn_cls (Exn TypeError msg) <> StateRecoveryFailureError
    /\ failure_of (Exn TypeError msg) = None
    /\ registered [T_class "Point"] T_datetime.
Proof.
  eexists. split; [by_computation|]. split; [discriminate|].
  split; [reflexivity|]. unfold registered. cbn. tauto.
Qed.

(** C6: the token of that [datetime], through the theorem. *)
Lemma constructor_failure_propagates_unchanged_witness :
  _deserialize (RT := rt) the_serializer "when" (encode_utf8 "10")
    "IjIwMjQtMDItMjlUMTI6MzA6MDAi"
    "990200f277bd700df7a055272c0cef2958622d36fee998890fde4f8f97ec6df3"
  = Raise (Exn TypeError
             (Text "'str' object cannot be interpreted as an integer")).
Proof.
  refine (proj1 (constructor_failure_propagates_unchanged (RT := rt)
            the_serializer "when" (encode_utf8 "10")
            "IjIwMjQtMDItMjlUMTI6MzA6MDAi"
            "990200f277bd700df7a055272c0cef2958622d36fee998890fde4f8f97ec6df3"
            T_datetime
            ([x22] ++ encode_utf8 "2024-02-29T12:30:00" ++ [x22])
            (PyStr "2024-02-29T12:30:00")
            (Exn TypeError
               (Text "'str' object cannot be interpreted as an integer"))
            _ _ _ _ _ _ _)).
  - discriminate.
  - reflexivity.
  - by_computation.
  - by_computation.
  - by_computation.
  - reflexivity.
  - left. split; [now eexists|by_computation].
Defined.

(** C7, refuted as stated: in the scenario of the specification the
    identifier of the token of a [Point] is ["8"], not ["9"]. *)
Lemma the_identifier_of_Point_is_not_9 :
  exists payload signature,
    serialize_at "session-1" 1000 [("pos", point 1 2)]
    = Ok [("pos", ("8", payload, signature))]
    /\ "8" <> "9".
Proof.
  do 2 eexists. split; [by_computation|discriminate].
Qed.

(** C7: the whitelist of the scenario, through the theorem. *)
Lemma first_domain_type_has_identifier_8_witness :
  dict_get (Some (T_class "Point")) (SR._object_to_type_id the_serializer)
    = Some (encode_utf8 "8") /\
  dict_get (encode_utf8 "8") (SR._type_id_to_object the_serializer)
    = Some (Some (T_class "Point")) /\
  _serialize (RT := rt) the_serializer "pos" (point 1 2)
    = serialize_as (RT := rt) the_serializer "pos" (point 1 2)
        (encode_utf8 "8") /\
  forall token,
    _serialize (RT := rt) the_serializer "pos" (point 1 2) = Ok token ->
    fst (fst token) = "8".
Proof.
  exact (first_domain_type_has_identifier_8 (RT := rt)
           "Point" "p3pp3r" (Some "k")
           SM.default_otp_interval SM.default_max_objects
           SM.default_max_object_length None None
           the_manager "session-1" (Some (PyI 1000)) zero the_serializer
           "pos" [("x", PyInt 1); ("y", PyInt 2)]
           manager_built serializer_created).
Defined.

(** C9: a batch of two tokens, the second with a signature that is not
    its own: nothing is returned, although the first token is valid. *)
Lemma deserialization_is_all_or_nothing_witness :
  (exists before failing after e',
      [("n", ("2", "MQ==",
              "0efb84af64c56335cf6f65f95f330eb21c29bdd182b1b1c552c3d037d57fdccd"));
       ("pos", ("8", "eyJ4IjoxLCJ5IjoyfQ==",
                "0efb84af64c56335cf6f65f95f330eb21c29bdd182b1b1c552c3d037d57fdccd"))]
      = before ++ failing :: after /\
      (forall ok, In ok before ->
                  exists value, token_result (RT := rt) the_serializer ok
                                = Ok value) /\
      token_result (RT := rt) the_serializer failing = Raise e' /\
      deserialize_client_state (RT := rt) the_serializer
        [("n", ("2", "MQ==",
                "0efb84af64c56335cf6f65f95f330eb21c29bdd182b1b1c552c3d037d57fdccd"));
         ("pos", ("8", "eyJ4IjoxLCJ5IjoyfQ==",
                  "0efb84af64c56335cf6f65f95f330eb21c29bdd182b1b1c552c3d037d57fdccd"))]
      = Raise e') /\
  (forall result,
      deserialize_client_state (RT := rt) the_serializer
        [("n", ("2", "MQ==",
                "0efb84af64c56335cf6f65f95f330eb21c29bdd182b1b1c552c3d037d57fdccd"));
         ("pos", ("8", "eyJ4IjoxLCJ5IjoyfQ==",
                  "0efb84af64c56335cf6f65f95f330eb21c29bdd182b1b1c552c3d037d57fdccd"))]
      <> Ok result).
Proof.
  apply (deserialization_is_all_or_nothing (RT := rt) the_serializer _
           "pos" "8" "eyJ4IjoxLCJ5IjoyfQ=="
           "0efb84af64c56335cf6f65f95f330eb21c29bdd182b1b1c552c3d037d57fdccd"
           (Exn StateRecoveryFailureError
              (signature_mismatch (encode_utf8 "8")))).
  - right. left. reflexivity.
  - by_computation.
Defined.

(** The first token of that batch is valid on its own. *)
Example the_valid_token_alone :
  deserialize_at "session-1" 1000
    [("n", ("2", "MQ==",
            "0efb84af64c56335cf6f65f95f330eb21c29bdd182b1b1c552c3d037d57fdccd"))]
  = Ok [("n", PyInt 1)].
Proof. by_computation. Qed.

(** C10: at the clock reading 50000.0, a [target_time] of [0] gives the
    code of 50000.0 (interval 3), not that of 0 (interval 0); a
    [target_time] of 1000 gives the code of 1000. *)
Lemma zero_target_time_falls_back_to_the_clock_witness :
  SM.create_serializer (RT := rt) the_manager "session-1"
    (Some (PyI 1000)) (S754_finite false 3125 4)
  = serializer_with_code the_manager "session-1"
      (totp_at (Runtime := rt) (SM._totp the_manager) (PyI 1000))
  /\ SM.create_serializer (RT := rt) the_manager "session-1"
       (Some (PyI 0)) (S754_finite false 3125 4)
     = serializer_with_code the_manager "session-1"
         (totp_at (Runtime := rt) (SM._totp the_manager)
            (PyF (S754_finite false 3125 4))).
Proof.
  destruct (zero_target_time_falls_back_to_the_clock (RT := rt)
              the_manager "session-1" (S754_finite false 3125 4))
    as (_ & Hzero & _ & Hother).
  split; [|exact Hzero].
  apply Hother; [discriminate|intros sign; discriminate].
Defined.

(** The codes of the two branches of C10 differ on this deployment. *)
Example zero_target_time_changes_the_code :
  totp_at (Runtime := rt) (SM._totp the_manager)
    (PyF (S754_finite false 3125 4)) = Ok "093276"
  /\ totp_at (Runtime := rt) (SM._totp the_manager) (PyI 0) = Ok "153980".
Proof. split; by_computation. Qed.

End Concrete.

(** * Further properties of [state_recovery.py] *)

(** ** The bound on the encoded length *)

Section SizeGuard.
Context {RT : Runtime}.

(** X1.  For a value other than [None] whose type resolves to an identifier
    and which orjson encodes: the token is returned when the encoding has at
    most [max_object_length] bytes, the bound included, and the too-long
    [ValueError] is raised when it has more.  The length compared is that of
    the encoding, before it is put in base64. *)
Theorem size_guard_is_inclusive
    (self : SR.t) (key : string) (obj : pyobj) (type_id encoded : bytes) :
  is_None obj = false ->
  for_mro self (mro (type_of obj)) = Some type_id ->
  _serialize_object self obj = Ok encoded ->
  ((len encoded <= SR._max_object_length self)%Z ->
   _serialize self key obj
   = Ok (decode_utf8 type_id, decode_utf8 (urlsafe_b64encode encoded),
         _sign_serialization self key type_id encoded)) /\
  ((SR._max_object_length self < len encoded)%Z ->
   _serialize self key obj
   = Raise (Exn ValueError (too_long obj (len encoded))) /\
   failure_of (Exn ValueError (too_long obj (len encoded)))
   = Some PayloadTooLarge).
Proof.
  intros Hobj Hfor Henc.
  assert (Hs : _serialize self key obj
               = if (len encoded >? SR._max_object_length self)%Z
                 then Raise (Exn ValueError (too_long obj (len encoded)))
                 else Ok (decode_utf8 type_id,
                          decode_utf8 (urlsafe_b64encode encoded),
                          _sign_serialization self key type_id encoded)).
  { rewrite serialize_resolved, Hfor by assumption.
    unfold serialize_as. now rewrite Henc. }
  split; intros Hlen; rewrite Hs;
    destruct (Z.gtb_spec (len encoded) (SR._max_object_length self));
    try lia; auto.
Qed.

End SizeGuard.

(** ** The identifiers a created serializer knows *)

Section KnownIdentifiers.
Context {RT : Runtime}.

Lemma positions_length (whitelist : list pytype) :
  List.length (positions whitelist) = 12 + List.length whitelist.
Proof.
  unfold positions, SM.enumerated_types, appended_types. cbn [List.length].
  rewrite length_map, length_app. cbn [List.length]. lia.
Qed.

Lemma positions_nth (whitelist : list pytype) (n : nat) (k : regkey) :
  nth_error (positions whitelist) (S n) = Some k -> exists t, k = Some t.
Proof.
  unfold positions, SM.enumerated_types. cbn [nth_error]. intros Hn.
  apply nth_error_In in Hn.
  repeat (destruct Hn as [<-|Hn]; [eauto|]).
  apply in_map_iff in Hn as (t & <- & _). eauto.
Qed.

Lemma id_to_object_none (l : list regkey) (type_id : bytes) :
  (forall n, n < List.length l -> type_id <> type_id_of_nat n) ->
  dict_get type_id (snd (maps_of l)) = None.
Proof.
  intros Hno. destruct (dict_get type_id (snd (maps_of l))) as [k|] eqn:Hg;
    [|reflexivity].
  destruct (id_to_object_some _ _ _ Hg) as (n & -> & Hn).
  exfalso. apply (Hno n); [|reflexivity].
  apply nth_error_Some. congruence.
Qed.

(** X2.  For a serializer created by a manager built from [whitelist]: the
    identifiers it knows are exactly the decimal texts of the positions
    0 to 11 + len(whitelist).  A token with any other identifier is refused as
    an unknown type whatever its payload and signature are, the payload
    being neither decoded nor compared; the text of a position from 1 on
    resolves to a class, and the token goes on to the decoding of its
    payload and the comparison of its signature. *)
Theorem known_identifiers_are_the_texts_of_positions
    (whitelist : list pytype) (pepper : string) (otp_key : option string)
    (otp_interval max_objects max_object_length : Z)
    (default_serializer : option callback)
    (deserializer_map : option (dict pytype callback))
    (m : SM.t) (salt : string) (target_time : option pynum)
    (now : spec_float) (self : SR.t)
    (key data signature : string) :
  SM.__init__ whitelist pepper otp_key otp_interval max_objects
    max_object_length default_serializer deserializer_map = Ok m ->
  SM.create_serializer m salt target_time now = Ok self ->
  (forall type_id,
      (forall n, n < 12 + List.length whitelist ->
                 type_id <> type_id_of_nat n) ->
      _deserialize self key type_id data signature
      = Raise (Exn StateRecoveryFailureError (unknown_type_id type_id)) /\
      failure_of (Exn StateRecoveryFailureError (unknown_type_id type_id))
      = Some UnknownType) /\
  (forall n,
      0 < n < 12 + List.length whitelist ->
      exists t,
        nth_error (positions whitelist) n = Some (Some t) /\
        _deserialize self key (type_id_of_nat n) data signature
        = (payload <- urlsafe_b64decode data ;;
           if eqb (sha256_hexdigest
                     (signed_bytes self key (type_id_of_nat n) payload))
                  signature
           then _deserialize_object self (Some t) payload
           else Raise (Exn StateRecoveryFailureError
                         (signature_mismatch (type_id_of_nat n))))).
Proof.
  intros Hm Hself.
  destruct (created_registry _ _ _ _ _ _ _ _ _ Hm _ _ _ _ Hself) as [_ Hi].
  split.
  - intros type_id Hno. split; [|reflexivity].
    unfold _deserialize.
    rewrite eqb_neq
      by (change (encode_utf8 "0") with (type_id_of_nat 0); apply Hno; lia).
    rewrite Hi, id_to_object_none; [reflexivity|].
    intros n Hn. apply Hno. now rewrite <- positions_length.
  - intros n [Hpos Hlt].
    destruct (nth_error (positions whitelist) n) as [k|] eqn:Hn.
    2:{ apply nth_error_None in Hn. rewrite positions_length in Hn. lia. }
    destruct n as [|n]; [lia|].
    destruct (positions_nth _ _ _ Hn) as [t ->].
    exists t. split; [reflexivity|].
    unfold _deserialize.
    rewrite eqb_neq
      by (change (encode_utf8 "0") with (type_id_of_nat 0);
          intros E; apply type_id_of_nat_inj in E; discriminate).
    rewrite Hi, id_to_object_nth, Hn.
    destruct (urlsafe_b64decode data) as [payload|e]; [|reflexivity].
    cbn [bind]. rewrite sign_serialization_eq.
    now destruct (eqb _ signature).
Qed.

End KnownIdentifiers.

(** ** The identifier of each registered type *)

Section AssignedIdentifiers.
Context {RT : Runtime}.

(** The identifier of a type is the text of the one position that holds it
    and after which it does not occur. *)
Lemma last_position (l : list regkey) (k : regkey) (n : nat) :
  nth_error l n = Some k ->
  (forall n', n < n' -> nth_error l n' <> Some k) ->
  dict_get k (fst (maps_of l)) = Some (type_id_of_nat n).
Proof.
  intros Hn Hlast.
  destruct (dict_get k (fst (maps_of l))) as [type_id|] eqn:Hg.
  - destruct (object_to_id_some _ _ _ Hg) as (n' & -> & Hn' & Hmax).
    specialize (Hmax _ Hn).
    destruct (Nat.eq_dec n n') as [->|Hne]; [reflexivity|].
    exfalso. apply (Hlast n'); [lia|assumption].
  - apply object_to_id_none in Hg. exfalso. apply Hg.
    eapply nth_error_In; eauto.
Qed.

Lemma positions_whitelist (whitelist : list pytype) (n : nat) :
  nth_error (positions whitelist) (8 + n)
  = option_map Some (nth_error (whitelist ++ appended_types) n).
Proof.
  unfold positions, SM.enumerated_types. cbn [Nat.add nth_error].
  apply nth_error_map.
Qed.

Lemma NoDup_map_Some {A} (l : list A) : NoDup l -> NoDup (map Some l).
Proof.
  induction 1 as [|x l Hx _ IH]; cbn; constructor; [|assumption].
  intros Hin. apply in_map_iff in Hin as (y & [= ->] & Hy). contradiction.
Qed.

(** The types every manager registers before the whitelist. *)
Definition leading_types : list pytype :=
  [T_str; T_int; T_float; T_bool; T_list; T_tuple; T_UUID].

Lemma positions_leading (whitelist : list pytype) :
  positions whitelist
  = None :: map Some (leading_types ++ whitelist ++ appended_types).
Proof. reflexivity. Qed.

(** X3.  In a manager built from [whitelist], whatever the whitelist holds:
    the types registered before it keep the identifiers ["1"] to ["7"]
    unless the whitelist names them again; the entry at index [i] of the
    whitelist has the identifier [str(8 + i)] unless the same type stands
    later in the whitelist or is one of the four types added after it; and
    [Decimal], [datetime], [date] and [time] have the identifiers
    [str(8 + n)] to [str(11 + n)], [n] being the length of the whitelist. *)
Theorem identifiers_follow_the_positions
    (whitelist : list pytype) (pepper : string) (otp_key : option string)
    (otp_interval max_objects max_object_length : Z)
    (default_serializer : option callback)
    (deserializer_map : option (dict pytype callback))
    (m : SM.t) :
  SM.__init__ whitelist pepper otp_key otp_interval max_objects
    max_object_length default_serializer deserializer_map = Ok m ->
  (forall j t,
      nth_error leading_types j = Some t ->
      ~ In t whitelist ->
      dict_get (Some t) (SM._object_to_type_id m)
      = Some (type_id_of_nat (1 + j))) /\
  (forall i t,
      nth_error whitelist i = Some t ->
      ~ In t (skipn (1 + i) whitelist) ->
      ~ In t appended_types ->
      dict_get (Some t) (SM._object_to_type_id m)
      = Some (type_id_of_nat (8 + i))) /\
  (forall j t,
      nth_error appended_types j = Some t ->
      dict_get (Some t) (SM._object_to_type_id m)
      = Some (type_id_of_nat (8 + List.length whitelist + j))).
Proof.
  intros Hm.
  destruct (init_registry _ _ _ _ _ _ _ _ _ Hm) as [-> _].
  split; [|split].
  - intros j t Hj Hnot. apply last_position.
    + rewrite positions_leading. cbn [Nat.add nth_error].
      rewrite nth_error_map, nth_error_app1, Hj; [reflexivity|].
      apply nth_error_Some. congruence.
    + intros n' Hlt Hn'. rewrite positions_leading in Hn'.
      destruct n' as [|n']; [lia|]. cbn [nth_error] in Hn'.
      rewrite nth_error_map in Hn'.
      destruct (nth_error _ n') as [u|] eqn:Hu; [|discriminate].
      injection Hn' as ->.
      assert (Hj' : j < 7).
      { change 7 with (List.length leading_types).
        apply nth_error_Some. congruence. }
      destruct (Nat.lt_ge_cases n' 7) as [Hlt7|Hge7].
      * rewrite nth_error_app1 in Hu by exact Hlt7.
        do 7 (destruct j as [|j]; [
          injection Hj as <-;
          do 7 (destruct n' as [|n']; [try lia; discriminate Hu|]); lia|]).
        lia.
      * rewrite nth_error_app2 in Hu by exact Hge7.
        apply nth_error_In in Hu. apply in_app_or in Hu as [Hu|Hu];
          [contradiction|].
        do 7 (destruct j as [|j]; [
          injection Hj as <-;
          repeat (destruct Hu as [Hu|Hu]; [discriminate Hu|]);
          contradiction|]).
        lia.
  - intros i t Hi Hlater Happ. apply last_position.
    + rewrite positions_whitelist, nth_error_app1, Hi; [reflexivity|].
      apply nth_error_Some. congruence.
    + intros n' Hlt Hn'.
      replace n' with (8 + (n' - 8)) in Hn' by lia.
      rewrite positions_whitelist in Hn'.
      destruct (nth_error _ (n' - 8)) as [u|] eqn:Hu; [|discriminate].
      injection Hn' as ->.
      destruct (Nat.lt_ge_cases (n' - 8) (List.length whitelist))
        as [Hin|Hout].
      * rewrite nth_error_app1 in Hu by exact Hin.
        apply Hlater.
        replace (n' - 8) with ((1 + i) + (n' - 8 - (1 + i))) in Hu by lia.
        rewrite <- nth_error_skipn in Hu.
        eapply nth_error_In; eauto.
      * rewrite nth_error_app2 in Hu by exact Hout.
        apply Happ. eapply nth_error_In; eauto.
  - intros j t Hj.
    assert (Hj' : j < 4).
    { change 4 with (List.length appended_types).
      apply nth_error_Some. congruence. }
    apply last_position.
    + rewrite <- Nat.add_assoc, positions_whitelist, nth_error_app2 by lia.
      replace (List.length whitelist + j - List.length whitelist) with j
        by lia.
      now rewrite Hj.
    + intros n' Hlt Hn'.
      replace n' with (8 + (n' - 8)) in Hn' by lia.
      rewrite positions_whitelist, nth_error_app2 in Hn' by lia.
      destruct (nth_error _ (n' - 8 - List.length whitelist)) as [u|] eqn:Hu;
        [|discriminate].
      injection Hn' as ->.
      remember (n' - 8 - List.length whitelist) as d eqn:Hd.
      assert (j < d) by lia.
      do 4 (destruct j as [|j]; [
        injection Hj as <-;
        do 4 (destruct d as [|d]; [try lia; discriminate Hu|]);
        destruct d; discriminate Hu|]).
      lia.
Qed.

(** X4.  In a manager built from [whitelist]: two different types never have
    the same identifier, and a type found under an identifier is a type
    that was enumerated.  When no type stands twice among the positions
    (the whitelist repeats none, and names none of the types the manager
    registers itself), the two dictionaries are inverse to one another:
    the identifier of a type resolves to that type, and the type under an
    identifier has that identifier. *)
Theorem registry_dictionaries_are_inverse
    (whitelist : list pytype) (pepper : string) (otp_key : option string)
    (otp_interval max_objects max_object_length : Z)
    (default_serializer : option callback)
    (deserializer_map : option (dict pytype callback))
    (m : SM.t) :
  SM.__init__ whitelist pepper otp_key otp_interval max_objects
    max_object_length default_serializer deserializer_map = Ok m ->
  (forall k k' type_id,
      dict_get k (SM._object_to_type_id m) = Some type_id ->
      dict_get k' (SM._object_to_type_id m) = Some type_id ->
      k = k') /\
  (NoDup (whitelist ++ appended_types) ->
   (forall t, In t leading_types -> ~ In t whitelist) ->
   forall k type_id,
     dict_get k (SM._object_to_type_id m) = Some type_id <->
     dict_get type_id (SM._type_id_to_object m) = Some k).
Proof.
  intros Hm.
  destruct (init_registry _ _ _ _ _ _ _ _ _ Hm) as [-> ->].
  split.
  - intros k k' type_id Hk Hk'.
    apply registry_consistent in Hk, Hk'. congruence.
  - intros Hnodup Hlead k type_id. split; [apply registry_consistent|].
    intros Hg. destruct (id_to_object_some _ _ _ Hg) as (n & -> & Hn).
    apply last_position; [assumption|].
    intros n' Hlt Hn'.
    assert (Hall : NoDup (positions whitelist)).
    { rewrite positions_leading. constructor.
      - intros Hin. apply in_map_iff in Hin as (? & [=] & _).
      - apply NoDup_map_Some.
        apply NoDup_app; [repeat constructor; cbn; intuition discriminate
                         |assumption|].
        intros t Ht Hin. apply in_app_or in Hin as [Hin|Hin].
        + now apply (Hlead t).
        + cbn in Ht, Hin. intuition (subst; discriminate). }
    assert (n = n'); [|lia].
    apply (proj1 (NoDup_nth_error _) Hall).
    + apply nth_error_Some. congruence.
    + congruence.
Qed.

End AssignedIdentifiers.

(** ** Tokens a serializer has issued *)

Section IssuedTokens.
Context {RT : Runtime}.

(** What a token of a value other than [None] is made of. *)
Lemma issued_token (self : SR.t) key value token :
  is_None value = false ->
  _serialize self key value = Ok token ->
  exists t type_id encoded,
    In t (mro (type_of value)) /\
    dict_get (Some t) (SR._object_to_type_id self) = Some type_id /\
    _serialize_object self value = Ok encoded /\
    (len encoded <= SR._max_object_length self)%Z /\
    token = (decode_utf8 type_id, decode_utf8 (urlsafe_b64encode encoded),
             _sign_serialization self key type_id encoded).
Proof.
  intros Hval Hser. rewrite serialize_resolved in Hser by assumption.
  destruct (for_mro self (mro (type_of value))) as [type_id|] eqn:Hfor;
    [|discriminate].
  destruct (for_mro_some _ _ _ Hfor) as (t & Hin & Hid).
  unfold serialize_as in Hser.
  destruct (_serialize_object self value) as [encoded|] eqn:Henc;
    [|discriminate].
  cbn [bind] in Hser.
  destruct (Z.gtb_spec (len encoded) (SR._max_object_length self));
    [discriminate|].
  injection Hser as <-. exists t, type_id, encoded. now repeat split.
Qed.

(** A token of the writer reaches the reconstruction step of a reader whose
    manager has the same whitelist and pepper, the salt and the code being
    the same. *)
Lemma issued_token_checked
    (whitelist : list pytype) (pepper : string)
    (otp_key otp_key' : option string)
    (otp_interval otp_interval' : Z)
    (max_objects max_objects' max_object_length max_object_length' : Z)
    (default_serializer default_serializer' : option callback)
    (deserializer_map deserializer_map' : option (dict pytype callback))
    (m m' : SM.t) (salt : string) (sent received : option pynum)
    (now now' : spec_float) (writer reader : SR.t)
    (key : string) (value : pyobj) (token : string * string * string) :
  SM.__init__ whitelist pepper otp_key otp_interval max_objects
    max_object_length default_serializer deserializer_map = Ok m ->
  SM.__init__ whitelist pepper otp_key' otp_interval' max_objects'
    max_object_length' default_serializer' deserializer_map' = Ok m' ->
  SM.create_serializer m salt sent now = Ok writer ->
  SM.create_serializer m' salt received now' = Ok reader ->
  SR._otp_code reader = SR._otp_code writer ->
  is_None value = false ->
  _serialize writer key value = Ok token ->
  exists t type_id encoded,
    token = (decode_utf8 type_id, decode_utf8 (urlsafe_b64encode encoded),
             _sign_serialization writer key type_id encoded) /\
    type_id <> encode_utf8 "0" /\
    In t (mro (type_of value)) /\ registered whitelist t /\
    _serialize_object writer value = Ok encoded /\
    (len encoded <= max_object_length)%Z /\
    _deserialize reader key type_id (decode_utf8 (urlsafe_b64encode encoded))
      (_sign_serialization writer key type_id encoded)
    = _deserialize_object reader (Some t) encoded.
Proof.
  intros Hm Hm' Hw Hr Hcode Hval Hser.
  destruct (issued_token _ _ _ _ Hval Hser)
    as (t & tid & encoded & Hin & Hid & Henc & Hlen & ->).
  destruct (created_resolves _ _ _ _ _ _ _ _ _ Hm _ _ _ _ Hw _ _ Hid)
    as (Hback & Hnot0 & _).
  destruct (created_registry _ _ _ _ _ _ _ _ _ Hm _ _ _ _ Hw) as [How Hiw].
  destruct (created_registry _ _ _ _ _ _ _ _ _ Hm' _ _ _ _ Hr) as [_ Hir].
  destruct (created_secrets _ _ _ _ _ _ _ _ _ Hm _ _ _ _ Hw)
    as (Hpw & Hsw & Hmw & _).
  destruct (created_secrets _ _ _ _ _ _ _ _ _ Hm' _ _ _ _ Hr)
    as (Hpr & Hsr & _).
  exists t, tid, encoded.
  split; [reflexivity|]. split; [assumption|]. split; [assumption|].
  split.
  { unfold registered. rewrite How in Hid.
    destruct (object_to_id_some _ _ _ Hid) as (n & _ & Hn & _).
    eapply nth_error_In; eauto. }
  split; [assumption|]. split; [now rewrite <- Hmw|].
  rewrite (deserialize_checked reader key tid _ _ (Some t) encoded).
  - rewrite sign_serialization_eq.
    replace (signed_bytes reader key tid encoded)
      with (signed_bytes writer key tid encoded)
      by (unfold signed_bytes; congruence).
    now rewrite eqb_refl.
  - assumption.
  - rewrite Hir, <- Hiw. exact Hback.
  - apply urlsafe_b64_roundtrip.
Qed.

(** X5.  Writer and reader are created by the same manager with the same
    salt and hold the same code.  Every token the writer returns for a
    value other than [None] has an identifier other than ["0"], that of a
    registered class [t] of the MRO of the value's type, and passes the
    checks of the reader: it is neither an unknown type nor a signature
    mismatch, and what deserialization returns is what the reconstruction
    step returns for [t] on the bytes orjson produced. *)
Theorem issued_tokens_pass_the_checks
    (whitelist : list pytype) (pepper : string) (otp_key : option string)
    (otp_interval max_objects max_object_length : Z)
    (default_serializer : option callback)
    (deserializer_map : option (dict pytype callback))
    (m : SM.t) (salt : string) (sent received : option pynum)
    (now now' : spec_float) (writer reader : SR.t)
    (key : string) (value : pyobj) (type_id payload signature : string) :
  SM.__init__ whitelist pepper otp_key otp_interval max_objects
    max_object_length default_serializer deserializer_map = Ok m ->
  SM.create_serializer m salt sent now = Ok writer ->
  SM.create_serializer m salt received now' = Ok reader ->
  SR._otp_code reader = SR._otp_code writer ->
  is_None value = false ->
  _serialize writer key value = Ok (type_id, payload, signature) ->
  type_id <> "0" /\
  exists t encoded,
    In t (mro (type_of value)) /\ registered whitelist t /\
    _serialize_object writer value = Ok encoded /\
    (len encoded <= max_object_length)%Z /\
    _deserialize reader key (encode_utf8 type_id) payload signature
    = _deserialize_object reader (Some t) encoded.
Proof.
  intros Hm Hw Hr Hcode Hval Hser.
  destruct (issued_token_checked _ _ _ _ _ _ _ _ _ _ _ _ _ _ _ _ _ _ _ _ _
              _ _ _ _ _ Hm Hm Hw Hr Hcode Hval Hser)
    as (t & tid & encoded & [= -> -> ->] & Hnot0 & Hin & Hreg & Henc & Hlen
        & Hcheck).
  split.
  { intros E. apply Hnot0. rewrite <- E. now rewrite encode_decode_utf8. }
  exists t, encoded. rewrite encode_decode_utf8. now repeat split.
Qed.

(** X6.  Writer and reader are created by the same manager.  A token the
    writer returned for a value other than [None] under the name [key] is
    presented to the reader under the name [key'], and exactly one of the
    name, the salt and the code differs between the two.  Then the bytes
    the reader signs differ from those the writer signed, and the reader
    refuses the token as a signature mismatch unless SHA-256 gives both
    byte strings the same digest. *)
Theorem issued_tokens_are_bound_to_name_salt_and_code
    (whitelist : list pytype) (pepper : string) (otp_key : option string)
    (otp_interval max_objects max_object_length : Z)
    (default_serializer : option callback)
    (deserializer_map : option (dict pytype callback))
    (m : SM.t) (salt salt' : string) (sent received : option pynum)
    (now now' : spec_float) (writer reader : SR.t)
    (key key' : string) (value : pyobj) (type_id payload signature : string) :
  SM.__init__ whitelist pepper otp_key otp_interval max_objects
    max_object_length default_serializer deserializer_map = Ok m ->
  SM.create_serializer m salt sent now = Ok writer ->
  SM.create_serializer m salt' received now' = Ok reader ->
  is_None value = false ->
  _serialize writer key value = Ok (type_id, payload, signature) ->
  (key' <> key /\ salt' = salt /\ SR._otp_code reader = SR._otp_code writer)
  \/ (key' = key /\ salt' <> salt /\
      SR._otp_code reader = SR._otp_code writer)
  \/ (key' = key /\ salt' = salt /\
      SR._otp_code reader <> SR._otp_code writer) ->
  exists encoded,
    _serialize_object writer value = Ok encoded /\
    signature
    = sha256_hexdigest (signed_bytes writer key (encode_utf8 type_id) encoded)
    /\
    signed_bytes reader key' (encode_utf8 type_id) encoded
    <> signed_bytes writer key (encode_utf8 type_id) encoded /\
    (sha256_hexdigest (signed_bytes reader key' (encode_utf8 type_id) encoded)
     <> signature ->
     _deserialize reader key' (encode_utf8 type_id) payload signature
     = Raise (Exn StateRecoveryFailureError
                (signature_mismatch (encode_utf8 type_id))) /\
     failure_of (Exn StateRecoveryFailureError
                   (signature_mismatch (encode_utf8 type_id)))
     = Some SignatureMismatch).
Proof.
  intros Hm Hw Hr Hval Hser Hchanged.
  destruct (issued_token _ _ _ _ Hval Hser)
    as (t & tid & encoded & Hin & Hid & Henc & Hlen & [= -> -> ->]).
  destruct (created_resolves _ _ _ _ _ _ _ _ _ Hm _ _ _ _ Hw _ _ Hid)
    as (Hback & Hnot0 & _).
  destruct (created_registry _ _ _ _ _ _ _ _ _ Hm _ _ _ _ Hw) as [_ Hiw].
  destruct (created_registry _ _ _ _ _ _ _ _ _ Hm _ _ _ _ Hr) as [_ Hir].
  destruct (created_secrets _ _ _ _ _ _ _ _ _ Hm _ _ _ _ Hw)
    as (Hpw & Hsw & _).
  destruct (created_secrets _ _ _ _ _ _ _ _ _ Hm _ _ _ _ Hr)
    as (Hpr & Hsr & _).
  rewrite encode_decode_utf8.
  exists encoded. split; [assumption|].
  split; [apply sign_serialization_eq|].
  split.
  - apply signed_bytes_changed. split; [congruence|].
    rewrite Hsw, Hsr.
    destruct Hchanged as [(Hk & -> & Hc)|[(-> & Hs & Hc)|(-> & -> & Hc)]].
    + right; left. now repeat split.
    + right; right; left. repeat split; try assumption.
      intros E. apply Hs. now apply encode_utf8_inj.
    + right; right; right. now repeat split.
  - intros Hdigest. split; [|reflexivity].
    rewrite (deserialize_checked reader key' tid _ _ (Some t) encoded).
    + now rewrite eqb_neq.
    + assumption.
    + rewrite Hir, <- Hiw. exact Hback.
    + apply urlsafe_b64_roundtrip.
Qed.

(** X7.  For a token whose identifier is known and is not ["0"]: when the
    payload is not valid base64, the exception of [urlsafe_b64decode]
    leaves [_deserialize] as it is, whatever the signature, and before any
    signature is computed; when the payload decodes and the signature is
    the right one but the bytes are not JSON, the exception of
    [orjson.loads] leaves it as it is.  Neither is turned into a
    [StateRecoveryFailureError]. *)
Theorem library_failures_propagate
    (self : SR.t) (key : string) (type_id : bytes) (data : string)
    (typ : regkey) (e : exn) :
  type_id <> encode_utf8 "0" ->
  dict_get type_id (SR._type_id_to_object self) = Some typ ->
  (urlsafe_b64decode data = Raise e ->
   forall signature,
     _deserialize self key type_id data signature = Raise e) /\
  (forall payload t,
      typ = Some t ->
      urlsafe_b64decode data = Ok payload ->
      orjson_loads payload = Raise e ->
      _deserialize self key type_id data
        (sha256_hexdigest (signed_bytes self key type_id payload))
      = Raise e).
Proof.
  intros H0 Hreg. split.
  - intros Hdec signature. unfold _deserialize.
    now rewrite (eqb_neq _ _ H0), Hreg, Hdec.
  - intros payload t -> Hdec Hjson.
    rewrite (deserialize_checked _ _ _ _ _ _ _ H0 Hreg Hdec), eqb_refl.
    unfold _deserialize_object. now rewrite Hjson.
Qed.

(** X12.  The limits of the reader play no part in deserialization.  The
    writer and the reader are created by two managers that have the
    whitelist and the pepper in common, with the same salt, and hold the
    same code; the managers may differ in [max_object_length] and in
    [max_objects].  Every token the writer returns for a value other than
    [None] passes the checks of the reader, also when its encoding is
    longer than the [max_object_length] of the reader. *)
Theorem reader_limits_are_not_checked
    (whitelist : list pytype) (pepper : string)
    (otp_key otp_key' : option string)
    (otp_interval otp_interval' : Z)
    (max_objects max_objects' max_object_length max_object_length' : Z)
    (default_serializer default_serializer' : option callback)
    (deserializer_map deserializer_map' : option (dict pytype callback))
    (m m' : SM.t) (salt : string) (sent received : option pynum)
    (now now' : spec_float) (writer reader : SR.t)
    (key : string) (value : pyobj) (type_id payload signature : string) :
  SM.__init__ whitelist pepper otp_key otp_interval max_objects
    max_object_length default_serializer deserializer_map = Ok m ->
  SM.__init__ whitelist pepper otp_key' otp_interval' max_objects'
    max_object_length' default_serializer' deserializer_map' = Ok m' ->
  SM.create_serializer m salt sent now = Ok writer ->
  SM.create_serializer m' salt received now' = Ok reader ->
  SR._otp_code reader = SR._otp_code writer ->
  is_None value = false ->
  _serialize writer key value = Ok (type_id, payload, signature) ->
  SR._max_object_length reader = max_object_length' /\
  exists t encoded,
    registered whitelist t /\
    _serialize_object writer value = Ok encoded /\
    _deserialize reader key (encode_utf8 type_id) payload signature
    = _deserialize_object reader (Some t) encoded.
Proof.
  intros Hm Hm' Hw Hr Hcode Hval Hser.
  destruct (issued_token_checked _ _ _ _ _ _ _ _ _ _ _ _ _ _ _ _ _ _ _ _ _
              _ _ _ _ _ Hm Hm' Hw Hr Hcode Hval Hser)
    as (t & tid & encoded & [= -> -> ->] & _ & _ & Hreg & Henc & _ & Hcheck).
  destruct (created_secrets _ _ _ _ _ _ _ _ _ Hm' _ _ _ _ Hr)
    as (_ & _ & Hmr & _).
  split; [assumption|].
  exists t, encoded. rewrite encode_decode_utf8. now repeat split.
Qed.

End IssuedTokens.

(** ** Batches of named values *)

Section NamedBatches.
Context {RT : Runtime}.

Lemma dict_set_fresh {V} (k : string) (v : V) (d : dict string V) :
  ~ In k (map fst d) -> dict_set k v d = d ++ [(k, v)].
Proof.
  induction d as [|[k' v'] d IH]; cbn [dict_set map fst In app];
    [reflexivity|].
  intros Hfresh. rewrite eqb_neq by (intros ->; tauto).
  rewrite IH by tauto. reflexivity.
Qed.

(** With a failing value in the batch, the loop raises the exception of
    the first value that fails; the values before it had been serialized. *)
Lemma serialize_items_first_failure
    (self : SR.t) (items : dict string pyobj)
    (acc : dict string (string * string * string)) key value e :
  In (key, value) items ->
  _serialize self key value = Raise e ->
  exists before failing after e',
    items = before ++ failing :: after /\
    (forall ok, In ok before ->
                exists token, _serialize self (fst ok) (snd ok) = Ok token) /\
    _serialize self (fst failing) (snd failing) = Raise e' /\
    serialize_items self items acc = Raise e'.
Proof.
  revert acc. induction items as [|[k v] items IH]; intros acc Hin He.
  - contradiction.
  - destruct (_serialize self k v) as [token|e0] eqn:Hk.
    + destruct Hin as [[= <- <-]|Hin]; [congruence|].
      destruct (IH (dict_set k token acc) Hin He)
        as (before & failing & after & e' & -> & Hbefore & Hfail & Hrun).
      exists ((k, v) :: before), failing, after, e'.
      repeat split; try assumption.
      * intros ok [<-|Hok]; [now exists token|now apply Hbefore].
      * cbn [serialize_items]. rewrite Hk. exact Hrun.
    + exists [], (k, v), items, e0.
      repeat split; try assumption.
      * intros ok [].
      * cbn [serialize_items]. now rewrite Hk.
Qed.

(** X8.  If one value of the batch fails to serialize (its type is not
    white-listed, its encoding is too long, or orjson refuses it), the call
    raises and returns no tokens, whatever the other values are and
    wherever the failing one stands: the exception is that of the first
    value that fails, and the tokens of the values before it are not
    returned. *)
Theorem a_failing_value_aborts_the_batch
    (self : SR.t) (state_vars : dict string pyobj) key value e :
  In (key, value) state_vars ->
  _serialize self key value = Raise e ->
  exists before failing after e',
    state_vars = before ++ failing :: after /\
    (forall ok, In ok before ->
                exists token, _serialize self (fst ok) (snd ok) = Ok token) /\
    _serialize self (fst failing) (snd failing) = Raise e' /\
    serialize_state_vars self state_vars = Raise e'.
Proof.
  intros Hin He. unfold serialize_state_vars.
  now apply serialize_items_first_failure with (key := key) (value := value)
                                              (e := e).
Qed.

(** The tokens of [items], one after the other, each deserializing to the
    value it was made from. *)
Inductive tokens_of (writer reader : SR.t)
  : dict string pyobj -> dict string (string * string * string) -> Prop :=
| tokens_nil : tokens_of writer reader [] []
| tokens_cons key value token items tokens :
    _serialize writer key value = Ok token ->
    token_result reader (key, token) = Ok value ->
    tokens_of writer reader items tokens ->
    tokens_of writer reader ((key, value) :: items) ((key, token) :: tokens).

Lemma tokens_of_exist (writer reader : SR.t) (items : dict string pyobj) :
  (forall key value,
      In (key, value) items ->
      exists token,
        _serialize writer key value = Ok token /\
        token_result reader (key, token) = Ok value) ->
  exists tokens, tokens_of writer reader items tokens.
Proof.
  induction items as [|[k v] items IH]; intros Hall.
  - exists []. constructor.
  - destruct (Hall k v (or_introl eq_refl)) as (token & Hs & Hd).
    destruct IH as [tokens Ht];
      [intros key value Hin; apply Hall; now right|].
    exists ((k, token) :: tokens). now constructor.
Qed.

Lemma tokens_of_keys writer reader items tokens :
  tokens_of writer reader items tokens -> map fst tokens = map fst items.
Proof. induction 1; cbn; congruence. Qed.

Lemma serialize_items_fresh writer reader items tokens :
  tokens_of writer reader items tokens ->
  forall acc,
    NoDup (map fst acc ++ map fst items) ->
    serialize_items writer items acc = Ok (acc ++ tokens).
Proof.
  induction 1 as [|key value token items tokens Hs Hd _ IH]; intros acc Hnd.
  - now rewrite app_nil_r.
  - cbn [serialize_items]. rewrite Hs. cbn [bind].
    cbn [map fst] in Hnd.
    rewrite dict_set_fresh.
    + rewrite IH; [now rewrite <- app_assoc|].
      rewrite map_app, <- app_assoc. exact Hnd.
    + apply NoDup_remove_2 in Hnd. intros Hin. apply Hnd.
      apply in_or_app. now left.
Qed.

Lemma deserialize_items_fresh writer reader items tokens :
  tokens_of writer reader items tokens ->
  forall acc,
    NoDup (map fst acc ++ map fst items) ->
    deserialize_items reader tokens acc = Ok (acc ++ items).
Proof.
  induction 1 as [|key value [[type_id data] signature] items tokens
                    Hs Hd _ IH]; intros acc Hnd.
  - now rewrite app_nil_r.
  - cbn [deserialize_items]. cbn in Hd. rewrite Hd. cbn [bind].
    cbn [map fst] in Hnd.
    rewrite dict_set_fresh.
    + rewrite IH; [now rewrite <- app_assoc|].
      rewrite map_app, <- app_assoc. exact Hnd.
    + apply NoDup_remove_2 in Hnd. intros Hin. apply Hnd.
      apply in_or_app. now left.
Qed.

(** X9.  A batch under distinct names, each value of which serializes to a
    token that deserializes back to it: the batch serializes to one token
    per value, under the same names in the same order, and these tokens
    deserialize to the batch that was serialized. *)
Theorem batch_round_trip
    (writer reader : SR.t) (state_vars : dict string pyobj) :
  NoDup (map fst state_vars) ->
  (forall key value,
      In (key, value) state_vars ->
      exists token,
        _serialize writer key value = Ok token /\
        _deserialize reader key (encode_utf8 (fst (fst token)))
          (snd (fst token)) (snd token) = Ok value) ->
  exists tokens,
    serialize_state_vars writer state_vars = Ok tokens /\
    map fst tokens = map fst state_vars /\
    deserialize_client_state reader tokens = Ok state_vars.
Proof.
  intros Hnd Hall.
  destruct (tokens_of_exist writer reader state_vars) as [tokens Ht].
  { intros key value Hin.
    destruct (Hall key value Hin) as ([[type_id data] signature] & Hs & Hd).
    now exists (type_id, data, signature). }
  exists tokens. split; [|split].
  - apply (serialize_items_fresh _ _ _ _ Ht []). exact Hnd.
  - now apply tokens_of_keys with (writer := writer) (reader := reader).
  - apply (deserialize_items_fresh _ _ _ _ Ht []). exact Hnd.
Qed.

End NamedBatches.

(** ** The secret of a manager *)

Section Secret.
Context {RT : Runtime}.

Lemma updates_concatenate {A} (f : A -> bytes) (things : list A)
    (hasher : hashlib.hasher) :
  fold_left (fun hasher thing => hashlib.update hasher (f thing))
    things hasher
  = hasher ++ List.concat (map f things).
Proof.
  revert hasher. induction things as [|thing things IH]; intros hasher; cbn.
  - now rewrite app_nil_r.
  - rewrite IH. unfold hashlib.update. now rewrite <- app_assoc.
Qed.

(** X10.  The secret of the one-time codes of a manager.  With no [otp_key],
    or with the empty one, it is the base32 text of the SHA-256 hex digest
    of the names and creation times of the entries of the directory above
    the package, name then time for each entry, in the order of the
    listing and with nothing between them; it then depends on nothing the
    caller passes.  With a non-empty [otp_key] it is the base32 text of
    that key.  In both cases it is the secret of the TOTP object, whose
    interval is [otp_interval]. *)
Theorem secret_of_a_manager
    (whitelist : list pytype) (pepper : string) (otp_key : option string)
    (otp_interval max_objects max_object_length : Z)
    (default_serializer : option callback)
    (deserializer_map : option (dict pytype callback))
    (m : SM.t) :
  SM.__init__ whitelist pepper otp_key otp_interval max_objects
    max_object_length default_serializer deserializer_map = Ok m ->
  (otp_key = None \/ otp_key = Some EmptyString ->
   SM._otp_key m
   = b32encode
       (encode_utf8
          (sha256_hexdigest
             (List.concat (map (fun thing => encode_utf8 (fst thing ++ snd thing))
                        parent_dir_of_root))))) /\
  (forall c key,
      otp_key = Some (String c key) ->
      SM._otp_key m = b32encode (encode_utf8 (String c key))) /\
  SM._totp m = {| totp_secret := SM._otp_key m;
                  totp_interval := otp_interval |}.
Proof.
  intros Hm. unfold SM.__init__ in Hm.
  destruct (SM._map_objects_to_ids _) as [o2i i2o].
  injection Hm as <-. cbn [SM._otp_key SM._totp].
  split; [|split].
  - intros [->| ->]; cbn [SM.otp_key_or]; unfold SM._discover_otp_key;
      now rewrite updates_concatenate.
  - now intros c key ->.
  - reflexivity.
Qed.

End Secret.

(** * Properties of [component.py] *)

Section Components.
Import component_py.

Lemma init_raises function key args kwargs sig priority :
  Component.__init__ function key args kwargs sig priority
  = Raise (Exn (OtherError "AttributeError")
             (Text "'Component' object has no attribute 'priority'")).
Proof. reflexivity. Qed.

(** X11.  No call of a decorated render function returns a [Component]:
    [Component.__init__] assigns [self.priority], which is not one of the
    [__slots__] of the class, and the assignment raises [AttributeError],
    the five assignments before it having succeeded.  This holds whatever
    the render function, its arguments, the key and the priority are, and
    in both forms of the decorator, [component(function)] and
    [component(priority=...)(function)]. *)
Theorem no_component_is_constructed
    (function : pyfunction) (priority : Z)
    (call : list pyobj -> dict string pyobj -> outcome Component.t) :
  component (Some function) priority = Ok (Constructor call)
  \/ (exists decorator,
         component None priority = Ok (Decorator decorator) /\
         decorator function = Ok call) ->
  forall args keywords,
    call args keywords
    = Raise (Exn (OtherError "AttributeError")
               (Text "'Component' object has no attribute 'priority'")).
Proof.
  assert (Hc : _component priority function = Ok call ->
               forall args keywords,
                 call args keywords
                 = Raise (Exn (OtherError "AttributeError")
                            (Text "'Component' object has no attribute 'priority'"))).
  { unfold _component.
    destruct (inspect_signature function) as [sig|]; [|discriminate].
    cbn [bind].
    destruct (dict_get "key" sig) as [[]|]; try discriminate;
      intros [= <-] args keywords; unfold constructor; apply init_raises. }
  intros [Hdirect|(decorator & Hdec & Hcall)].
  - apply Hc. unfold component in Hdirect.
    destruct (_component priority function); [|discriminate].
    now injection Hdirect as ->.
  - apply Hc. unfold component in Hdec. now injection Hdec as <-.
Qed.

End Components.

(** ** The further properties on the concrete deployment *)

Section FurtherConcrete.
Import Scenario.
Import component_py.

Let zero : spec_float := S754_zero false.

Ltac by_computation := vm_compute; reflexivity.
Ltac differ := let E := fresh in intros E; vm_compute in E; discriminate E.

(** The serializer of the manager with [max_object_length=16]. *)
Definition tight_serializer : SR.t :=
  ltac:(let r := eval vm_compute in
                   (m <- tight_manager ;;
                    SM.create_serializer (RT := rt) m "session-1"
                      (Some (PyI 1000)) (S754_zero false)) in
        match r with Ok ?s => exact s end).

(** A listing of the directory above the package, and the manager built
    without [otp_key] where the listing is this one. *)
Definition listing : list (string * string) :=
  [("reactpy", "1700000000.0"); ("docs", "1700000001.5")].

Definition keyless_manager : SM.t :=
  ltac:(let r := eval vm_compute in
                   (SM.__init__ (RT := Reference.runtime [] listing)
                      [] "p3pp3r" None 30 SM.default_max_objects
                      SM.default_max_object_length None None) in
        match r with Ok ?m => exact m end).

Lemma keyless_manager_built :
  SM.__init__ (RT := Reference.runtime [] listing)
    [] "p3pp3r" None 30 SM.default_max_objects
    SM.default_max_object_length None None = Ok keyless_manager.
Proof. by_computation. Qed.

(** The token of [Point(x=1, y=2)] under the name [pos]. *)
Lemma point_token :
  _serialize (RT := rt) the_serializer "pos" (point 1 2)
  = Ok ("8", "eyJ4IjoxLCJ5IjoyfQ==",
        "e8fe4f2d164d1700e03ebfcf165c67281ad2e0520928549f9be06b81a6e0ee70").
Proof. by_computation. Qed.

(** [def view(x): ...] *)
Definition view : pyfunction :=
  {| function_repr := "<function view>";
     inspect_signature := Ok [("x", POSITIONAL_OR_KEYWORD)];
     function_call := fun _ _ => Ok PyNone |}.

(** With [max_object_length=16], a [str] of 14 letters, whose encoding has
    16 bytes, is serialized; one of 15 letters is refused. *)
Lemma size_guard_is_inclusive_witness :
  _serialize (RT := rt) tight_serializer "name" (PyStr "fourteen chars")
  = Ok ("1", "ImZvdXJ0ZWVuIGNoYXJzIg==",
        _sign_serialization (RT := rt) tight_serializer "name"
          (encode_utf8 "1")
          ([x22] ++ encode_utf8 "fourteen chars" ++ [x22]))
  /\ _serialize (RT := rt) tight_serializer "name" (PyStr "fifteen letters")
     = Raise (Exn ValueError (too_long (PyStr "fifteen letters") 17)).
Proof.
  split.
  - apply (proj1 (size_guard_is_inclusive (RT := rt) tight_serializer "name"
                    (PyStr "fourteen chars") (encode_utf8 "1")
                    ([x22] ++ encode_utf8 "fourteen chars" ++ [x22])
                    eq_refl ltac:(by_computation) ltac:(by_computation))).
    vm_compute. discriminate.
  - apply (proj2 (size_guard_is_inclusive (RT := rt) tight_serializer "name"
                    (PyStr "fifteen letters") (encode_utf8 "1")
                    ([x22] ++ encode_utf8 "fifteen letters" ++ [x22])
                    eq_refl ltac:(by_computation) ltac:(by_computation))).
    vm_compute. reflexivity.
Defined.

(** The serializer of the deployment knows the identifiers 0 to 12: a token
    under 13 is an unknown type, one under 12 goes on to the checks. *)
Lemma known_identifiers_are_the_texts_of_positions_witness :
  _deserialize (RT := rt) the_serializer "pos" (encode_utf8 "13")
    "eyJ4IjoxLCJ5IjoyfQ==" "sig"
  = Raise (Exn StateRecoveryFailureError
             (unknown_type_id (encode_utf8 "13")))
  /\ exists t,
       nth_error (positions [T_class "Point"]) 12 = Some (Some t) /\
       _deserialize (RT := rt) the_serializer "pos" (type_id_of_nat 12)
         "eyJ4IjoxLCJ5IjoyfQ==" "sig"
       = (payload <- urlsafe_b64decode (Runtime := rt)
                       "eyJ4IjoxLCJ5IjoyfQ==" ;;
          if eqb (sha256_hexdigest (Runtime := rt)
                    (signed_bytes the_serializer "pos" (type_id_of_nat 12)
                       payload))
                 "sig"
          then _deserialize_object (RT := rt) the_serializer (Some t) payload
          else Raise (Exn StateRecoveryFailureError
                        (signature_mismatch (type_id_of_nat 12)))).
Proof.
  pose proof (known_identifiers_are_the_texts_of_positions (RT := rt)
                [T_class "Point"] "p3pp3r" (Some "k")
                SM.default_otp_interval SM.default_max_objects
                SM.default_max_object_length None None
                the_manager "session-1" (Some (PyI 1000)) zero the_serializer
                "pos" "eyJ4IjoxLCJ5IjoyfQ==" "sig"
                manager_built serializer_created) as [Hunknown Hknown].
  split.
  - apply (Hunknown (encode_utf8 "13")).
    intros n Hn.
    do 13 (destruct n as [|n]; [differ|]).
    cbn in Hn. lia.
  - apply (Hknown 12). cbn. lia.
Defined.

(** In the deployment [str] has the identifier 1, [Point] 8 and [Decimal]
    9. *)
Lemma identifiers_follow_the_positions_witness :
  dict_get (Some T_str) (SM._object_to_type_id the_manager)
  = Some (type_id_of_nat 1)
  /\ dict_get (Some (T_class "Point")) (SM._object_to_type_id the_manager)
     = Some (type_id_of_nat 8)
  /\ dict_get (Some T_Decimal) (SM._object_to_type_id the_manager)
     = Some (type_id_of_nat 9).
Proof.
  pose proof (identifiers_follow_the_positions (RT := rt)
                [T_class "Point"] "p3pp3r" (Some "k")
                SM.default_otp_interval SM.default_max_objects
                SM.default_max_object_length None None
                the_manager manager_built) as (Hlead & Hlist & Hend).
  split; [|split].
  - apply (Hlead 0 T_str eq_refl). intros [E|[]]. discriminate E.
  - apply (Hlist 0 (T_class "Point") eq_refl).
    + intros [].
    + cbn. intuition discriminate.
  - apply (Hend 0 T_Decimal eq_refl).
Defined.

(** The whitelist of the deployment repeats no type: the identifier 8
    resolves to [Point], and [Point] has the identifier 8. *)
Lemma registry_dictionaries_are_inverse_witness :
  dict_get (Some (T_class "Point")) (SM._object_to_type_id the_manager)
  = Some (encode_utf8 "8")
  <-> dict_get (encode_utf8 "8") (SM._type_id_to_object the_manager)
      = Some (Some (T_class "Point")).
Proof.
  apply (proj2 (registry_dictionaries_are_inverse (RT := rt)
                  [T_class "Point"] "p3pp3r" (Some "k")
                  SM.default_otp_interval SM.default_max_objects
                  SM.default_max_object_length None None
                  the_manager manager_built)).
  - repeat constructor; cbn; intuition discriminate.
  - cbn. intuition (subst; discriminate).
Defined.

(** The token of the point passes the checks of the serializer created in
    the same interval. *)
Lemma issued_tokens_pass_the_checks_witness :
  "8" <> "0" /\
  exists t encoded,
    In t (mro (Runtime := rt) (type_of (point 1 2))) /\
    registered [T_class "Point"] t /\
    _serialize_object (RT := rt) the_serializer (point 1 2) = Ok encoded /\
    (len encoded <= SM.default_max_object_length)%Z /\
    _deserialize (RT := rt) the_serializer "pos" (encode_utf8 "8")
      "eyJ4IjoxLCJ5IjoyfQ=="
      "e8fe4f2d164d1700e03ebfcf165c67281ad2e0520928549f9be06b81a6e0ee70"
    = _deserialize_object (RT := rt) the_serializer (Some t) encoded.
Proof.
  apply (issued_tokens_pass_the_checks (RT := rt)
           [T_class "Point"] "p3pp3r" (Some "k")
           SM.default_otp_interval SM.default_max_objects
           SM.default_max_object_length None None
           the_manager "session-1" (Some (PyI 1000)) (Some (PyI 2000))
           zero zero the_serializer the_serializer
           "pos" (point 1 2) "8" "eyJ4IjoxLCJ5IjoyfQ=="
           "e8fe4f2d164d1700e03ebfcf165c67281ad2e0520928549f9be06b81a6e0ee70"
           manager_built serializer_created same_bucket_created
           eq_refl eq_refl point_token).
Defined.

(** The token of the point is refused in another session. *)
Lemma issued_tokens_are_bound_to_name_salt_and_code_witness :
  _deserialize (RT := rt) other_session "pos" (encode_utf8 "8")
    "eyJ4IjoxLCJ5IjoyfQ=="
    "e8fe4f2d164d1700e03ebfcf165c67281ad2e0520928549f9be06b81a6e0ee70"
  = Raise (Exn StateRecoveryFailureError
             (signature_mismatch (encode_utf8 "8"))).
Proof.
  destruct (issued_tokens_are_bound_to_name_salt_and_code (RT := rt)
              [T_class "Point"] "p3pp3r" (Some "k")
              SM.default_otp_interval SM.default_max_objects
              SM.default_max_object_length None None
              the_manager "session-1" "session-2"
              (Some (PyI 1000)) (Some (PyI 1000))
              zero zero the_serializer other_session
              "pos" "pos" (point 1 2) "8" "eyJ4IjoxLCJ5IjoyfQ=="
              "e8fe4f2d164d1700e03ebfcf165c67281ad2e0520928549f9be06b81a6e0ee70"
              manager_built serializer_created other_session_created
              eq_refl point_token)
    as (encoded & Henc & _ & _ & Hrefused).
  - right; left. split; [reflexivity|]. split; [discriminate|reflexivity].
  - assert (encoded = point_json) as ->.
    { vm_compute in Henc. injection Henc as <-. reflexivity. }
    apply Hrefused. differ.
Defined.

(** A payload that is not base64 gives the error of [binascii], one that
    is not JSON the error of orjson. *)
Lemma library_failures_propagate_witness :
  (forall signature,
      _deserialize (RT := rt) the_serializer "pos" (encode_utf8 "8")
        "M" signature
      = Raise (Exn (OtherError "binascii.Error")
                 (Text "Invalid base64-encoded string: number of data characters cannot be 1 more than a multiple of 4")))
  /\ _deserialize (RT := rt) the_serializer "pos" (encode_utf8 "8")
       "bm90IGpzb24="
       (sha256_hexdigest (Runtime := rt)
          (signed_bytes the_serializer "pos" (encode_utf8 "8")
             (encode_utf8 "not json")))
     = Raise (Exn (OtherError "orjson.JSONDecodeError")
                (Text "unexpected character")).
Proof.
  split.
  - apply (proj1 (library_failures_propagate (RT := rt) the_serializer "pos"
                    (encode_utf8 "8") "M" (Some (T_class "Point")) _
                    ltac:(differ) eq_refl)).
    by_computation.
  - apply (proj2 (library_failures_propagate (RT := rt) the_serializer "pos"
                    (encode_utf8 "8") "bm90IGpzb24="
                    (Some (T_class "Point")) _
                    ltac:(differ) eq_refl)
             (encode_utf8 "not json") (T_class "Point") eq_refl).
    + by_computation.
    + by_computation.
Defined.

(** A batch whose second value is of a class that is not white-listed. *)
Lemma a_failing_value_aborts_the_batch_witness :
  exists before failing after e',
    [("pos", point 1 2); ("who", session "ada"); ("n", PyInt 3)]
    = before ++ failing :: after /\
    (forall ok, In ok before ->
                exists token,
                  _serialize (RT := rt) the_serializer (fst ok) (snd ok)
                  = Ok token) /\
    _serialize (RT := rt) the_serializer (fst failing) (snd failing)
    = Raise e' /\
    serialize_state_vars (RT := rt) the_serializer
      [("pos", point 1 2); ("who", session "ada"); ("n", PyInt 3)]
    = Raise e'.
Proof.
  apply (a_failing_value_aborts_the_batch (RT := rt) the_serializer
           [("pos", point 1 2); ("who", session "ada"); ("n", PyInt 3)]
           "who" (session "ada")
           (Exn ValueError (not_whitelisted (session "ada")))).
  - right; left; reflexivity.
  - by_computation.
Defined.

(** A batch of an integer and a point. *)
Lemma batch_round_trip_witness :
  exists tokens,
    serialize_state_vars (RT := rt) the_serializer
      [("n", PyInt 3); ("pos", point 1 2)] = Ok tokens /\
    map fst tokens = ["n"; "pos"] /\
    deserialize_client_state (RT := rt) the_serializer tokens
    = Ok [("n", PyInt 3); ("pos", point 1 2)].
Proof.
  apply (batch_round_trip (RT := rt) the_serializer the_serializer
           [("n", PyInt 3); ("pos", point 1 2)]).
  - repeat constructor; cbn; intuition discriminate.
  - intros key value [[= <- <-]|[[= <- <-]|[]]].
    + eexists. split; [by_computation|by_computation].
    + eexists. split; [by_computation|by_computation].
Defined.

(** The secret of the manager built without a key over the listing. *)
Lemma secret_of_a_manager_witness :
  SM._otp_key keyless_manager
  = encode_utf8
      "HE2TIODEGYYDSMZQMYYWGOLCGA4TCZRRHFRDGM3FG43DIMBQMU3DCZTGMJRWMNJUGUYDCOLBGFTDSMLDMIYGKMRTMIZDOMRSMVQWIZQ="
  /\ SM._totp keyless_manager
     = {| totp_secret := SM._otp_key keyless_manager; totp_interval := 30 |}.
Proof.
  destruct (secret_of_a_manager (RT := Reference.runtime [] listing)
              [] "p3pp3r" None 30 SM.default_max_objects
              SM.default_max_object_length None None
              keyless_manager keyless_manager_built) as (Hnone & _ & Htotp).
  split; [|exact Htotp].
  rewrite (Hnone (or_introl eq_refl)). by_computation.
Defined.

(** [view(1)] and [component(priority=2)(view)(1)] *)
Lemma no_component_is_constructed_witness :
  (exists call,
      component (Some view) 0 = Ok (Constructor call) /\
      call [PyInt 1] []
      = Raise (Exn (OtherError "AttributeError")
                 (Text "'Component' object has no attribute 'priority'")))
  /\ (exists decorator call,
         component None 2 = Ok (Decorator decorator) /\
         decorator view = Ok call /\
         call [PyInt 1] [("key", PyStr "a")]
         = Raise (Exn (OtherError "AttributeError")
                    (Text "'Component' object has no attribute 'priority'"))).
Proof.
  split.
  - eexists. split; [reflexivity|].
    apply (no_component_is_constructed view 0). left. reflexivity.
  - eexists. eexists. split; [reflexivity|]. split; [reflexivity|].
    apply (no_component_is_constructed view 2). right.
    eexists. split; reflexivity.
Defined.

(** The manager with [max_object_length=16] and its serializer. *)
Definition the_tight_manager : SM.t :=
  ltac:(let r := eval vm_compute in tight_manager in
        match r with Ok ?m => exact m end).

Lemma tight_manager_built :
  SM.__init__ (RT := rt) [T_class "Point"] "p3pp3r" (Some "k")
    SM.default_otp_interval SM.default_max_objects 16 None None
  = Ok the_tight_manager.
Proof. by_computation. Qed.

Lemma tight_serializer_created :
  SM.create_serializer (RT := rt) the_tight_manager "session-1"
    (Some (PyI 1000)) zero = Ok tight_serializer.
Proof. by_computation. Qed.

(** The token of a [str] of 15 letters, whose encoding has 17 bytes. *)
Lemma letters_token :
  _serialize (RT := rt) the_serializer "name" (PyStr "fifteen letters")
  = Ok ("1", "ImZpZnRlZW4gbGV0dGVycyI=",
        "3ad64b5cb7791388918c84ed3b0eedede631873e452b377c7b39bf67cbd20ede").
Proof. by_computation. Qed.

(** The serializer with [max_object_length=16] accepts the token of a
    value it would not serialize itself. *)
Lemma reader_limits_are_not_checked_witness :
  SR._max_object_length tight_serializer = 16%Z /\
  exists t encoded,
    registered [T_class "Point"] t /\
    _serialize_object (RT := rt) the_serializer (PyStr "fifteen letters")
    = Ok encoded /\
    _deserialize (RT := rt) tight_serializer "name" (encode_utf8 "1")
      "ImZpZnRlZW4gbGV0dGVycyI="
      "3ad64b5cb7791388918c84ed3b0eedede631873e452b377c7b39bf67cbd20ede"
    = _deserialize_object (RT := rt) tight_serializer (Some t) encoded.
Proof.
  apply (reader_limits_are_not_checked (RT := rt)
           [T_class "Point"] "p3pp3r" (Some "k") (Some "k")
           SM.default_otp_interval SM.default_otp_interval
           SM.default_max_objects SM.default_max_objects
           SM.default_max_object_length 16 None None None None
           the_manager the_tight_manager "session-1"
           (Some (PyI 1000)) (Some (PyI 1000))
           zero zero the_serializer tight_serializer
           "name" (PyStr "fifteen letters") "1" "ImZpZnRlZW4gbGV0dGVycyI="
           "3ad64b5cb7791388918c84ed3b0eedede631873e452b377c7b39bf67cbd20ede"
           manager_built tight_manager_built
           serializer_created tight_serializer_created
           eq_refl eq_refl letters_token).
Defined.

End FurtherConcrete.

(** * The reference runtime satisfies the laws of the libraries *)

(** ** The reference codec reads back what it wrote *)

Section NumberText.
Import Reference.
Local Open Scope Z_scope.

(** The bytes of a decimal number. *)
Fixpoint uint_bytes (u : Decimal.uint) : bytes :=
  match u with
  | Decimal.Nil => []
  | Decimal.D0 u => "0"%byte :: uint_bytes u
  | Decimal.D1 u => "1"%byte :: uint_bytes u
  | Decimal.D2 u => "2"%byte :: uint_bytes u
  | Decimal.D3 u => "3"%byte :: uint_bytes u
  | Decimal.D4 u => "4"%byte :: uint_bytes u
  | Decimal.D5 u => "5"%byte :: uint_bytes u
  | Decimal.D6 u => "6"%byte :: uint_bytes u
  | Decimal.D7 u => "7"%byte :: uint_bytes u
  | Decimal.D8 u => "8"%byte :: uint_bytes u
  | Decimal.D9 u => "9"%byte :: uint_bytes u
  end.

Lemma encode_string_of_uint (u : Decimal.uint) :
  encode_utf8 (NilEmpty.string_of_uint u) = uint_bytes u.
Proof.
  unfold encode_utf8, list_byte_of_string.
  induction u; cbn; now rewrite ?IHu.
Qed.

Lemma uint_bytes_digits (u : Decimal.uint) :
  forallb is_digit (uint_bytes u) = true.
Proof. induction u; cbn; auto. Qed.

Lemma digits_from (u : Decimal.uint) (acc : positive) :
  fold_left (fun acc d => 10 * acc + (Z_of_byte d - 48)) (uint_bytes u)
    (Z.pos acc)
  = Z.pos (Pos.of_uint_acc u acc).
Proof.
  revert acc.
  induction u; intros acc; cbn [uint_bytes fold_left Pos.of_uint_acc];
    try reflexivity; rewrite <- IHu; f_equal;
    unfold Z_of_byte; cbn [Byte.to_N Z.of_N]; lia.
Qed.

Lemma digits_value (u : Decimal.uint) :
  Z_of_digits (uint_bytes u) = Z.of_N (N.of_uint u).
Proof.
  unfold Z_of_digits, N.of_uint.
  induction u; cbn [uint_bytes fold_left Pos.of_uint]; try reflexivity;
    try exact IHu; apply digits_from.
Qed.

(** The text of a natural number has no leading zero. *)
Lemma to_uint_head (n : N) :
  N.to_uint n = Decimal.D0 Decimal.Nil \/
  exists d ds, uint_bytes (N.to_uint n) = d :: ds /\ d <> "0"%byte.
Proof.
  pose proof (DecimalN.Unsigned.to_of (N.to_uint n)) as E.
  rewrite DecimalN.Unsigned.of_to in E.
  destruct (N.to_uint n) as [|u|u|u|u|u|u|u|u|u|u] eqn:Hu;
    try (right; cbn; do 2 eexists; split; [reflexivity|discriminate]).
  - discriminate E.
  - unfold Decimal.unorm in E. rewrite DecimalFacts.nzhead_D0 in E.
    destruct (Decimal.nzhead u) eqn:Hz;
      [injection E as ->; now left
      |exfalso; rewrite <- Hz in E; symmetry in E;
       exact (DecimalFacts.nzhead_nonzero _ _ E)..].
Qed.

Lemma span_digits (ds rest : bytes) :
  forallb is_digit ds = true ->
  match rest with c :: _ => is_digit c = false | [] => True end ->
  span is_digit (ds ++ rest) = (ds, rest).
Proof.
  intros Hds Hrest. induction ds as [|d ds IH]; cbn.
  - destruct rest as [|c rest]; [reflexivity|]. cbn. now rewrite Hrest.
  - cbn in Hds. apply andb_prop in Hds as [Hd Hds].
    now rewrite Hd, IH.
Qed.

(** What follows a value in a text: nothing, or a separator. *)
Definition delimited (rest : bytes) : Prop :=
  match rest with
  | [] => True
  | c :: _ => c = ","%byte \/ c = "]"%byte \/ c = "}"%byte
  end.

Lemma delimited_not_digit rest :
  delimited rest ->
  match rest with c :: _ => is_digit c = false | [] => True end.
Proof. destruct rest as [|c rest]; [easy|]. now intros [->|[->| ->]]. Qed.

Lemma delimited_not_fraction rest :
  delimited rest -> starts_fraction rest = false.
Proof. destruct rest as [|c rest]; [easy|]. now intros [->|[->| ->]]. Qed.

Lemma delimited_skip_ws rest : delimited rest -> skip_ws rest = rest.
Proof. destruct rest as [|c rest]; [easy|]. now intros [->|[->| ->]]. Qed.

Lemma text_of_natural (z : Z) :
  0 <= z -> encode_utf8 (str_of_Z z) = uint_bytes (N.to_uint (Z.to_N z)).
Proof. intros _. apply encode_string_of_uint. Qed.

Lemma natural_digits (n : N) (rest : bytes) :
  delimited rest ->
  exists d ds,
    uint_bytes (N.to_uint n) = d :: ds /\ is_digit d = true /\
    span is_digit (uint_bytes (N.to_uint n) ++ rest)
    = (d :: ds, rest) /\
    (Byte.eqb d "0"%byte && negb (Nat.eqb (List.length ds) 0) = false) /\
    Z_of_digits (d :: ds) = Z.of_N n.
Proof.
  intros Hrest.
  pose proof (uint_bytes_digits (N.to_uint n)) as Hall.
  pose proof (digits_value (N.to_uint n)) as Hval.
  rewrite DecimalN.Unsigned.of_to in Hval.
  pose proof (span_digits _ rest Hall (delimited_not_digit _ Hrest)) as Hspan.
  destruct (to_uint_head n) as [Hz|(d & ds & Hd & Hnz)].
  - rewrite Hz in *. exists "0"%byte, []. now repeat split.
  - rewrite Hd in *. exists d, ds. repeat split; try assumption.
    + cbn in Hall. now apply andb_prop in Hall as [? _].
    + destruct (Byte.eqb d "0") eqn:E; [|reflexivity].
      apply Byte.byte_dec_bl in E. contradiction.
Qed.

Lemma parse_number_text (z : Z) (rest : bytes) :
  - 2 ^ 63 <= z < 2 ^ 64 ->
  delimited rest ->
  parse_number (text_of_Z z ++ rest) = Ok (PyInt z, rest).
Proof.
  intros Hrange Hrest. unfold text_of_Z.
  destruct (Z.ltb_spec z 0) as [Hneg|Hpos].
  - change (encode_utf8 ("-" ++ str_of_Z (- z)))
      with ("-"%byte :: encode_utf8 (str_of_Z (- z))).
    rewrite text_of_natural by lia.
    destruct (natural_digits (Z.to_N (- z)) rest Hrest)
      as (d & ds & Hd & Hdig & Hspan & Hlead & Hval).
    unfold parse_number. rewrite <- app_comm_cons. cbv beta iota.
    rewrite Hspan, Hlead.
    rewrite delimited_not_fraction by assumption.
    rewrite Hval, Z2N.id by lia.
    destruct (Z.eqb_spec (- z) 0) as [E|_]; [lia|]. cbn [andb].
    rewrite Z.opp_involutive.
    destruct (Z.leb_spec (- 2 ^ 63) z), (Z.ltb_spec z (2 ^ 64));
      try lia. reflexivity.
  - rewrite text_of_natural by lia.
    destruct (natural_digits (Z.to_N z) rest Hrest)
      as (d & ds & Hd & Hdig & Hspan & Hlead & Hval).
    unfold parse_number. rewrite Hd in *. rewrite <- app_comm_cons in *.
    destruct d; try discriminate Hdig; cbv beta iota;
      rewrite Hspan, Hlead, delimited_not_fraction by assumption;
      rewrite Hval, Z2N.id by lia; cbn [andb];
      destruct (Z.leb_spec (- 2 ^ 63) z), (Z.ltb_spec z (2 ^ 64));
      try lia; reflexivity.
Qed.

End NumberText.

Section StringText.
Import Reference.
Local Open Scope Z_scope.

Lemma parse_escaped_byte (c : byte) (tail acc : bytes) :
  parse_string (escape_byte c ++ tail) acc = parse_string tail (acc ++ [c]).
Proof. destruct c; reflexivity. Qed.

Lemma parse_escaped (text tail acc : bytes) :
  parse_string (flat_map escape_byte text ++ x22 :: tail) acc
  = Ok (acc ++ text, tail).
Proof.
  revert acc. induction text as [|c text IH]; intros acc; cbn [flat_map List.app].
  - now rewrite app_nil_r.
  - rewrite <- app_assoc, parse_escaped_byte, IH, <- app_assoc.
    reflexivity.
Qed.

Lemma parse_value_string (fuel : nat) (s : string) (rest : bytes) :
  parse_value (S fuel) (json_string s ++ rest) = Ok (PyStr s, rest).
Proof.
  unfold json_string.
  change (([x22] ++ flat_map escape_byte (encode_utf8 s) ++ [x22]) ++ rest)
    with (x22 :: (flat_map escape_byte (encode_utf8 s) ++ [x22]) ++ rest).
  rewrite <- app_assoc. cbn [List.app].
  change (parse_value (S fuel) (x22 :: ?tail))
    with (r <- parse_string tail [] ;; Ok (PyStr (decode_utf8 (fst r)), snd r)).
  rewrite parse_escaped. cbn [bind fst snd List.app].
  now rewrite decode_encode_utf8.
Qed.

End StringText.

Section Containers.
Import Reference.
Variables (classes : list pyclass) (default : option callback).

(** The first byte of the text of a value. *)
Definition value_start (c : byte) : bool :=
  existsb (Byte.eqb c) (x22 :: encode_utf8 "ntf[{-0123456789").

(** The text [p] of the value [v] is read back as [v], whatever follows the
    value in the text, with fuel twice the length of [p]. *)
Definition reads_back (v : pyobj) (p : bytes) : Prop :=
  (exists c tail, p = c :: tail /\ value_start c = true) /\
  forall fuel rest,
    2 * List.length p <= fuel -> delimited rest ->
    parse_value fuel (p ++ rest) = Ok (v, rest).

Lemma mapM_Forall2 {A B} (f : A -> outcome B)
    (P : A -> Prop) (Q : A -> B -> Prop) (l : list A) (parts : list B) :
  (forall a b, P a -> f a = Ok b -> Q a b) ->
  Forall P l -> mapM f l = Ok parts -> Forall2 Q l parts.
Proof.
  intros HQ Hall. revert parts.
  induction Hall as [|a l Ha _ IH]; intros parts; cbn.
  - intros [= <-]. constructor.
  - destruct (f a) as [b|] eqn:Hb; [|discriminate]. cbn [bind].
    destruct (mapM f l) as [bs|]; [|discriminate]. cbn [bind].
    intros [= <-]. constructor; auto.
Qed.

Lemma parse_value_number (fuel : nat) (c : byte) (tail : bytes) :
  is_digit c || Byte.eqb c "-"%byte = true ->
  parse_value (S fuel) (c :: tail) = parse_number (c :: tail).
Proof. intros H. destruct c; try discriminate H; reflexivity. Qed.

Lemma parse_value_elements (fuel : nat) (c : byte) (tail : bytes) :
  value_start c = true ->
  parse_value (S fuel) ("["%byte :: c :: tail)
  = (r <- parse_elements fuel (c :: tail) [] ;; Ok (PyList (fst r), snd r)).
Proof. intros H. destruct c; try discriminate H; reflexivity. Qed.

Lemma parse_elements_step (fuel : nat) (s : bytes) (acc : list pyobj)
    (v : pyobj) (c : byte) (rest : bytes) :
  parse_value fuel s = Ok (v, c :: rest) ->
  (c = ","%byte ->
   parse_elements (S fuel) s acc = parse_elements fuel rest (acc ++ [v])) /\
  (c = "]"%byte -> parse_elements (S fuel) s acc = Ok (acc ++ [v], rest)).
Proof.
  intros Hv. split; intros ->; cbn [parse_elements]; rewrite Hv; reflexivity.
Qed.

Lemma parse_elements_joined (l : list pyobj) (parts : list bytes) :
  Forall2 reads_back l parts ->
  l <> [] ->
  forall fuel acc rest,
    2 * List.length (join (encode_utf8 ",") parts) + 1 <= fuel ->
    parse_elements fuel (join (encode_utf8 ",") parts ++ "]"%byte :: rest) acc
    = Ok (acc ++ l, rest).
Proof.
  induction 1 as [|v p l parts [_ Hv] Hrest IH]; [congruence|].
  intros _ fuel acc rest Hfuel.
  destruct fuel as [|fuel]; [lia|].
  destruct Hrest as [|v' p' l' parts' Hv' Hrest'].
  - cbn [join] in *.
    assert (Hp : parse_value fuel (p ++ "]"%byte :: rest)
                 = Ok (v, "]"%byte :: rest))
      by (apply Hv; [lia|cbn; auto]).
    now apply (proj2 (parse_elements_step fuel _ acc v "]"%byte rest Hp)).
  - change (join (encode_utf8 ",") (p :: p' :: parts'))
      with (p ++ ","%byte :: join (encode_utf8 ",") (p' :: parts')) in *.
    rewrite length_app in Hfuel. cbn [List.length] in Hfuel.
    rewrite <- app_assoc. cbn [List.app].
    assert (Hp : parse_value fuel
                   (p ++ ","%byte
                      :: join (encode_utf8 ",") (p' :: parts')
                         ++ "]"%byte :: rest)
                 = Ok (v, ","%byte
                            :: join (encode_utf8 ",") (p' :: parts')
                               ++ "]"%byte :: rest))
      by (apply Hv; [lia|cbn; auto]).
    rewrite (proj1 (parse_elements_step fuel _ acc v ","%byte _ Hp) eq_refl).
    rewrite IH by (congruence || lia).
    now rewrite <- app_assoc.
Qed.

Lemma distinct_NoDup (names : list string) :
  distinct names = true -> NoDup names.
Proof.
  induction names as [|name names IH]; cbn; [constructor|].
  intros H. apply andb_prop in H as [Hfresh Hrest].
  constructor; [|auto].
  intros Hin. apply negb_true_iff in Hfresh.
  assert (existsb (String.eqb name) names = true); [|congruence].
  apply existsb_exists. exists name. split; [assumption|].
  apply String.eqb_refl.
Qed.

Lemma parse_value_members (fuel : nat) (tail : bytes) :
  parse_value (S fuel) ("{"%byte :: x22 :: tail)
  = (r <- parse_members fuel (x22 :: tail) [] ;; Ok (PyDict (fst r), snd r)).
Proof. reflexivity. Qed.

Lemma parse_members_step (fuel : nat) (name : string) (s : bytes)
    (acc : dict string pyobj) (v : pyobj) (c : byte) (rest : bytes) :
  parse_value fuel s = Ok (v, c :: rest) ->
  (c = ","%byte ->
   parse_members (S fuel) (json_string name ++ ":"%byte :: s) acc
   = parse_members fuel rest (dict_set name v acc)) /\
  (c = "}"%byte ->
   parse_members (S fuel) (json_string name ++ ":"%byte :: s) acc
   = Ok (dict_set name v acc, rest)).
Proof.
  intros Hv. unfold json_string.
  change (([x22] ++ flat_map escape_byte (encode_utf8 name) ++ [x22])
            ++ ":"%byte :: s)
    with (x22 :: (flat_map escape_byte (encode_utf8 name) ++ [x22])
                   ++ ":"%byte :: s).
  rewrite <- app_assoc. cbn [List.app].
  split; intros ->; cbn [parse_members];
    change (skip_ws (x22 :: ?t)) with (x22 :: t); cbv beta iota;
    rewrite parse_escaped; cbn [bind fst snd List.app];
    change (skip_ws (":"%byte :: ?t)) with (":"%byte :: t); cbv beta iota;
    rewrite Hv; cbn [bind fst snd]; rewrite decode_encode_utf8;
    reflexivity.
Qed.

(** The text of a member of a [dict]: the key, a colon, the value. *)
Definition member_reads_back
    (item : string * pyobj) (part : bytes) : Prop :=
  exists p,
    part = json_string (fst item) ++ ":"%byte :: p /\
    reads_back (snd item) p.

Lemma parse_members_joined
    (d : dict string pyobj) (parts : list bytes) :
  Forall2 member_reads_back d parts ->
  d <> [] ->
  forall fuel acc rest,
    NoDup (map fst acc ++ map fst d) ->
    2 * List.length (join (encode_utf8 ",") parts) + 1 <= fuel ->
    parse_members fuel (join (encode_utf8 ",") parts ++ "}"%byte :: rest) acc
    = Ok (acc ++ d, rest).
Proof.
  induction 1 as [|[name v] part d parts (p & -> & _ & Hv) Hrest IH];
    [congruence|].
  intros _ fuel acc rest Hnd Hfuel.
  destruct fuel as [|fuel]; [lia|].
  cbn [fst snd map] in *.
  assert (Hfresh : ~ In name (map fst acc)).
  { apply NoDup_remove_2 in Hnd. intros Hin. apply Hnd.
    apply in_or_app. now left. }
  destruct Hrest as [|item' part' d' parts' Hv' Hrest'].
  - cbn [join] in *.
    rewrite length_app in Hfuel. cbn [List.length] in Hfuel.
    rewrite <- app_assoc. cbn [List.app].
    assert (Hp : parse_value fuel (p ++ "}"%byte :: rest)
                 = Ok (v, "}"%byte :: rest))
      by (apply Hv; [lia|cbn; auto]).
    rewrite (proj2 (parse_members_step fuel name _ acc v "}"%byte rest Hp)
               eq_refl).
    now rewrite dict_set_fresh.
  - change (join (encode_utf8 ",")
              ((json_string name ++ ":"%byte :: p) :: part' :: parts'))
      with ((json_string name ++ ":"%byte :: p)
              ++ ","%byte :: join (encode_utf8 ",") (part' :: parts')) in *.
    rewrite !length_app in Hfuel. cbn [List.length] in Hfuel.
    rewrite <- !app_assoc. cbn [List.app].
    assert (Hp : parse_value fuel
                   (p ++ ","%byte
                      :: join (encode_utf8 ",") (part' :: parts')
                         ++ "}"%byte :: rest)
                 = Ok (v, ","%byte
                            :: join (encode_utf8 ",") (part' :: parts')
                               ++ "}"%byte :: rest))
      by (apply Hv; [lia|cbn; auto]).
    rewrite (proj1 (parse_members_step fuel name _ acc v ","%byte _ Hp)
               eq_refl).
    rewrite dict_set_fresh by assumption.
    rewrite IH.
    + now rewrite <- app_assoc.
    + congruence.
    + rewrite map_app, <- app_assoc. exact Hnd.
    + lia.
Qed.

Lemma text_of_Z_head (z : Z) :
  exists c tail,
    text_of_Z z = c :: tail /\ is_digit c || Byte.eqb c "-"%byte = true.
Proof.
  unfold text_of_Z. destruct (z <? 0)%Z.
  - exists "-"%byte, (encode_utf8 (str_of_Z (- z))). now split.
  - unfold str_of_Z. rewrite encode_string_of_uint.
    destruct (natural_digits (Z.to_N z) [] I) as (d & ds & -> & Hd & _).
    exists d, ds. now rewrite Hd.
Qed.

Lemma number_start (c : byte) :
  is_digit c || Byte.eqb c "-"%byte = true -> value_start c = true.
Proof. intros H. destruct c; try discriminate H; reflexivity. Qed.

(** What the reference [orjson.dumps] writes for a JSON value, the
    reference [orjson.loads] reads back as that value. *)
Lemma dumped_reads_back (fuel : nat) :
  forall v e,
    json_value v = true ->
    dumps_value classes default fuel v = Ok e ->
    reads_back v e.
Proof.
  induction fuel as [|fuel IH]; intros v e Hjson Hdump; [discriminate|].
  destruct v as [|b|z|s|l|l|d|cls state]; try discriminate Hjson.
  - injection Hdump as <-. split; [now exists "n"%byte, (encode_utf8 "ull")|].
    intros [|f] rest Hf _; [cbn in Hf; lia|reflexivity].
  - destruct b; injection Hdump as <-.
    + split; [now exists "t"%byte, (encode_utf8 "rue")|].
      intros [|f] rest Hf _; [cbn in Hf; lia|reflexivity].
    + split; [now exists "f"%byte, (encode_utf8 "alse")|].
      intros [|f] rest Hf _; [cbn in Hf; lia|reflexivity].
  - cbn [dumps_value] in Hdump.
    destruct ((- 2 ^ 63 <=? z)%Z && (z <? 2 ^ 64)%Z) eqn:Hrange;
      [|discriminate].
    injection Hdump as <-.
    apply andb_prop in Hrange as [Hlo Hhi].
    apply Z.leb_le in Hlo. apply Z.ltb_lt in Hhi.
    destruct (text_of_Z_head z) as (c & tail & Hhead & Hc).
    split; [exists c, tail; split; [assumption|now apply number_start]|].
    intros [|f] rest Hf Hrest; [rewrite Hhead in Hf; cbn in Hf; lia|].
    rewrite Hhead. cbn [List.app]. rewrite parse_value_number by assumption.
    change (c :: tail ++ rest) with ((c :: tail) ++ rest).
    rewrite <- Hhead. now apply parse_number_text.
  - injection Hdump as <-.
    split; [eexists x22, _; split; reflexivity|].
    intros [|f] rest Hf _; [cbn in Hf; lia|].
    apply parse_value_string.
  - cbn [dumps_value] in Hdump. cbn [json_value] in Hjson.
    destruct (mapM (dumps_value classes default fuel) l) as [parts|] eqn:Hparts;
      [|discriminate].
    injection Hdump as <-.
    assert (Hall : Forall2 reads_back l parts).
    { apply (mapM_Forall2 _ (fun v => json_value v = true) _ _ _ IH);
        [|assumption].
      apply Forall_forall. now apply forallb_forall. }
    change (encode_utf8 "[" ++ join (encode_utf8 ",") parts ++ encode_utf8 "]")
      with ("["%byte :: join (encode_utf8 ",") parts ++ ["]"%byte]).
    split; [eexists "["%byte, _; split; reflexivity|].
    intros [|f] rest Hf _; [cbn in Hf; lia|].
    cbn [List.length] in Hf. rewrite length_app in Hf. cbn [List.length] in Hf.
    change (List.length (encode_utf8 "]")) with 1 in Hf.
    cbn [List.app]. rewrite <- app_assoc. cbn [List.app].
    destruct Hall as [|v p l parts Hv Hrest]; [reflexivity|].
    destruct (proj1 Hv) as (c & tail & -> & Hc).
    assert (Hjoin : exists tail',
               join (encode_utf8 ",") ((c :: tail) :: parts) = c :: tail').
    { destruct parts; cbn [join List.app]; eauto. }
    destruct Hjoin as [tail' Hjoin].
    assert (Hfuel : 2 * List.length
                          (join (encode_utf8 ",") ((c :: tail) :: parts)) + 1
                    <= f).
    { set (n := List.length _).
      change (2 * S (n + 1) <= S f) in Hf. lia. }
    pose proof (parse_elements_joined (v :: l) ((c :: tail) :: parts)
                  (Forall2_cons _ _ Hv Hrest) ltac:(discriminate)
                  f [] rest Hfuel) as Hparse.
    change (parse_value (S f)
              ("["%byte
                 :: join (encode_utf8 ",") ((c :: tail) :: parts)
                    ++ "]"%byte :: rest)
            = Ok (PyList (v :: l), rest)).
    rewrite Hjoin in Hparse |- *. cbn [List.app] in Hparse |- *.
    rewrite parse_value_elements by assumption.
    rewrite Hparse. reflexivity.
  - cbn [dumps_value] in Hdump. cbn [json_value] in Hjson.
    apply andb_prop in Hjson as [Hkeys Hjson].
    destruct (mapM _ d) as [parts|] eqn:Hparts; [|discriminate].
    injection Hdump as <-.
    assert (Hall : Forall2 member_reads_back d parts).
    { apply (mapM_Forall2 _ (fun item => json_value (snd item) = true)
               _ _ _) with (3 := Hparts).
      - intros item part Hitem Hpart.
        destruct (dumps_value classes default fuel (snd item)) as [p|] eqn:Hp;
          [|discriminate].
        injection Hpart as <-. exists p. split; [reflexivity|].
        now apply IH.
      - apply Forall_forall. now apply forallb_forall. }
    change (encode_utf8 "{" ++ join (encode_utf8 ",") parts ++ encode_utf8 "}")
      with ("{"%byte :: join (encode_utf8 ",") parts ++ ["}"%byte]).
    split; [eexists "{"%byte, _; split; reflexivity|].
    intros [|f] rest Hf _; [cbn in Hf; lia|].
    cbn [List.length] in Hf. rewrite length_app in Hf. cbn [List.length] in Hf.
    change (List.length (encode_utf8 "}")) with 1 in Hf.
    cbn [List.app]. rewrite <- app_assoc. cbn [List.app].
    destruct Hall as [|item part d parts Hitem Hrest]; [reflexivity|].
    assert (Hjoin : exists tail',
               join (encode_utf8 ",") (part :: parts) = x22 :: tail').
    { destruct Hitem as (p & -> & _). unfold json_string.
      destruct parts; cbn [join List.app]; eauto. }
    destruct Hjoin as [tail' Hjoin].
    assert (Hfuel : 2 * List.length
                          (join (encode_utf8 ",") (part :: parts)) + 1
                    <= f).
    { set (n := List.length _).
      change (2 * S (n + 1) <= S f) in Hf. lia. }
    pose proof (parse_members_joined (item :: d) (part :: parts)
                  (Forall2_cons _ _ Hitem Hrest) ltac:(discriminate)
                  f [] rest (distinct_NoDup _ Hkeys) Hfuel) as Hparse.
    change (parse_value (S f)
              ("{"%byte
                 :: join (encode_utf8 ",") (part :: parts)
                    ++ "}"%byte :: rest)
            = Ok (PyDict (item :: d), rest)).
    rewrite Hjoin in Hparse |- *. cbn [List.app] in Hparse |- *.
    rewrite parse_value_members.
    rewrite Hparse. reflexivity.
Qed.

End Containers.

Lemma orjson_dumps_fuel
    (classes : list Reference.pyclass) (default : option callback)
    (obj : pyobj) :
  Reference.orjson_dumps classes default obj
  = Reference.dumps_value classes default 255 obj.
Proof. reflexivity. Qed.

(** The law of orjson on the reference codec. *)
Lemma reference_reads_back
    (classes : list Reference.pyclass) (default : option callback)
    (obj : pyobj) (encoded : bytes) :
  json_value obj = true ->
  Reference.orjson_dumps classes default obj = Ok encoded ->
  Reference.orjson_loads encoded = Ok obj.
Proof.
  intros Hjson Hdump. rewrite orjson_dumps_fuel in Hdump.
  destruct (dumped_reads_back classes default _ _ _ Hjson Hdump)
    as [_ Hparse].
  specialize (Hparse (2 * List.length encoded + 2) []).
  rewrite List.app_nil_r in Hparse.
  unfold Reference.orjson_loads.
  rewrite Hparse; [reflexivity|lia|exact I].
Qed.

Section UuidText.
Import Reference.
Local Open Scope Z_scope.

(** A lower-case hexadecimal digit. *)
Definition hexchar (c : byte) : bool :=
  existsb (Byte.eqb c) (encode_utf8 "0123456789abcdef").

Lemma hexchar_facts (c : byte) :
  hexchar c = true ->
  is_ascii c = true /\ is_brace c = false /\ escape_byte c = [c] /\
  c <> "u"%byte /\ c <> "-"%byte.
Proof.
  intros H. destruct c; try discriminate H;
    (split; [reflexivity|]; split; [reflexivity|]; split; [reflexivity|];
     split; discriminate).
Qed.

Lemma hex_byte_value (k : Z) :
  0 <= k < 16 ->
  hexchar (hex_byte k) = true /\ hex_value (hex_byte k) = Some k.
Proof.
  intros Hk.
  assert (Hcases : In k [0; 1; 2; 3; 4; 5; 6; 7; 8; 9; 10; 11; 12; 13; 14; 15])
    by (cbn; lia).
  cbn [In] in Hcases.
  repeat (destruct Hcases as [<-|Hcases]; [split; reflexivity|]).
  contradiction.
Qed.

Lemma traverse_app {A B} (f : A -> option B) (l l' : list A) bs bs' :
  traverse f l = Some bs -> traverse f l' = Some bs' ->
  traverse f (l ++ l') = Some (bs ++ bs').
Proof.
  revert bs. induction l as [|a l IH]; intros bs; cbn.
  - now intros [= <-].
  - destruct (f a); [|discriminate].
    destruct (traverse f l) as [bs0|]; [|discriminate].
    intros [= <-] H'. now rewrite (IH bs0 eq_refl H').
Qed.

Lemma hex_fixed_digits (width : nat) :
  forall value,
    0 <= value ->
    List.length (hex_fixed width value) = width /\
    forallb hexchar (hex_fixed width value) = true /\
    exists ds,
      traverse hex_value (hex_fixed width value) = Some ds /\
      Z_of_hex ds = value mod 16 ^ Z.of_nat width.
Proof.
  induction width as [|width IH]; intros value Hvalue.
  - cbn. repeat split. exists []. split; [reflexivity|].
    now rewrite Z.mod_1_r.
  - cbn [hex_fixed].
    assert (Hshift : 0 <= Z.shiftr value 4) by now apply Z.shiftr_nonneg.
    destruct (IH _ Hshift) as (Hlen & Hall & ds & Hds & Hval).
    assert (Hlow : Z.land value 15 = value mod 16)
      by (change 15 with (Z.ones 4); now rewrite Z.land_ones).
    assert (Hk : 0 <= Z.land value 15 < 16)
      by (rewrite Hlow; apply Z.mod_pos_bound; lia).
    destruct (hex_byte_value _ Hk) as [Hchar Hdigit].
    split; [rewrite length_app, Hlen; cbn; lia|].
    split; [rewrite forallb_app, Hall; cbn [forallb andb]; now rewrite Hchar|].
    exists (ds ++ [Z.land value 15]). split.
    + apply traverse_app; [assumption|]. cbn [traverse]. now rewrite Hdigit.
    + unfold Z_of_hex in *. rewrite fold_left_app. cbn [fold_left].
      rewrite Hval, Hlow, Z.shiftr_div_pow2 by lia.
      rewrite Nat2Z.inj_succ, Z.pow_succ_r by lia.
      change (2 ^ 4) with 16.
      rewrite Z.rem_mul_r by lia. lia.
Qed.

Lemma remove_all_absent (p : byte) (pat s : bytes) :
  forallb (fun c => negb (Byte.eqb p c)) s = true ->
  remove_all (p :: pat) s 0 = s.
Proof.
  induction s as [|c s IH]; [reflexivity|].
  cbn [forallb]. intros H. apply andb_prop in H as [Hc Hs].
  cbn [remove_all is_prefix]. apply negb_true_iff in Hc.
  rewrite Hc. cbn [andb]. now rewrite IH.
Qed.

Lemma remove_all_dashes (s : bytes) :
  remove_all (encode_utf8 "-") s 0
  = filter (fun c => negb (Byte.eqb "-"%byte c)) s.
Proof.
  induction s as [|c s IH]; [reflexivity|].
  change (encode_utf8 "-") with ["-"%byte] in *.
  cbn [remove_all is_prefix filter List.length Nat.sub].
  destruct (Byte.eqb "-"%byte c); cbn [andb negb]; now rewrite IH.
Qed.

Lemma filter_hex (s : bytes) :
  forallb hexchar s = true ->
  filter (fun c => negb (Byte.eqb "-"%byte c)) s = s.
Proof.
  induction s as [|c s IH]; [reflexivity|].
  cbn [forallb filter]. intros H. apply andb_prop in H as [Hc Hs].
  destruct (hexchar_facts _ Hc) as (_ & _ & _ & _ & Hdash).
  destruct (Byte.eqb "-"%byte c) eqn:E.
  - apply Byte.byte_dec_bl in E. congruence.
  - cbn [negb]. now rewrite IH.
Qed.

(** The text of a UUID: hexadecimal digits and hyphens. *)
Definition uuid_char (c : byte) : bool := hexchar c || Byte.eqb c "-"%byte.

Lemma uuid_char_facts (c : byte) :
  uuid_char c = true ->
  is_ascii c = true /\ is_brace c = false /\ escape_byte c = [c] /\
  Byte.eqb "u"%byte c = false.
Proof.
  intros H. destruct c; try discriminate H; repeat split.
Qed.

Lemma forallb_weaken {A} (p q : A -> bool) (l : list A) :
  (forall a, p a = true -> q a = true) ->
  forallb p l = true -> forallb q l = true.
Proof.
  intros Hpq H. apply forallb_forall. intros a Ha.
  apply Hpq. revert a Ha. now apply forallb_forall.
Qed.

Lemma lstrip_none (p : byte -> bool) (s : bytes) :
  forallb (fun c => negb (p c)) s = true -> lstrip p s = s.
Proof.
  destruct s as [|c s]; [reflexivity|]. cbn [forallb lstrip].
  intros H. apply andb_prop in H as [Hc _].
  apply negb_true_iff in Hc. now rewrite Hc.
Qed.

Lemma strip_none (p : byte -> bool) (s : bytes) :
  forallb (fun c => negb (p c)) s = true -> strip p s = s.
Proof.
  intros H. unfold strip. rewrite (lstrip_none p s H), lstrip_none.
  - apply rev_involutive.
  - apply forallb_forall. intros c Hc. apply in_rev in Hc.
    revert c Hc. now apply forallb_forall.
Qed.

Lemma escape_none (s : bytes) :
  forallb uuid_char s = true -> flat_map escape_byte s = s.
Proof.
  induction s as [|c s IH]; [reflexivity|].
  cbn [forallb flat_map]. intros H. apply andb_prop in H as [Hc Hs].
  destruct (uuid_char_facts _ Hc) as (_ & _ & -> & _).
  now rewrite IH.
Qed.

Lemma hex_is_uuid_char (s : bytes) :
  forallb hexchar s = true -> forallb uuid_char s = true.
Proof.
  intros Hs. apply (forallb_weaken hexchar uuid_char s); [|assumption].
  intros x Hx. unfold uuid_char. now rewrite Hx.
Qed.

Lemma uuid_text_parts (n : Z) :
  0 <= n < 2 ^ 128 ->
  exists a b c d e,
    uuid_text [("int"%string, PyInt n)]
    = Some (a ++ "-"%byte :: b ++ "-"%byte :: c ++ "-"%byte :: d
              ++ "-"%byte :: e) /\
    forallb hexchar (a ++ b ++ c ++ d ++ e) = true /\
    List.length (a ++ b ++ c ++ d ++ e) = 32%nat /\
    exists ds,
      traverse hex_value (a ++ b ++ c ++ d ++ e) = Some ds /\
      Z_of_hex ds = n.
Proof.
  intros Hn.
  destruct (hex_fixed_digits 32 n (proj1 Hn))
    as (Hlen & Hall & ds & Hds & Hval).
  set (h := hex_fixed 32 n) in *.
  exists (firstn 8 h), (firstn 4 (skipn 8 h)), (firstn 4 (skipn 12 h)),
    (firstn 4 (skipn 16 h)), (skipn 20 h).
  assert (Hh : firstn 8 h ++ firstn 4 (skipn 8 h) ++ firstn 4 (skipn 12 h)
               ++ firstn 4 (skipn 16 h) ++ skipn 20 h = h).
  { assert (E : forall k k',
               k' = (4 + k)%nat ->
               skipn k h = firstn 4 (skipn k h) ++ skipn k' h)
      by (intros k k' ->; now rewrite <- skipn_skipn, firstn_skipn).
    rewrite <- (E 16%nat 20%nat eq_refl), <- (E 12%nat 16%nat eq_refl),
      <- (E 8%nat 12%nat eq_refl).
    apply firstn_skipn. }
  rewrite Hh. split; [reflexivity|]. split; [assumption|].
  split; [assumption|]. exists ds. split; [assumption|].
  rewrite Hval. apply Z.mod_small.
  change (16 ^ Z.of_nat 32) with (2 ^ 128). lia.
Qed.

Lemma parse_value_quoted (fuel : nat) (text data : bytes) :
  forallb uuid_char text = true ->
  [x22] ++ text ++ [x22] = data ->
  parse_value (S fuel) data = Ok (PyStr (decode_utf8 text), []).
Proof.
  intros Htext <-. cbn [List.app].
  change (parse_value (S fuel) (x22 :: ?tail))
    with (r <- parse_string tail [] ;; Ok (PyStr (decode_utf8 (fst r)), snd r)).
  rewrite <- (escape_none text Htext) at 1.
  rewrite parse_escaped. reflexivity.
Qed.

Lemma UUID_init_text (a b c d e : bytes) (ds : list Z) :
  forallb hexchar (a ++ b ++ c ++ d ++ e) = true ->
  List.length (a ++ b ++ c ++ d ++ e) = 32%nat ->
  traverse hex_value (a ++ b ++ c ++ d ++ e) = Some ds ->
  UUID_init
    (decode_utf8 (a ++ "-"%byte :: b ++ "-"%byte :: c ++ "-"%byte :: d
                    ++ "-"%byte :: e))
  = Ok (uuid_value (Z_of_hex ds)).
Proof.
  intros Hall Hlen Hds.
  set (text := a ++ "-"%byte :: b ++ "-"%byte :: c ++ "-"%byte :: d
                 ++ "-"%byte :: e).
  assert (Hparts : forallb hexchar a = true /\ forallb hexchar b = true /\
                   forallb hexchar c = true /\ forallb hexchar d = true /\
                   forallb hexchar e = true).
  { rewrite !forallb_app in Hall.
    repeat (apply andb_prop in Hall as [? Hall]). now repeat split. }
  destruct Hparts as (Ha & Hb & Hc & Hd & He).
  pose proof hex_is_uuid_char as Hhex.
  assert (Htext : forallb uuid_char text = true).
  { unfold text.
    repeat (rewrite forallb_app; cbn [forallb]).
    rewrite !Hhex by assumption. reflexivity. }
  assert (Hfilter : filter (fun x => negb (Byte.eqb "-"%byte x)) text
                    = a ++ b ++ c ++ d ++ e).
  { unfold text.
    repeat (rewrite filter_app; cbn [filter Byte.eqb negb]).
    now rewrite !filter_hex by assumption. }
  unfold UUID_init. rewrite encode_decode_utf8.
  rewrite (forallb_weaken uuid_char is_ascii text)
    by (assumption || (intros x Hx; apply (uuid_char_facts x Hx))).
  cbn [negb].
  assert (Hu : forallb (fun x => negb (Byte.eqb "u"%byte x)) text = true).
  { apply (forallb_weaken uuid_char); [|assumption].
    intros x Hx. destruct (uuid_char_facts x Hx) as (_ & _ & _ & ->).
    reflexivity. }
  change (encode_utf8 "urn:") with ("u"%byte :: encode_utf8 "rn:").
  change (encode_utf8 "uuid:") with ("u"%byte :: encode_utf8 "uid:").
  rewrite (remove_all_absent "u"%byte (encode_utf8 "rn:") text Hu).
  rewrite (remove_all_absent "u"%byte (encode_utf8 "uid:") text Hu).
  rewrite strip_none.
  2:{ apply (forallb_weaken uuid_char); [|assumption].
      intros x Hx. destruct (uuid_char_facts x Hx) as (_ & -> & _).
      reflexivity. }
  rewrite remove_all_dashes, Hfilter, Hlen, Hds. reflexivity.
Qed.

(** The law of orjson and [uuid.UUID] on the reference runtime. *)
Lemma reference_uuid_reads_back
    (classes : list pyclass) (default : option callback)
    (n : Z) (data : bytes) :
  0 <= n < 2 ^ 128 ->
  orjson_dumps classes default (uuid_value n) = Ok data ->
  exists text,
    orjson_loads data = Ok (PyStr text) /\
    py_call classes T_UUID [PyStr text] [] = Ok (uuid_value n).
Proof.
  intros Hn Hdump.
  destruct (uuid_text_parts n Hn)
    as (a & b & c & d & e & Htext & Hall & Hlen & ds & Hds & Hval).
  rewrite orjson_dumps_fuel in Hdump.
  change (dumps_value classes default 255 (uuid_value n))
    with (quoted (uuid_text [("int"%string, PyInt n)])) in Hdump.
  rewrite Htext in Hdump. cbn [quoted] in Hdump. injection Hdump as Hdata.
  eexists. split.
  - unfold orjson_loads.
    destruct (2 * List.length data + 2)%nat eqn:Hfuel; [lia|].
    rewrite (parse_value_quoted _ _ data) with (2 := Hdata); [reflexivity|].
    pose proof hex_is_uuid_char as Hhex.
    rewrite !forallb_app in Hall.
    repeat (apply andb_prop in Hall as [? Hall]).
    repeat (rewrite forallb_app; cbn [forallb]).
    rewrite !Hhex by assumption. reflexivity.
  - cbn [py_call]. rewrite (UUID_init_text a b c d e ds Hall Hlen Hds).
    now rewrite Hval.
Qed.

End UuidText.

(** The reference runtime behaves as the libraries are documented to. *)
Lemma reference_as_documented
    (classes : list Reference.pyclass) (listing : list (string * string)) :
  libraries_as_documented (RT := Reference.runtime classes listing).
Proof.
  split; [|split].
  - intros default obj data. apply reference_reads_back.
  - reflexivity.
  - intros default n data. apply reference_uuid_reads_back.
Qed.

Section JsonConcrete.
Import Scenario.

Let zero : spec_float := S754_zero false.

(** [[3, "tea", True, None, [-1], {"qty": 2}]] *)
Definition cart : pyobj :=
  PyList [PyInt 3; PyStr "tea"; PyBool true; PyNone; PyList [PyInt (-1)];
          PyDict [("qty", PyInt 2)]].

Definition cart_json : bytes :=
  ltac:(let r := eval vm_compute in
                   (Reference.orjson_dumps [Point; PinnedPoint; Session]
                      None cart) in
        match r with Ok ?b => exact b end).

(** [uuid.UUID("12345678-1234-5678-1234-567812345678")] *)
Definition an_uuid : pyobj := uuid_value 0x12345678123456781234567812345678.

Definition an_uuid_json : bytes :=
  ltac:(let r := eval vm_compute in
                   (Reference.orjson_dumps [Point; PinnedPoint; Session]
                      None an_uuid) in
        match r with Ok ?b => exact b end).


End JsonConcrete.
